(** * Reseller bot: wallet ledger, promo codes, pricing, order wizard and
    the order fulfilment saga (src/db.py, src/telegram_bot.py,
    src/xui_api.py).

    Modelling choices.
    - Python floats and SQLite [REAL] values are IEEE 754 binary64
      doubles ([F]): every [+], [-], [*], [/] rounds to the nearest double,
      [round(x, 2)] is CPython's correctly rounded [float.__round__], and
      [float(s)] is CPython's parser. A double bound to a statement or
      stored in a [REAL] column becomes [NULL] when it is NaN, and -0.0
      reads back as 0.0. SQL [SUM] over [REAL] values is SQLite's
      Kahan-Babuska-Neumaier sum (SQLite 3.43 and later; earlier versions
      add in row order). Python's [sum] is Python 3.11's left fold.
    - A Python [str] is its UTF-8 encoding, a Rocq [string]. The methods
      the code uses ([strip], [split], [lower], [upper], [isdigit], [len],
      [int], [float]) work on its code points with the Unicode 14 tables
      of Python 3.11. [split(",")], [split(":")], [startswith] and [==] on
      UTF-8 encodings give the same results as on code points, so they are
      written on bytes.
    - Not modelled: the 4300-digit limit of [int(str)] (Telegram messages
      have at most 4096 characters and callback data at most 64 bytes),
      the 64-bit range of SQLite integer parameters, overflow of
      [SUM(count)], strings holding lone surrogates, the quoting of the
      input inside exception messages, and the fraction of a second in
      [time.time()].
    - Each [db.*] function opens its own connection and commits when it
      returns; an exception raised inside it leaves the tables as they were
      before the call. A [db.*] function is a map [DB -> result * DB].
    - The panel ([XUIApi]) is an oracle carried in the world: the n-th HTTP
      request fails with a given message or succeeds; [uuid.uuid4] and
      [generate_sub_id] draw from supplied streams; [time.time] is a field. *)

From stdpp Require Import base gmap strings list.
From Stdlib Require Import QArith Qround Qabs Lqa ZArith Ascii String.

Open Scope Z_scope.

(* ------------------------------------------------------------------ *)
(** ** Floating point *)


Definition Qlt_bool (a b : Q) : bool := negb (Qle_bool b a).

(** IEEE 754 binary64 values, the Python [float] and the SQLite [REAL]:
    [Fin q] is a finite double other than -0.0 (its exact value [q], in
    lowest terms), [NegZero] is -0.0. *)
Inductive F := Fin (q : Q) | NegZero | Inf (neg : bool) | NaN.

(** The integer nearest to [y], ties to the even one. *)
Definition round_half_even (y : Q) : Z :=
  let n := Qnum y in
  let d := Zpos (Qden y) in
  let q := n / d in
  let r := n mod d in
  match Z.compare (2 * r) d with
  | Lt => q
  | Gt => q + 1
  | Eq => if Z.even q then q else q + 1
  end.

Definition pow2 (e : Z) : Q :=
  if 0 <=? e then inject_Z (2 ^ e) else 1 # Z.to_pos (2 ^ (- e)).

(** [floor(log2 a)] for [a > 0]. *)
Definition log2_floor (a : Q) : Z :=
  let k := Z.log2 (Qnum a) - Z.log2 (Zpos (Qden a)) in
  if Qle_bool (pow2 k) a then k else k - 1.

Definition fzero (neg : bool) : F := if neg then NegZero else Fin 0.

(** The double nearest to the exact value [q] (round to nearest, ties to
    even, 53-bit significand, exponents down to the subnormal -1074); a
    rounded magnitude of [2^1024] or more is an infinity, and a non-zero
    [q] that rounds to zero keeps its sign. *)
Definition f64 (q : Q) : F :=
  match Qnum q with
  | Z0 => Fin 0
  | num =>
      let a := Qabs q in
      let e := Z.max (log2_floor a - 52) (-1074) in
      let m := round_half_even (a * pow2 (- e)) in
      if Qle_bool (pow2 1024) (inject_Z m * pow2 e) then Inf (num <? 0)
      else if m =? 0 then fzero (num <? 0)
      else Fin (Qred (inject_Z (Z.sgn num * m) * pow2 e))
  end.

(** The sign bit. *)
Definition fsign (x : F) : bool :=
  match x with Fin q => Qlt_bool q 0 | NegZero => true | Inf b => b | NaN => false end.

(** The exact value of a finite double. *)
Definition fval (x : F) : option Q :=
  match x with Fin q => Some q | NegZero => Some 0%Q | _ => None end.

Definition fis_zero (x : F) : bool :=
  match x with Fin q => Qeq_bool q 0 | NegZero => true | _ => false end.

(** [x + y] *)
Definition fadd (x y : F) : F :=
  match x, y with
  | NaN, _ | _, NaN => NaN
  | Inf a, Inf b => if Bool.eqb a b then Inf a else NaN
  | Inf a, _ => Inf a
  | _, Inf b => Inf b
  | NegZero, NegZero => NegZero
  | NegZero, Fin q | Fin q, NegZero => Fin q
  | Fin p, Fin q => f64 (p + q)
  end.

(** [-x] *)
Definition fneg (x : F) : F :=
  match x with
  | Fin q => if Qeq_bool q 0 then NegZero else Fin (- q)
  | NegZero => Fin 0
  | Inf b => Inf (negb b)
  | NaN => NaN
  end.

(** [x - y] *)
Definition fsub (x y : F) : F := fadd x (fneg y).

(** [abs(x)] *)
Definition fabs (x : F) : F :=
  match x with
  | Fin q => Fin (Qabs q)
  | NegZero => Fin 0
  | Inf _ => Inf false
  | NaN => NaN
  end.

(** [x * y] *)
Definition fmul (x y : F) : F :=
  match x, y with
  | NaN, _ | _, NaN => NaN
  | Inf a, Inf b => Inf (xorb a b)
  | Inf a, z | z, Inf a => if fis_zero z then NaN else Inf (xorb a (fsign z))
  | _, _ =>
      match fval x, fval y with
      | Some p, Some q =>
          if Qeq_bool p 0 || Qeq_bool q 0 then fzero (xorb (fsign x) (fsign y)) else f64 (p * q)
      | _, _ => NaN
      end
  end.

(** IEEE division [x / y]. Python's [/] raises [ZeroDivisionError] when
    [y] is zero; the code only divides by [100]. *)
Definition fdiv (x y : F) : F :=
  match x, y with
  | NaN, _ | _, NaN => NaN
  | Inf _, Inf _ => NaN
  | Inf a, z => Inf (xorb a (fsign z))
  | z, Inf b => fzero (xorb (fsign z) b)
  | _, _ =>
      match fval x, fval y with
      | Some p, Some q =>
          if Qeq_bool q 0 then (if Qeq_bool p 0 then NaN else Inf (xorb (fsign x) (fsign y)))
          else if Qeq_bool p 0 then fzero (xorb (fsign x) (fsign y))
          else f64 (p / q)
      | _, _ => NaN
      end
  end.

(** Python's [x < y], [x <= y] and [x == y] on floats: false whenever a
    NaN is involved, and [-0.0 == 0.0]. *)
Definition flt (x y : F) : bool :=
  match x, y with
  | NaN, _ | _, NaN => false
  | Inf a, Inf b => a && negb b
  | Inf a, _ => a
  | _, Inf b => negb b
  | _, _ => match fval x, fval y with Some p, Some q => Qlt_bool p q | _, _ => false end
  end.

Definition feq (x y : F) : bool :=
  match x, y with
  | NaN, _ | _, NaN => false
  | Inf a, Inf b => Bool.eqb a b
  | Inf _, _ | _, Inf _ => false
  | _, _ => match fval x, fval y with Some p, Some q => Qeq_bool p q | _, _ => false end
  end.

Definition fle (x y : F) : bool := flt x y || feq x y.

Definition fis_finite (x : F) : bool := match x with Fin _ | NegZero => true | _ => false end.

(** [float(z)] for an int, as [PyLong_AsDouble] computes it (round half
    to even); [None] is its [OverflowError]. *)
Definition float_of_int (z : Z) : option F :=
  match f64 (inject_Z z) with Inf _ => None | x => Some x end.

(** [round(x, 2)] ([float.__round__], src: Objects/floatobject.c): the
    correctly rounded two-decimal string of [x] ([_Py_dg_dtoa] mode 3:
    ties to even on the exact binary value), read back as the nearest
    double; a zero result keeps the sign of [x]; infinities and NaN are
    returned as they are. *)
Definition py_round2 (x : F) : F :=
  match x with
  | Fin p =>
      let r := round_half_even (p * 100) in
      if r =? 0 then fzero (Qlt_bool p 0) else f64 (inject_Z r / 100)
  | _ => x
  end.

(** Python 3.11's [sum(xs)] with the default start [0] over floats: a
    left fold from [0 + x1], [0 + -0.0] being [0.0]. (The int [0] that
    [sum([])] returns is [Fin 0] here; it behaves as [0.0] in the
    arithmetic that follows.) *)
Definition py_sum (xs : list F) : F := fold_left fadd xs (Fin 0).

(** SQLite's [SUM] over a [REAL] column (src/func.c, since 3.43: the
    Kahan-Babuska-Neumaier summation): running sum and error term,
    [rSum + rErr] at the end unless the error term is infinite or NaN.
    [None] is SQL [NULL]: no rows, or a NaN result. *)
Definition kbn_step (acc : F * F) (r : F) : F * F :=
  let (s, err) := acc in
  let t := fadd s r in
  if flt (fabs r) (fabs s) then (t, fadd err (fadd (fsub s t) r))
  else (t, fadd err (fadd (fsub r t) s)).

Definition sql_sum (xs : list F) : option F :=
  match xs with
  | [] => None
  | _ =>
      let (s, err) := fold_left kbn_step xs (Fin 0, Fin 0) in
      match (if fis_finite err then fadd s err else s) with
      | NaN => None
      | r => Some r
      end
  end.

(** A float bound to a statement or stored in a [REAL] column: NaN
    becomes [NULL] ([None]); -0.0 is stored as the integer 0 and reads
    back as 0.0. *)
Definition sql_real (x : F) : option F :=
  match x with NaN => None | NegZero => Some (Fin 0) | _ => Some x end.

(* ------------------------------------------------------------------ *)
(** ** Python strings *)

(** The 29 code points for which [str.isspace()] holds; [str.strip()]
    and [str.split()] remove exactly these. *)
Definition space_ranges : list (Z * Z) :=
  [ (9, 13); (28, 32); (133, 133); (160, 160); (5760, 5760); (8192, 8202);
    (8232, 8233); (8239, 8239); (8287, 8287); (12288, 12288)].

(** The first code point of each run of ten decimal digits
    (general category Nd). *)
Definition decimal_zeros : list Z :=
  [ 48; 1632; 1776; 1984; 2406; 2534; 2662; 2790; 2918; 3046;
    3174; 3302; 3430; 3558; 3664; 3792; 3872; 4160; 4240; 6112;
    6160; 6470; 6608; 6784; 6800; 6992; 7088; 7232; 7248; 42528;
    43216; 43264; 43472; 43504; 43600; 44016; 65296; 66720; 68912; 69734;
    69872; 69942; 70096; 70384; 70736; 70864; 71248; 71360; 71472; 71904;
    72016; 72784; 73040; 73120; 92768; 92864; 93008; 120782; 120792; 120802;
    120812; 120822; 123200; 123632; 125264; 130032].

(** Code points with numeric type Digit but not Decimal
    (superscripts, circled digits, ...): [isdigit] holds, [int] rejects them. *)
Definition digit_ranges : list (Z * Z) :=
  [ (178, 179); (185, 185); (4969, 4977); (6618, 6618); (8304, 8304); (8308, 8313);
    (8320, 8329); (9312, 9320); (9332, 9340); (9352, 9360); (9450, 9450); (9461, 9469);
    (9471, 9471); (10102, 10110); (10112, 10120); (10122, 10130); (68160, 68163); (69216, 69224);
    (69714, 69722); (127232, 127242)].

(** [str.lower()] on one code point: runs [(lo, hi, step, delta)] map
    [c = lo, lo + step, ..., hi] to [c + delta]. *)
Definition lower_runs : list (Z * Z * Z * Z) :=
  [ (65, 90, 1, 32); (192, 214, 1, 32); (216, 222, 1, 32); (256, 302, 2, 1);
    (306, 310, 2, 1); (313, 327, 2, 1); (330, 374, 2, 1); (376, 376, 1, -121);
    (377, 381, 2, 1); (385, 385, 1, 210); (386, 388, 2, 1); (390, 390, 1, 206);
    (391, 391, 1, 1); (393, 394, 1, 205); (395, 395, 1, 1); (398, 398, 1, 79);
    (399, 399, 1, 202); (400, 400, 1, 203); (401, 401, 1, 1); (403, 403, 1, 205);
    (404, 404, 1, 207); (406, 406, 1, 211); (407, 407, 1, 209); (408, 408, 1, 1);
    (412, 412, 1, 211); (413, 413, 1, 213); (415, 415, 1, 214); (416, 420, 2, 1);
    (422, 422, 1, 218); (423, 423, 1, 1); (425, 425, 1, 218); (428, 428, 1, 1);
    (430, 430, 1, 218); (431, 431, 1, 1); (433, 434, 1, 217); (435, 437, 2, 1);
    (439, 439, 1, 219); (440, 440, 1, 1); (444, 444, 1, 1); (452, 452, 1, 2);
    (453, 453, 1, 1); (455, 455, 1, 2); (456, 456, 1, 1); (458, 458, 1, 2);
    (459, 475, 2, 1); (478, 494, 2, 1); (497, 497, 1, 2); (498, 500, 2, 1);
    (502, 502, 1, -97); (503, 503, 1, -56); (504, 542, 2, 1); (544, 544, 1, -130);
    (546, 562, 2, 1); (570, 570, 1, 10795); (571, 571, 1, 1); (573, 573, 1, -163);
    (574, 574, 1, 10792); (577, 577, 1, 1); (579, 579, 1, -195); (580, 580, 1, 69);
    (581, 581, 1, 71); (582, 590, 2, 1); (880, 882, 2, 1); (886, 886, 1, 1);
    (895, 895, 1, 116); (902, 902, 1, 38); (904, 906, 1, 37); (908, 908, 1, 64);
    (910, 911, 1, 63); (913, 929, 1, 32); (931, 939, 1, 32); (975, 975, 1, 8);
    (984, 1006, 2, 1); (1012, 1012, 1, -60); (1015, 1015, 1, 1); (1017, 1017, 1, -7);
    (1018, 1018, 1, 1); (1021, 1023, 1, -130); (1024, 1039, 1, 80); (1040, 1071, 1, 32);
    (1120, 1152, 2, 1); (1162, 1214, 2, 1); (1216, 1216, 1, 15); (1217, 1229, 2, 1);
    (1232, 1326, 2, 1); (1329, 1366, 1, 48); (4256, 4293, 1, 7264); (4295, 4295, 1, 7264);
    (4301, 4301, 1, 7264); (5024, 5103, 1, 38864); (5104, 5109, 1, 8); (7312, 7354, 1, -3008);
    (7357, 7359, 1, -3008); (7680, 7828, 2, 1); (7838, 7838, 1, -7615); (7840, 7934, 2, 1);
    (7944, 7951, 1, -8); (7960, 7965, 1, -8); (7976, 7983, 1, -8); (7992, 7999, 1, -8);
    (8008, 8013, 1, -8); (8025, 8031, 2, -8); (8040, 8047, 1, -8); (8072, 8079, 1, -8);
    (8088, 8095, 1, -8); (8104, 8111, 1, -8); (8120, 8121, 1, -8); (8122, 8123, 1, -74);
    (8124, 8124, 1, -9); (8136, 8139, 1, -86); (8140, 8140, 1, -9); (8152, 8153, 1, -8);
    (8154, 8155, 1, -100); (8168, 8169, 1, -8); (8170, 8171, 1, -112); (8172, 8172, 1, -7);
    (8184, 8185, 1, -128); (8186, 8187, 1, -126); (8188, 8188, 1, -9); (8486, 8486, 1, -7517);
    (8490, 8490, 1, -8383); (8491, 8491, 1, -8262); (8498, 8498, 1, 28); (8544, 8559, 1, 16);
    (8579, 8579, 1, 1); (9398, 9423, 1, 26); (11264, 11311, 1, 48); (11360, 11360, 1, 1);
    (11362, 11362, 1, -10743); (11363, 11363, 1, -3814); (11364, 11364, 1, -10727); (11367, 11371, 2, 1);
    (11373, 11373, 1, -10780); (11374, 11374, 1, -10749); (11375, 11375, 1, -10783); (11376, 11376, 1, -10782);
    (11378, 11378, 1, 1); (11381, 11381, 1, 1); (11390, 11391, 1, -10815); (11392, 11490, 2, 1);
    (11499, 11501, 2, 1); (11506, 11506, 1, 1); (42560, 42604, 2, 1); (42624, 42650, 2, 1);
    (42786, 42798, 2, 1); (42802, 42862, 2, 1); (42873, 42875, 2, 1); (42877, 42877, 1, -35332);
    (42878, 42886, 2, 1); (42891, 42891, 1, 1); (42893, 42893, 1, -42280); (42896, 42898, 2, 1);
    (42902, 42920, 2, 1); (42922, 42922, 1, -42308); (42923, 42923, 1, -42319); (42924, 42924, 1, -42315);
    (42925, 42925, 1, -42305); (42926, 42926, 1, -42308); (42928, 42928, 1, -42258); (42929, 42929, 1, -42282);
    (42930, 42930, 1, -42261); (42931, 42931, 1, 928); (42932, 42946, 2, 1); (42948, 42948, 1, -48);
    (42949, 42949, 1, -42307); (42950, 42950, 1, -35384); (42951, 42953, 2, 1); (42960, 42960, 1, 1);
    (42966, 42968, 2, 1); (42997, 42997, 1, 1); (65313, 65338, 1, 32); (66560, 66599, 1, 40);
    (66736, 66771, 1, 40); (66928, 66938, 1, 39); (66940, 66954, 1, 39); (66956, 66962, 1, 39);
    (66964, 66965, 1, 39); (68736, 68786, 1, 64); (71840, 71871, 1, 32); (93760, 93791, 1, 32);
    (125184, 125217, 1, 34)].

(** Code points whose [lower()] is several code points. *)
Definition lower_multi : list (Z * list Z) :=
  [ (304, [105; 775])].

(** [str.upper()] on one code point: runs [(lo, hi, step, delta)] map
    [c = lo, lo + step, ..., hi] to [c + delta]. *)
Definition upper_runs : list (Z * Z * Z * Z) :=
  [ (97, 122, 1, -32); (181, 181, 1, 743); (224, 246, 1, -32); (248, 254, 1, -32);
    (255, 255, 1, 121); (257, 303, 2, -1); (305, 305, 1, -232); (307, 311, 2, -1);
    (314, 328, 2, -1); (331, 375, 2, -1); (378, 382, 2, -1); (383, 383, 1, -300);
    (384, 384, 1, 195); (387, 389, 2, -1); (392, 392, 1, -1); (396, 396, 1, -1);
    (402, 402, 1, -1); (405, 405, 1, 97); (409, 409, 1, -1); (410, 410, 1, 163);
    (414, 414, 1, 130); (417, 421, 2, -1); (424, 424, 1, -1); (429, 429, 1, -1);
    (432, 432, 1, -1); (436, 438, 2, -1); (441, 441, 1, -1); (445, 445, 1, -1);
    (447, 447, 1, 56); (453, 453, 1, -1); (454, 454, 1, -2); (456, 456, 1, -1);
    (457, 457, 1, -2); (459, 459, 1, -1); (460, 460, 1, -2); (462, 476, 2, -1);
    (477, 477, 1, -79); (479, 495, 2, -1); (498, 498, 1, -1); (499, 499, 1, -2);
    (501, 501, 1, -1); (505, 543, 2, -1); (547, 563, 2, -1); (572, 572, 1, -1);
    (575, 576, 1, 10815); (578, 578, 1, -1); (583, 591, 2, -1); (592, 592, 1, 10783);
    (593, 593, 1, 10780); (594, 594, 1, 10782); (595, 595, 1, -210); (596, 596, 1, -206);
    (598, 599, 1, -205); (601, 601, 1, -202); (603, 603, 1, -203); (604, 604, 1, 42319);
    (608, 608, 1, -205); (609, 609, 1, 42315); (611, 611, 1, -207); (613, 613, 1, 42280);
    (614, 614, 1, 42308); (616, 616, 1, -209); (617, 617, 1, -211); (618, 618, 1, 42308);
    (619, 619, 1, 10743); (620, 620, 1, 42305); (623, 623, 1, -211); (625, 625, 1, 10749);
    (626, 626, 1, -213); (629, 629, 1, -214); (637, 637, 1, 10727); (640, 640, 1, -218);
    (642, 642, 1, 42307); (643, 643, 1, -218); (647, 647, 1, 42282); (648, 648, 1, -218);
    (649, 649, 1, -69); (650, 651, 1, -217); (652, 652, 1, -71); (658, 658, 1, -219);
    (669, 669, 1, 42261); (670, 670, 1, 42258); (837, 837, 1, 84); (881, 883, 2, -1);
    (887, 887, 1, -1); (891, 893, 1, 130); (940, 940, 1, -38); (941, 943, 1, -37);
    (945, 961, 1, -32); (962, 962, 1, -31); (963, 971, 1, -32); (972, 972, 1, -64);
    (973, 974, 1, -63); (976, 976, 1, -62); (977, 977, 1, -57); (981, 981, 1, -47);
    (982, 982, 1, -54); (983, 983, 1, -8); (985, 1007, 2, -1); (1008, 1008, 1, -86);
    (1009, 1009, 1, -80); (1010, 1010, 1, 7); (1011, 1011, 1, -116); (1013, 1013, 1, -96);
    (1016, 1016, 1, -1); (1019, 1019, 1, -1); (1072, 1103, 1, -32); (1104, 1119, 1, -80);
    (1121, 1153, 2, -1); (1163, 1215, 2, -1); (1218, 1230, 2, -1); (1231, 1231, 1, -15);
    (1233, 1327, 2, -1); (1377, 1414, 1, -48); (4304, 4346, 1, 3008); (4349, 4351, 1, 3008);
    (5112, 5117, 1, -8); (7296, 7296, 1, -6254); (7297, 7297, 1, -6253); (7298, 7298, 1, -6244);
    (7299, 7300, 1, -6242); (7301, 7301, 1, -6243); (7302, 7302, 1, -6236); (7303, 7303, 1, -6181);
    (7304, 7304, 1, 35266); (7545, 7545, 1, 35332); (7549, 7549, 1, 3814); (7566, 7566, 1, 35384);
    (7681, 7829, 2, -1); (7835, 7835, 1, -59); (7841, 7935, 2, -1); (7936, 7943, 1, 8);
    (7952, 7957, 1, 8); (7968, 7975, 1, 8); (7984, 7991, 1, 8); (8000, 8005, 1, 8);
    (8017, 8023, 2, 8); (8032, 8039, 1, 8); (8048, 8049, 1, 74); (8050, 8053, 1, 86);
    (8054, 8055, 1, 100); (8056, 8057, 1, 128); (8058, 8059, 1, 112); (8060, 8061, 1, 126);
    (8112, 8113, 1, 8); (8126, 8126, 1, -7205); (8144, 8145, 1, 8); (8160, 8161, 1, 8);
    (8165, 8165, 1, 7); (8526, 8526, 1, -28); (8560, 8575, 1, -16); (8580, 8580, 1, -1);
    (9424, 9449, 1, -26); (11312, 11359, 1, -48); (11361, 11361, 1, -1); (11365, 11365, 1, -10795);
    (11366, 11366, 1, -10792); (11368, 11372, 2, -1); (11379, 11379, 1, -1); (11382, 11382, 1, -1);
    (11393, 11491, 2, -1); (11500, 11502, 2, -1); (11507, 11507, 1, -1); (11520, 11557, 1, -7264);
    (11559, 11559, 1, -7264); (11565, 11565, 1, -7264); (42561, 42605, 2, -1); (42625, 42651, 2, -1);
    (42787, 42799, 2, -1); (42803, 42863, 2, -1); (42874, 42876, 2, -1); (42879, 42887, 2, -1);
    (42892, 42892, 1, -1); (42897, 42899, 2, -1); (42900, 42900, 1, 48); (42903, 42921, 2, -1);
    (42933, 42947, 2, -1); (42952, 42954, 2, -1); (42961, 42961, 1, -1); (42967, 42969, 2, -1);
    (42998, 42998, 1, -1); (43859, 43859, 1, -928); (43888, 43967, 1, -38864); (65345, 65370, 1, -32);
    (66600, 66639, 1, -40); (66776, 66811, 1, -40); (66967, 66977, 1, -39); (66979, 66993, 1, -39);
    (66995, 67001, 1, -39); (67003, 67004, 1, -39); (68800, 68850, 1, -64); (71872, 71903, 1, -32);
    (93792, 93823, 1, -32); (125218, 125251, 1, -34)].

(** Code points whose [upper()] is several code points. *)
Definition upper_multi : list (Z * list Z) :=
  [ (223, [83; 83]); (329, [700; 78]); (496, [74; 780]); (912, [921; 776; 769]);
    (944, [933; 776; 769]); (1415, [1333; 1362]); (7830, [72; 817]); (7831, [84; 776]);
    (7832, [87; 778]); (7833, [89; 778]); (7834, [65; 702]); (8016, [933; 787]);
    (8018, [933; 787; 768]); (8020, [933; 787; 769]); (8022, [933; 787; 834]); (8064, [7944; 921]);
    (8065, [7945; 921]); (8066, [7946; 921]); (8067, [7947; 921]); (8068, [7948; 921]);
    (8069, [7949; 921]); (8070, [7950; 921]); (8071, [7951; 921]); (8072, [7944; 921]);
    (8073, [7945; 921]); (8074, [7946; 921]); (8075, [7947; 921]); (8076, [7948; 921]);
    (8077, [7949; 921]); (8078, [7950; 921]); (8079, [7951; 921]); (8080, [7976; 921]);
    (8081, [7977; 921]); (8082, [7978; 921]); (8083, [7979; 921]); (8084, [7980; 921]);
    (8085, [7981; 921]); (8086, [7982; 921]); (8087, [7983; 921]); (8088, [7976; 921]);
    (8089, [7977; 921]); (8090, [7978; 921]); (8091, [7979; 921]); (8092, [7980; 921]);
    (8093, [7981; 921]); (8094, [7982; 921]); (8095, [7983; 921]); (8096, [8040; 921]);
    (8097, [8041; 921]); (8098, [8042; 921]); (8099, [8043; 921]); (8100, [8044; 921]);
    (8101, [8045; 921]); (8102, [8046; 921]); (8103, [8047; 921]); (8104, [8040; 921]);
    (8105, [8041; 921]); (8106, [8042; 921]); (8107, [8043; 921]); (8108, [8044; 921]);
    (8109, [8045; 921]); (8110, [8046; 921]); (8111, [8047; 921]); (8114, [8122; 921]);
    (8115, [913; 921]); (8116, [902; 921]); (8118, [913; 834]); (8119, [913; 834; 921]);
    (8124, [913; 921]); (8130, [8138; 921]); (8131, [919; 921]); (8132, [905; 921]);
    (8134, [919; 834]); (8135, [919; 834; 921]); (8140, [919; 921]); (8146, [921; 776; 768]);
    (8147, [921; 776; 769]); (8150, [921; 834]); (8151, [921; 776; 834]); (8162, [933; 776; 768]);
    (8163, [933; 776; 769]); (8164, [929; 787]); (8166, [933; 834]); (8167, [933; 776; 834]);
    (8178, [8186; 921]); (8179, [937; 921]); (8180, [911; 921]); (8182, [937; 834]);
    (8183, [937; 834; 921]); (8188, [937; 921]); (64256, [70; 70]); (64257, [70; 73]);
    (64258, [70; 76]); (64259, [70; 70; 73]); (64260, [70; 70; 76]); (64261, [83; 84]);
    (64262, [83; 84]); (64275, [1348; 1350]); (64276, [1348; 1333]); (64277, [1348; 1339]);
    (64278, [1358; 1350]); (64279, [1348; 1341])].

(** Cased and case-ignorable code points (Unicode properties), for the
    final-sigma rule of [str.lower()]. *)
Definition cased_ranges : list (Z * Z) :=
  [ (65, 90); (97, 122); (170, 170); (181, 181); (186, 186); (192, 214);
    (216, 246); (248, 442); (444, 447); (452, 659); (661, 687); (880, 883);
    (886, 887); (891, 893); (895, 895); (902, 902); (904, 906); (908, 908);
    (910, 929); (931, 1013); (1015, 1153); (1162, 1327); (1329, 1366); (1376, 1416);
    (4256, 4293); (4295, 4295); (4301, 4301); (4304, 4346); (4349, 4351); (5024, 5109);
    (5112, 5117); (7296, 7304); (7312, 7354); (7357, 7359); (7424, 7467); (7531, 7543);
    (7545, 7578); (7680, 7957); (7960, 7965); (7968, 8005); (8008, 8013); (8016, 8023);
    (8025, 8025); (8027, 8027); (8029, 8029); (8031, 8061); (8064, 8116); (8118, 8124);
    (8126, 8126); (8130, 8132); (8134, 8140); (8144, 8147); (8150, 8155); (8160, 8172);
    (8178, 8180); (8182, 8188); (8450, 8450); (8455, 8455); (8458, 8467); (8469, 8469);
    (8473, 8477); (8484, 8484); (8486, 8486); (8488, 8488); (8490, 8493); (8495, 8500);
    (8505, 8505); (8508, 8511); (8517, 8521); (8526, 8526); (8544, 8575); (8579, 8580);
    (9398, 9449); (11264, 11387); (11390, 11492); (11499, 11502); (11506, 11507); (11520, 11557);
    (11559, 11559); (11565, 11565); (42560, 42605); (42624, 42651); (42786, 42863); (42865, 42887);
    (42891, 42894); (42896, 42954); (42960, 42961); (42963, 42963); (42965, 42969); (42997, 42998);
    (43002, 43002); (43824, 43866); (43872, 43880); (43888, 43967); (64256, 64262); (64275, 64279);
    (65313, 65338); (65345, 65370); (66560, 66639); (66736, 66771); (66776, 66811); (66928, 66938);
    (66940, 66954); (66956, 66962); (66964, 66965); (66967, 66977); (66979, 66993); (66995, 67001);
    (67003, 67004); (68736, 68786); (68800, 68850); (71840, 71903); (93760, 93823); (119808, 119892);
    (119894, 119964); (119966, 119967); (119970, 119970); (119973, 119974); (119977, 119980); (119982, 119993);
    (119995, 119995); (119997, 120003); (120005, 120069); (120071, 120074); (120077, 120084); (120086, 120092);
    (120094, 120121); (120123, 120126); (120128, 120132); (120134, 120134); (120138, 120144); (120146, 120485);
    (120488, 120512); (120514, 120538); (120540, 120570); (120572, 120596); (120598, 120628); (120630, 120654);
    (120656, 120686); (120688, 120712); (120714, 120744); (120746, 120770); (120772, 120779); (122624, 122633);
    (122635, 122654); (125184, 125251); (127280, 127305); (127312, 127337); (127344, 127369)].

Definition case_ignorable_ranges : list (Z * Z) :=
  [ (39, 39); (46, 46); (58, 58); (94, 94); (96, 96); (168, 168);
    (173, 173); (175, 175); (180, 180); (183, 184); (688, 879); (884, 885);
    (890, 890); (900, 901); (903, 903); (1155, 1161); (1369, 1369); (1375, 1375);
    (1425, 1469); (1471, 1471); (1473, 1474); (1476, 1477); (1479, 1479); (1524, 1524);
    (1536, 1541); (1552, 1562); (1564, 1564); (1600, 1600); (1611, 1631); (1648, 1648);
    (1750, 1757); (1759, 1768); (1770, 1773); (1807, 1807); (1809, 1809); (1840, 1866);
    (1958, 1968); (2027, 2037); (2042, 2042); (2045, 2045); (2070, 2093); (2137, 2139);
    (2184, 2184); (2192, 2193); (2200, 2207); (2249, 2306); (2362, 2362); (2364, 2364);
    (2369, 2376); (2381, 2381); (2385, 2391); (2402, 2403); (2417, 2417); (2433, 2433);
    (2492, 2492); (2497, 2500); (2509, 2509); (2530, 2531); (2558, 2558); (2561, 2562);
    (2620, 2620); (2625, 2626); (2631, 2632); (2635, 2637); (2641, 2641); (2672, 2673);
    (2677, 2677); (2689, 2690); (2748, 2748); (2753, 2757); (2759, 2760); (2765, 2765);
    (2786, 2787); (2810, 2815); (2817, 2817); (2876, 2876); (2879, 2879); (2881, 2884);
    (2893, 2893); (2901, 2902); (2914, 2915); (2946, 2946); (3008, 3008); (3021, 3021);
    (3072, 3072); (3076, 3076); (3132, 3132); (3134, 3136); (3142, 3144); (3146, 3149);
    (3157, 3158); (3170, 3171); (3201, 3201); (3260, 3260); (3263, 3263); (3270, 3270);
    (3276, 3277); (3298, 3299); (3328, 3329); (3387, 3388); (3393, 3396); (3405, 3405);
    (3426, 3427); (3457, 3457); (3530, 3530); (3538, 3540); (3542, 3542); (3633, 3633);
    (3636, 3642); (3654, 3662); (3761, 3761); (3764, 3772); (3782, 3782); (3784, 3789);
    (3864, 3865); (3893, 3893); (3895, 3895); (3897, 3897); (3953, 3966); (3968, 3972);
    (3974, 3975); (3981, 3991); (3993, 4028); (4038, 4038); (4141, 4144); (4146, 4151);
    (4153, 4154); (4157, 4158); (4184, 4185); (4190, 4192); (4209, 4212); (4226, 4226);
    (4229, 4230); (4237, 4237); (4253, 4253); (4348, 4348); (4957, 4959); (5906, 5908);
    (5938, 5939); (5970, 5971); (6002, 6003); (6068, 6069); (6071, 6077); (6086, 6086);
    (6089, 6099); (6103, 6103); (6109, 6109); (6155, 6159); (6211, 6211); (6277, 6278);
    (6313, 6313); (6432, 6434); (6439, 6440); (6450, 6450); (6457, 6459); (6679, 6680);
    (6683, 6683); (6742, 6742); (6744, 6750); (6752, 6752); (6754, 6754); (6757, 6764);
    (6771, 6780); (6783, 6783); (6823, 6823); (6832, 6862); (6912, 6915); (6964, 6964);
    (6966, 6970); (6972, 6972); (6978, 6978); (7019, 7027); (7040, 7041); (7074, 7077);
    (7080, 7081); (7083, 7085); (7142, 7142); (7144, 7145); (7149, 7149); (7151, 7153);
    (7212, 7219); (7222, 7223); (7288, 7293); (7376, 7378); (7380, 7392); (7394, 7400);
    (7405, 7405); (7412, 7412); (7416, 7417); (7468, 7530); (7544, 7544); (7579, 7679);
    (8125, 8125); (8127, 8129); (8141, 8143); (8157, 8159); (8173, 8175); (8189, 8190);
    (8203, 8207); (8216, 8217); (8228, 8228); (8231, 8231); (8234, 8238); (8288, 8292);
    (8294, 8303); (8305, 8305); (8319, 8319); (8336, 8348); (8400, 8432); (11388, 11389);
    (11503, 11505); (11631, 11631); (11647, 11647); (11744, 11775); (11823, 11823); (12293, 12293);
    (12330, 12333); (12337, 12341); (12347, 12347); (12441, 12446); (12540, 12542); (40981, 40981);
    (42232, 42237); (42508, 42508); (42607, 42610); (42612, 42621); (42623, 42623); (42652, 42655);
    (42736, 42737); (42752, 42785); (42864, 42864); (42888, 42890); (42994, 42996); (43000, 43001);
    (43010, 43010); (43014, 43014); (43019, 43019); (43045, 43046); (43052, 43052); (43204, 43205);
    (43232, 43249); (43263, 43263); (43302, 43309); (43335, 43345); (43392, 43394); (43443, 43443);
    (43446, 43449); (43452, 43453); (43471, 43471); (43493, 43494); (43561, 43566); (43569, 43570);
    (43573, 43574); (43587, 43587); (43596, 43596); (43632, 43632); (43644, 43644); (43696, 43696);
    (43698, 43700); (43703, 43704); (43710, 43711); (43713, 43713); (43741, 43741); (43756, 43757);
    (43763, 43764); (43766, 43766); (43867, 43871); (43881, 43883); (44005, 44005); (44008, 44008);
    (44013, 44013); (64286, 64286); (64434, 64450); (65024, 65039); (65043, 65043); (65056, 65071);
    (65106, 65106); (65109, 65109); (65279, 65279); (65287, 65287); (65294, 65294); (65306, 65306);
    (65342, 65342); (65344, 65344); (65392, 65392); (65438, 65439); (65507, 65507); (65529, 65531);
    (66045, 66045); (66272, 66272); (66422, 66426); (67456, 67461); (67463, 67504); (67506, 67514);
    (68097, 68099); (68101, 68102); (68108, 68111); (68152, 68154); (68159, 68159); (68325, 68326);
    (68900, 68903); (69291, 69292); (69446, 69456); (69506, 69509); (69633, 69633); (69688, 69702);
    (69744, 69744); (69747, 69748); (69759, 69761); (69811, 69814); (69817, 69818); (69821, 69821);
    (69826, 69826); (69837, 69837); (69888, 69890); (69927, 69931); (69933, 69940); (70003, 70003);
    (70016, 70017); (70070, 70078); (70089, 70092); (70095, 70095); (70191, 70193); (70196, 70196);
    (70198, 70199); (70206, 70206); (70367, 70367); (70371, 70378); (70400, 70401); (70459, 70460);
    (70464, 70464); (70502, 70508); (70512, 70516); (70712, 70719); (70722, 70724); (70726, 70726);
    (70750, 70750); (70835, 70840); (70842, 70842); (70847, 70848); (70850, 70851); (71090, 71093);
    (71100, 71101); (71103, 71104); (71132, 71133); (71219, 71226); (71229, 71229); (71231, 71232);
    (71339, 71339); (71341, 71341); (71344, 71349); (71351, 71351); (71453, 71455); (71458, 71461);
    (71463, 71467); (71727, 71735); (71737, 71738); (71995, 71996); (71998, 71998); (72003, 72003);
    (72148, 72151); (72154, 72155); (72160, 72160); (72193, 72202); (72243, 72248); (72251, 72254);
    (72263, 72263); (72273, 72278); (72281, 72283); (72330, 72342); (72344, 72345); (72752, 72758);
    (72760, 72765); (72767, 72767); (72850, 72871); (72874, 72880); (72882, 72883); (72885, 72886);
    (73009, 73014); (73018, 73018); (73020, 73021); (73023, 73029); (73031, 73031); (73104, 73105);
    (73109, 73109); (73111, 73111); (73459, 73460); (78896, 78904); (92912, 92916); (92976, 92982);
    (92992, 92995); (94031, 94031); (94095, 94111); (94176, 94177); (94179, 94180); (110576, 110579);
    (110581, 110587); (110589, 110590); (113821, 113822); (113824, 113827); (118528, 118573); (118576, 118598);
    (119143, 119145); (119155, 119170); (119173, 119179); (119210, 119213); (119362, 119364); (121344, 121398);
    (121403, 121452); (121461, 121461); (121476, 121476); (121499, 121503); (121505, 121519); (122880, 122886);
    (122888, 122904); (122907, 122913); (122915, 122916); (122918, 122922); (123184, 123197); (123566, 123566);
    (123628, 123631); (125136, 125142); (125252, 125259); (127995, 127999); (917505, 917505); (917536, 917631);
    (917760, 917999)].

Definition in_range (lo hi c : Z) : bool := (lo <=? c) && (c <=? hi).
Definition in_ranges (rs : list (Z * Z)) (c : Z) : bool :=
  existsb (fun r => in_range r.1 r.2 c) rs.

(** [Py_UNICODE_ISSPACE] *)
Definition is_py_space (c : Z) : bool := in_ranges space_ranges c.

(** [Py_UNICODE_TODECIMAL]: the value of a decimal digit. *)
Definition decimal_value (c : Z) : option Z :=
  match List.find (fun z => in_range z (z + 9) c) decimal_zeros with
  | Some z => Some (c - z)
  | None => None
  end.

(** [Py_UNICODE_ISDIGIT] *)
Definition is_py_digit (c : Z) : bool :=
  bool_decide (is_Some (decimal_value c)) || in_ranges digit_ranges c.

Fixpoint run_lookup (rs : list (Z * Z * Z * Z)) (c : Z) : option Z :=
  match rs with
  | [] => None
  | (lo, hi, step, delta) :: rs' =>
      if in_range lo hi c && ((c - lo) mod step =? 0) then Some (c + delta)
      else run_lookup rs' c
  end.

(** The full case mapping of one code point. *)
Definition case_map (runs : list (Z * Z * Z * Z)) (multi : list (Z * list Z)) (c : Z) : list Z :=
  match run_lookup runs c with
  | Some d => [d]
  | None =>
      match List.find (fun m => m.1 =? c) multi with
      | Some m => m.2
      | None => [c]
      end
  end.

(* ------------------------------------------------------------------ *)
(** UTF-8. A Python [str] is modelled by its UTF-8 encoding, a Rocq
    [string]; its code points are [py_chars]. *)

Definition byte (a : ascii) : Z := Z.of_nat (nat_of_ascii a).
Definition of_byte (z : Z) : ascii := ascii_of_nat (Z.to_nat z).

Definition cont (b : Z) : bool := in_range 128 191 b.

(** The range of the second byte of a 3- or 4-byte sequence
    (Unicode Table 3-7). *)
Definition second_lo (b0 : Z) : Z := if b0 =? 224 then 160 else if b0 =? 240 then 144 else 128.
Definition second_hi (b0 : Z) : Z := if b0 =? 237 then 159 else if b0 =? 244 then 143 else 191.

Definition seq2 (b0 b1 : Z) : bool := in_range 194 223 b0 && cont b1.
Definition seq3 (b0 b1 b2 : Z) : bool :=
  in_range 224 239 b0 && in_range (second_lo b0) (second_hi b0) b1 && cont b2.
Definition seq4 (b0 b1 b2 b3 : Z) : bool :=
  in_range 240 244 b0 && in_range (second_lo b0) (second_hi b0) b1 && cont b2 && cont b3.

(** Decoding; a byte that does not start a well-formed sequence decodes
    to U+FFFD (the encodings of [str] values contain none). *)
Fixpoint utf8_decode (l : list ascii) : list Z :=
  match l with
  | [] => []
  | a0 :: r1 =>
      let b0 := byte a0 in
      if b0 <? 128 then b0 :: utf8_decode r1 else
      match r1 with
      | [] => [65533]
      | a1 :: r2 =>
          let b1 := byte a1 in
          if seq2 b0 b1 then (64 * (b0 - 192) + (b1 - 128)) :: utf8_decode r2 else
          match r2 with
          | [] => 65533 :: utf8_decode r1
          | a2 :: r3 =>
              let b2 := byte a2 in
              if seq3 b0 b1 b2
              then (4096 * (b0 - 224) + 64 * (b1 - 128) + (b2 - 128)) :: utf8_decode r3 else
              match r3 with
              | [] => 65533 :: utf8_decode r1
              | a3 :: r4 =>
                  let b3 := byte a3 in
                  if seq4 b0 b1 b2 b3
                  then (262144 * (b0 - 240) + 4096 * (b1 - 128) + 64 * (b2 - 128) + (b3 - 128))
                         :: utf8_decode r4
                  else 65533 :: utf8_decode r1
              end
          end
      end
  end.

Definition utf8_encode_cp (c : Z) : list ascii :=
  map of_byte
    (if c <? 128 then [c]
     else if c <? 2048 then [192 + c / 64; 128 + c mod 64]
     else if c <? 65536 then [224 + c / 4096; 128 + (c mod 4096) / 64; 128 + c mod 64]
     else [240 + c / 262144; 128 + (c mod 262144) / 4096; 128 + (c mod 4096) / 64; 128 + c mod 64]).

Definition utf8_encode (cs : list Z) : string :=
  string_of_list_ascii (List.concat (map utf8_encode_cp cs)).

Definition py_chars (s : string) : list Z := utf8_decode (list_ascii_of_string s).

(** [len(s)] *)
Definition py_len (s : string) : nat := List.length (py_chars s).

Fixpoint drop_spaces (l : list Z) : list Z :=
  match l with
  | c :: l' => if is_py_space c then drop_spaces l' else l
  | [] => []
  end.

(** [str.strip()] *)
Definition py_strip (s : string) : string :=
  utf8_encode (rev (drop_spaces (rev (drop_spaces (py_chars s))))).

Fixpoint split_words (cur : list Z) (l : list Z) : list (list Z) :=
  match l with
  | [] => match cur with [] => [] | _ => [rev cur] end
  | c :: l' =>
      if is_py_space c
      then match cur with [] => split_words [] l' | _ => rev cur :: split_words [] l' end
      else split_words (c :: cur) l'
  end.

(** [str.split()] with no separator. *)
Definition py_split (s : string) : list string :=
  map utf8_encode (split_words [] (py_chars s)).

Definition is_cased (c : Z) : bool := in_ranges cased_ranges c.
Definition is_case_ignorable (c : Z) : bool := in_ranges case_ignorable_ranges c.

Fixpoint skip_case_ignorable (l : list Z) : option Z :=
  match l with
  | [] => None
  | c :: l' => if is_case_ignorable c then skip_case_ignorable l' else Some c
  end.

(** [handle_capital_sigma]: [before] is the text before the sigma,
    nearest code point first. *)
Definition final_sigma (before after : list Z) : bool :=
  match skip_case_ignorable before with
  | Some c =>
      is_cased c &&
      match skip_case_ignorable after with Some c' => negb (is_cased c') | None => true end
  | None => false
  end.

Fixpoint lower_cps (before : list Z) (l : list Z) : list Z :=
  match l with
  | [] => []
  | c :: l' =>
      (if c =? 931 then [if final_sigma before l' then 962 else 963]
       else case_map lower_runs lower_multi c) ++ lower_cps (c :: before) l'
  end.

(** [str.lower()] and [str.upper()] *)
Definition py_lower (s : string) : string := utf8_encode (lower_cps [] (py_chars s)).
Definition py_upper (s : string) : string :=
  utf8_encode (List.concat (map (case_map upper_runs upper_multi) (py_chars s))).

(** [str.isdigit()] *)
Definition py_isdigit (s : string) : bool :=
  match py_chars s with [] => false | cs => forallb is_py_digit cs end.

(** [str.startswith(p)] *)
Definition py_startswith (s p : string) : bool := String.prefix p s.

(* ------------------------------------------------------------------ *)
(** [int(s)] and [float(s)] *)

(** [_PyUnicode_TransformDecimalAndSpaceToASCII]: ASCII is kept, other
    white space becomes a space, other decimal digits their ASCII digit;
    any other code point makes the conversion fail. *)
Definition to_ascii_cp (c : Z) : option Z :=
  if c <? 127 then Some c
  else if is_py_space c then Some 32
  else match decimal_value c with Some d => Some (48 + d) | None => None end.

Fixpoint to_ascii (l : list Z) : option (list Z) :=
  match l with
  | [] => Some []
  | c :: l' =>
      match to_ascii_cp c, to_ascii l' with
      | Some c', Some r => Some (c' :: r)
      | _, _ => None
      end
  end.

(** [Py_ISSPACE] (ASCII). *)
Definition is_c_space (c : Z) : bool := (c =? 32) || in_range 9 13 c.
Definition is_c_digit (c : Z) : bool := in_range 48 57 c.

Fixpoint drop_c_spaces (l : list Z) : list Z :=
  match l with
  | c :: l' => if is_c_space c then drop_c_spaces l' else l
  | [] => []
  end.

(** The digit loop of [PyLong_FromString] for base 10: digits with single
    underscores between them; [prev_us] says the last character was an
    underscore. Returns the value, whether a digit was read, and the rest. *)
Fixpoint scan_digits (acc : Z) (seen prev_us : bool) (l : list Z) : option (Z * bool * list Z) :=
  match l with
  | c :: l' =>
      if is_c_digit c then scan_digits (acc * 10 + (c - 48)) true false l'
      else if c =? 95 then (if prev_us then None else scan_digits acc seen true l')
      else if prev_us then None else Some (acc, seen, l)
  | [] => if prev_us then None else Some (acc, seen, [])
  end.

Definition long_from_ascii (l : list Z) : option Z :=
  let l := drop_c_spaces l in
  let '(sign, l) := match l with
                    | 43 :: l' => (1, l')
                    | 45 :: l' => (-1, l')
                    | _ => (1, l)
                    end in
  match l with
  | 95 :: _ => None
  | _ =>
      match scan_digits 0 false false l with
      | Some (v, true, rest) => if forallb is_c_space rest then Some (sign * v) else None
      | _ => None
      end
  end.

(** [int(s)] ([PyLong_FromUnicodeObject], base 10); [None] is its
    [ValueError]. *)
Definition py_int (s : string) : option Z :=
  match to_ascii (py_chars s) with
  | Some l => long_from_ascii l
  | None => None
  end.

(** [_Py_string_to_number_with_underscores]: an underscore must sit
    between two digits; the underscores are then removed. *)
Fixpoint underscores_ok (prev : Z) (l : list Z) : bool :=
  match l with
  | [] => negb (prev =? 95)
  | c :: l' =>
      (if c =? 95 then is_c_digit prev else negb (prev =? 95) || is_c_digit c)
      && underscores_ok c l'
  end.

Fixpoint take_while_aux (p : Z -> bool) (l : list Z) : list Z * list Z :=
  match l with
  | c :: l' => if p c then let '(a, b) := take_while_aux p l' in (c :: a, b) else ([], l)
  | [] => ([], [])
  end.

Fixpoint digits_to_Z (acc : Z) (l : list Z) : Z :=
  match l with [] => acc | c :: l' => digits_to_Z (acc * 10 + (c - 48)) l' end.

Definition MAX_DIGITS : Z := 1000000000.
Definition MAX_ABS_EXP : Z := 1100000000.

(** The exponent part of [_Py_dg_strtod]: [Some (e, rest)], or [None]
    when there is no exponent (the [e] is then not consumed). *)
Definition parse_exponent (l : list Z) : option (Z * list Z) :=
  match l with
  | c :: l1 =>
      if (c =? 101) || (c =? 69) then
        let '(esign, l2) := match l1 with
                            | 45 :: l' => (true, l')
                            | 43 :: l' => (false, l')
                            | _ => (false, l1)
                            end in
        let '(zs, l3) := take_while_aux (fun c => c =? 48) l2 in
        let '(ds, l4) := take_while_aux is_c_digit l3 in
        match zs, ds with
        | [], [] => None
        | _, _ =>
            let v := if (9 <? Z.of_nat (List.length ds)) then MAX_ABS_EXP
                     else Z.min (digits_to_Z 0 ds) MAX_ABS_EXP in
            Some (if esign then - v else v, l4)
        end
      else None
  | [] => None
  end.

(** [_Py_dg_strtod]: the value [sign, digits M, exponent e] with
    [M * 10^e] its value, and the unparsed rest; [None] when no number
    starts here. *)
Definition dg_strtod (l : list Z) : option (bool * Z * Z * Z * list Z) :=
  let '(neg, l) := match l with
                   | 45 :: l' => (true, l')
                   | 43 :: l' => (false, l')
                   | _ => (false, l)
                   end in
  let '(z1, l) := take_while_aux (fun c => c =? 48) l in
  let '(d1, l) := take_while_aux is_c_digit l in
  let '(z2, d2, l) :=
    match l with
    | 46 :: l' =>
        match d1 with
        | [] => let '(z2, l'') := take_while_aux (fun c => c =? 48) l' in
                let '(d2, l3) := take_while_aux is_c_digit l'' in (z2, d2, l3)
        | _ => let '(d2, l3) := take_while_aux is_c_digit l' in ([], d2, l3)
        end
    | _ => ([], [], l)
    end in
  let nd := Z.of_nat (List.length d1 + List.length d2) in
  let fraclen := Z.of_nat (List.length z2 + List.length d2) in
  let lz := negb (bool_decide (z1 = [] /\ z2 = [])) in
  if (nd =? 0) && negb lz then None
  else if (MAX_DIGITS <? nd) || (MAX_DIGITS <? fraclen) then None
  else
    let '(e, l) := match parse_exponent l with Some (e, l') => (e, l') | None => (0, l) end in
    Some (neg, nd, digits_to_Z 0 (d1 ++ d2), e - fraclen, l).

(** The double nearest to [M * 10^e], [M] having [nd] digits; beyond
    the bounds [10^(nd+e-1) <= M * 10^e < 10^(nd+e)] settle the
    result without computing the power. *)
Definition decimal_to_double (neg : bool) (nd m e : Z) : F :=
  if nd =? 0 then fzero neg
  else if 310 <? nd + e then Inf neg
  else if nd + e <? -330 then fzero neg
  else let q := if 0 <=? e then inject_Z (m * 10 ^ e) else (inject_Z m / inject_Z (10 ^ (- e)))%Q in
       f64 (if neg then (- q)%Q else q).

Definition lower_ascii (c : Z) : Z := if in_range 65 90 c then c + 32 else c.

Fixpoint match_ci (l : list Z) (t : list Z) : option (list Z) :=
  match t with
  | [] => Some l
  | x :: t' => match l with c :: l' => if lower_ascii c =? x then match_ci l' t' else None | [] => None end
  end.

(** [_Py_parse_inf_or_nan] *)
Definition parse_inf_or_nan (l : list Z) : option (F * list Z) :=
  let '(neg, l) := match l with
                   | 45 :: l' => (true, l')
                   | 43 :: l' => (false, l')
                   | _ => (false, l)
                   end in
  match match_ci l [105; 110; 102] with
  | Some l' => Some (Inf neg, match match_ci l' [105; 110; 105; 116; 121] with Some l'' => l'' | None => l' end)
  | None => match match_ci l [110; 97; 110] with Some l' => Some (NaN, l') | None => None end
  end.

(** [float_from_string_inner]: after stripping ASCII white space the
    whole text must be one number. *)
Definition float_from_ascii (l : list Z) : option F :=
  let l := rev (drop_c_spaces (rev (drop_c_spaces l))) in
  match dg_strtod l with
  | Some (neg, nd, m, e, []) => Some (decimal_to_double neg nd m e)
  | Some _ => None
  | None => match parse_inf_or_nan l with Some (x, []) => Some x | _ => None end
  end.

(** [float(s)] ([PyFloat_FromString]); [None] is its [ValueError]. *)
Definition py_float (s : string) : option F :=
  match to_ascii (py_chars s) with
  | Some l =>
      if existsb (fun c => c =? 95) l
      then if underscores_ok 0 l then float_from_ascii (List.filter (fun c => negb (c =? 95)) l) else None
      else float_from_ascii l
  | None => None
  end.


(* ------------------------------------------------------------------ *)
(** ** Tables (src/db.py, [init_db]) *)

Record Agent := mkAgent {
  username : string;
  full_name : string;
  role : string;
  is_active : bool;
  balance : F;
  lifetime_topup : F;
  preferred_inbound : option Z;
  agent_created_at : Z;
  agent_updated_at : Z
}.

Record LedgerRow := mkLedgerRow {
  l_tg_id : Z;
  l_amount : F;
  l_reason : string;
  l_meta : string;
  l_created_at : Z
}.

Record PromoRow := mkPromoRow {
  p_discount_percent : F;
  p_max_uses : option Z;
  p_used_count : Z;
  p_active : bool;
  p_created_at : Z
}.

Record Redemption := mkRedemption {
  r_code : string;
  r_tg_id : Z;
  r_redeemed_at : Z
}.

Record OrderRow := mkOrderRow {
  o_tg_id : Z;
  o_inbound_id : Z;
  o_kind : string;
  o_days : Z;
  o_gb : Z;
  o_count : Z;
  o_gross_price : F;
  o_discount_percent : F;
  o_net_price : F;
  o_status : string;
  o_created_at : Z
}.

Record ClientRow := mkClientRow {
  c_tg_id : Z;
  c_inbound_id : Z;
  c_email : string;
  c_uuid : string;
  c_vless_link : string;
  c_days : Z;
  c_gb : Z;
  c_start_after_first_use : bool;
  c_auto_renew : bool;
  c_created_at : Z
}.

Record Rule := mkRule {
  ru_enabled : bool;
  ru_price_per_gb : option F;
  ru_price_per_day : option F;
  ru_updated_at : Z
}.

(** A [settings] value (a [TEXT] column): a text as written by
    [init_db] or stored by hand, or [str(x)] of a float [x], which
    [float] reads back as [x] (also for [inf], [-inf], [nan] and
    [-0.0]). *)
Inductive SettingVal := SText (s : string) | SFloat (x : F).

(** The database. *)
Record DB := mkDB {
  agents : gmap Z Agent;
  settings : gmap string SettingVal;
  promo_codes : gmap string PromoRow;
  promo_redemptions : list Redemption;
  wallet_ledger : list LedgerRow;
  orders : list OrderRow;
  created_clients : list ClientRow;
  inbound_pricing : gmap Z Rule
}.

Definition set_agents (a : gmap Z Agent) (d : DB) : DB :=
  mkDB a (settings d) (promo_codes d) (promo_redemptions d) (wallet_ledger d)
       (orders d) (created_clients d) (inbound_pricing d).
Definition set_settings (s : gmap string SettingVal) (d : DB) : DB :=
  mkDB (agents d) s (promo_codes d) (promo_redemptions d) (wallet_ledger d)
       (orders d) (created_clients d) (inbound_pricing d).
Definition set_promo_codes (p : gmap string PromoRow) (d : DB) : DB :=
  mkDB (agents d) (settings d) p (promo_redemptions d) (wallet_ledger d)
       (orders d) (created_clients d) (inbound_pricing d).
Definition set_promo_redemptions (r : list Redemption) (d : DB) : DB :=
  mkDB (agents d) (settings d) (promo_codes d) r (wallet_ledger d)
       (orders d) (created_clients d) (inbound_pricing d).
Definition set_wallet_ledger (l : list LedgerRow) (d : DB) : DB :=
  mkDB (agents d) (settings d) (promo_codes d) (promo_redemptions d) l
       (orders d) (created_clients d) (inbound_pricing d).
Definition set_orders (o : list OrderRow) (d : DB) : DB :=
  mkDB (agents d) (settings d) (promo_codes d) (promo_redemptions d)
       (wallet_ledger d) o (created_clients d) (inbound_pricing d).
Definition set_created_clients (c : list ClientRow) (d : DB) : DB :=
  mkDB (agents d) (settings d) (promo_codes d) (promo_redemptions d)
       (wallet_ledger d) (orders d) c (inbound_pricing d).
Definition set_inbound_pricing (r : gmap Z Rule) (d : DB) : DB :=
  mkDB (agents d) (settings d) (promo_codes d) (promo_redemptions d)
       (wallet_ledger d) (orders d) (created_clients d) r.

(** Python exceptions that the modelled code raises; [IntegrityError] is
    [sqlite3.IntegrityError]. *)
Inductive exn :=
  | ValueError (msg : string)
  | RuntimeError (msg : string)
  | KeyError (key : string)
  | TypeError (msg : string)
  | OverflowError (msg : string)
  | IntegrityError (msg : string).

(** [str(e)] *)
Definition str_exn (e : exn) : string :=
  match e with
  | ValueError m | RuntimeError m | TypeError m | OverflowError m | IntegrityError m => m
  | KeyError k => "'" ++ k ++ "'"
  end.

(** A [db.*] function: it reads the clock [now_ts()] and the tables, and
    returns a value or raises; its writes are committed only when it
    returns. *)
Definition DBM (A : Type) := Z -> DB -> (A + exn) * DB.

(** The [IntegrityError] of a [NULL] written to a [NOT NULL] column. *)
Definition not_null (col : string) : exn := IntegrityError ("NOT NULL constraint failed: " ++ col).

(* ------------------------------------------------------------------ *)
(** ** Agents and the wallet ledger *)

Definition ensure_agent (tg_id : Z) (uname fname role0 : string) : DBM unit :=
  fun ts d =>
    let a' := match agents d !! tg_id with
              | Some a => mkAgent uname fname (role a) (is_active a) (balance a)
                            (lifetime_topup a) (preferred_inbound a)
                            (agent_created_at a) ts
              | None => mkAgent uname fname role0 true (Fin 0) (Fin 0) None ts ts
              end in
    (inl tt, set_agents (<[tg_id := a']> (agents d)) d).

Definition get_agent (tg_id : Z) (d : DB) : option Agent := agents d !! tg_id.

(** [UPDATE agents SET ... WHERE tg_id=?]: no row changes when the agent
    does not exist. *)
Definition update_agent (tg_id : Z) (f : Agent -> Agent) (d : DB) : DB :=
  set_agents (alter f tg_id (agents d)) d.

Definition append_ledger (r : LedgerRow) (d : DB) : DB :=
  set_wallet_ledger (wallet_ledger d ++ [r]) d.

(** [float(row["balance"] if row else 0)] *)
Definition balance_or_0 (tg_id : Z) (d : DB) : F :=
  match get_agent tg_id d with Some a => balance a | None => Fin 0 end.

(** The agent with the new column values [b] (balance) and [l] (lifetime
    top-up). *)
Definition credit_agent (b l : F) (ts : Z) (a : Agent) : Agent :=
  mkAgent (username a) (full_name a) (role a) (is_active a) b l
    (preferred_inbound a) (agent_created_at a) ts.

Definition debit_agent (b : F) (ts : Z) (a : Agent) : Agent :=
  mkAgent (username a) (full_name a) (role a) (is_active a) b (lifetime_topup a)
    (preferred_inbound a) (agent_created_at a) ts.

(** [amount if amount > 0 and reason.startswith("topup") else 0] *)
Definition topup_part (amount : F) (reason : string) : F :=
  if flt (Fin 0) amount && py_startswith reason "topup" then amount else Fin 0.

(** The [UPDATE] of [add_balance] on the agent's row: the new
    [balance] and [lifetime_topup], or the column whose new value is
    [NULL] (a NaN) and fails its [NOT NULL]. *)
Definition credit_cols (amount : F) (reason : string) (a : Agent) : (F * F) + exn :=
  match sql_real (fadd (balance a) amount) with
  | None => inr (not_null "agents.balance")
  | Some b =>
      match sql_real (fadd (lifetime_topup a) (topup_part amount reason)) with
      | None => inr (not_null "agents.lifetime_topup")
      | Some l => inl (b, l)
      end
  end.

(** [add_balance] (src/db.py:188) *)
Definition add_balance (tg_id : Z) (amount : F) (reason meta : string) : DBM F :=
  fun ts d =>
    let upd := match get_agent tg_id d with
               | Some a => match credit_cols amount reason a with
                           | inl (b, l) => inl (update_agent tg_id (credit_agent b l ts) d)
                           | inr e => inr e
                           end
               | None => inl d
               end in
    match upd with
    | inr e => (inr e, d)
    | inl d1 =>
        match sql_real amount with
        | None => (inr (not_null "wallet_ledger.amount"), d)
        | Some amt =>
            let d2 := append_ledger (mkLedgerRow tg_id amt reason meta ts) d1 in
            (inl (balance_or_0 tg_id d2), d2)
        end
    end.

(** [deduct_balance] (src/db.py:202) *)
Definition deduct_balance (tg_id : Z) (amount : F) (reason meta : string) : DBM F :=
  fun ts d =>
    let bal := balance_or_0 tg_id d in
    if flt bal amount then (inr (ValueError "Insufficient balance"), d)
    else
      let upd := match get_agent tg_id d with
                 | Some a => match sql_real (fsub (balance a) amount) with
                             | Some b => inl (update_agent tg_id (debit_agent b ts) d)
                             | None => inr (not_null "agents.balance")
                             end
                 | None => inl d
                 end in
      match upd with
      | inr e => (inr e, d)
      | inl d1 =>
          match sql_real (fneg amount) with
          | None => (inr (not_null "wallet_ledger.amount"), d)
          | Some amt =>
              let d2 := append_ledger (mkLedgerRow tg_id amt reason meta ts) d1 in
              (inl (balance_or_0 tg_id d2), d2)
          end
      end.

(** The exact sum of the signed amounts of one agent's ledger rows; [None]
    when one of them is infinite. *)
Definition ledger_sum (tg_id : Z) (l : list LedgerRow) : option Q :=
  fold_right (fun r acc => if bool_decide (l_tg_id r = tg_id)
                           then match fval (l_amount r), acc with
                                | Some x, Some y => Some (x + y)%Q
                                | _, _ => None
                                end
                           else acc)
    (Some 0%Q) l.

(* ------------------------------------------------------------------ *)
(** ** Orders, created clients, settings, pricing rules *)

(** [create_order] (src/db.py:225): [gross_price], [discount_percent]
    and [net_price] are [REAL NOT NULL]; SQLite checks them in column
    order. *)
Definition create_order (tg_id inbound_id : Z) (kind : string) (days gb count : Z)
    (gross disc net : F) (status : string) : DBM unit :=
  fun ts d =>
    match sql_real gross, sql_real disc, sql_real net with
    | None, _, _ => (inr (not_null "orders.gross_price"), d)
    | _, None, _ => (inr (not_null "orders.discount_percent"), d)
    | _, _, None => (inr (not_null "orders.net_price"), d)
    | Some g, Some di, Some n =>
        (inl tt, set_orders (orders d ++ [mkOrderRow tg_id inbound_id kind days gb count
                                            g di n status ts]) d)
    end.

(** [save_created_client] (src/db.py:245), with its nine parameters. *)
Definition save_created_client (tg_id inbound_id : Z) (email uuid_ link : string)
    (days gb : Z) (start_after_first_use auto_renew : bool) : DBM unit :=
  fun ts d =>
    (inl tt, set_created_clients
               (created_clients d ++ [mkClientRow tg_id inbound_id email uuid_ link
                                        days gb start_after_first_use auto_renew ts]) d).

(** [float] of a [settings] value. *)
Definition setting_value_float (v : SettingVal) : option F :=
  match v with SText t => py_float t | SFloat x => Some x end.

(** [get_setting_float] (src/db.py:132): a missing key makes [r["value"]]
    fail on [None]; a text that is no float makes [float] raise. *)
Definition get_setting_float (key : string) : DBM F :=
  fun _ d =>
    match settings d !! key with
    | Some v => match setting_value_float v with
                | Some x => (inl x, d)
                | None => (inr (ValueError "could not convert string to float"), d)
                end
    | None => (inr (TypeError "'NoneType' object is not subscriptable"), d)
    end.

Definition set_setting (key : string) (v : SettingVal) : DBM unit :=
  fun _ d => (inl tt, set_settings (<[key := v]> (settings d)) d).

Definition set_preferred_inbound (tg_id inbound_id : Z) : DBM unit :=
  fun ts d =>
    (inl tt, update_agent tg_id
       (fun a => mkAgent (username a) (full_name a) (role a) (is_active a) (balance a)
                   (lifetime_topup a) (Some inbound_id) (agent_created_at a) ts) d).

(** A nullable [REAL] parameter: [None] and NaN are both [NULL]. *)
Definition sql_real_opt (o : option F) : option F :=
  match o with Some x => sql_real x | None => None end.

(** [set_inbound_rule] (src/db.py:295) *)
Definition set_inbound_rule (inbound_id : Z) (enabled : bool) (ppgb ppday : option F) : DBM unit :=
  fun ts d =>
    (inl tt, set_inbound_pricing (<[inbound_id := mkRule enabled (sql_real_opt ppgb) (sql_real_opt ppday) ts]>
                                    (inbound_pricing d)) d).

Definition inbound_rule (inbound_id : Z) (d : DB) : option Rule := inbound_pricing d !! inbound_id.

(* ------------------------------------------------------------------ *)
(** ** Promo codes *)

Definition redeemed (c : string) (tg_id : Z) (rs : list Redemption) : bool :=
  existsb (fun r => bool_decide (r_code r = c) && bool_decide (r_tg_id r = tg_id)) rs.

Definition bump_used (p : PromoRow) : PromoRow :=
  mkPromoRow (p_discount_percent p) (p_max_uses p) (p_used_count p + 1) (p_active p) (p_created_at p).

(** [apply_promo] (src/db.py:324) *)
Definition apply_promo (code : string) (tg_id : Z) : DBM F :=
  fun ts d =>
    let c := py_upper code in
    match promo_codes d !! c with
    | Some p =>
        if negb (p_active p) then (inr (ValueError "Promo code not found or inactive"), d)
        else if (match p_max_uses p with Some m => m <=? p_used_count p | None => false end)
        then (inr (ValueError "Promo code usage limit reached"), d)
        else if redeemed c tg_id (promo_redemptions d)
        then (inr (ValueError "Promo code already used"), d)
        else
          let d1 := set_promo_redemptions (promo_redemptions d ++ [mkRedemption c tg_id ts]) d in
          let d2 := set_promo_codes (<[c := bump_used p]> (promo_codes d1)) d1 in
          (inl (p_discount_percent p), d2)
    | None => (inr (ValueError "Promo code not found or inactive"), d)
    end.

(** [create_promo] (src/db.py:316): a plain [INSERT]. A NaN discount is
    [NULL] and fails [NOT NULL] (checked before [UNIQUE]); [code] is the
    primary key, so inserting a code that is already there raises the
    [UNIQUE] [IntegrityError]; either way nothing is written.
    [used_count] and [active] take their column defaults [0] and [1]. *)
Definition create_promo (code : string) (discount_percent : F) (max_uses : option Z) : DBM unit :=
  fun ts d =>
    let c := py_upper code in
    match sql_real discount_percent with
    | None => (inr (not_null "promo_codes.discount_percent"), d)
    | Some disc =>
        match promo_codes d !! c with
        | Some _ => (inr (IntegrityError "UNIQUE constraint failed: promo_codes.code"), d)
        | None => (inl tt, set_promo_codes (<[c := mkPromoRow disc max_uses 0 true ts]>
                                              (promo_codes d)) d)
        end
    end.

(* ------------------------------------------------------------------ *)
(** ** The bot's world and its monad *)

Record RealityParams := mkReality { pbk : string; fp : string; sni : string; sid : string }.

(** What [XUIApi.get_inbound] returns; [ib_reality = None] stands for
    reality settings lacking [publicKey], [serverNames] or [shortIds]. *)
Record InboundInfo := mkInbound {
  ib_port : Z;
  ib_network : string;
  ib_security : string;
  ib_reality : option RealityParams;
  ib_remark : string
}.

(** One entry of the [clients] list posted to [addClient]. *)
Record Client := mkClient {
  cl_id : string;
  cl_email : string;
  cl_enable : bool;
  cl_expiryTime : Z;
  cl_totalGB : Z;
  cl_flow : string;
  cl_limitIp : Z;
  cl_tgId : string;
  cl_subId : string;
  cl_comment : string;
  cl_reset : Z
}.

(** Values stored in the wizard dict [context.user_data["wizard"]]. *)
Inductive PyVal :=
  | VInt (z : Z)
  | VStr (s : string)
  | VBool (b : bool)
  | VList (l : list Z).

(** [context.user_data]: the keys [flow], [wizard] and [promo_discount];
    [None] is an absent key. *)
Record Session := mkSession {
  ud_flow : option string;
  ud_wizard : option (gmap string PyVal);
  ud_promo : option F
}.

Inductive arg := AF (x : F) | AZ (z : Z) | AS (s : string).

(** A message sent to the user: a literal text, or an f-string template
    with the values of its holes. *)
Inductive msg :=
  | Txt (s : string)
  | Fmt (template : string) (args : list arg).

Record World := mkWorld {
  w_db : DB;
  w_ud : Session;
  w_now : Z;
  w_calls : nat;
  w_fail : nat -> option string;
  w_inbounds : Z -> option InboundInfo;
  w_panel : list (Z * list Client);
  w_rand : nat;
  w_uuid : nat -> string;
  w_subid : nat -> string;
  w_out : list msg
}.

Definition set_db (d : DB) (w : World) : World :=
  mkWorld d (w_ud w) (w_now w) (w_calls w) (w_fail w) (w_inbounds w) (w_panel w)
          (w_rand w) (w_uuid w) (w_subid w) (w_out w).
Definition set_ud (u : Session) (w : World) : World :=
  mkWorld (w_db w) u (w_now w) (w_calls w) (w_fail w) (w_inbounds w) (w_panel w)
          (w_rand w) (w_uuid w) (w_subid w) (w_out w).
Definition set_calls (n : nat) (w : World) : World :=
  mkWorld (w_db w) (w_ud w) (w_now w) n (w_fail w) (w_inbounds w) (w_panel w)
          (w_rand w) (w_uuid w) (w_subid w) (w_out w).
Definition set_panel (p : list (Z * list Client)) (w : World) : World :=
  mkWorld (w_db w) (w_ud w) (w_now w) (w_calls w) (w_fail w) (w_inbounds w) p
          (w_rand w) (w_uuid w) (w_subid w) (w_out w).
Definition set_rand (n : nat) (w : World) : World :=
  mkWorld (w_db w) (w_ud w) (w_now w) (w_calls w) (w_fail w) (w_inbounds w) (w_panel w)
          n (w_uuid w) (w_subid w) (w_out w).
Definition set_out (o : list msg) (w : World) : World :=
  mkWorld (w_db w) (w_ud w) (w_now w) (w_calls w) (w_fail w) (w_inbounds w) (w_panel w)
          (w_rand w) (w_uuid w) (w_subid w) o.

(** State and exceptions, as in the handlers: a raised exception keeps
    the effects that happened before it. *)
Definition M (A : Type) := World -> (A + exn) * World.

Definition ret {A} (a : A) : M A := fun w => (inl a, w).
Definition bind {A B} (m : M A) (k : A -> M B) : M B :=
  fun w => match m w with
           | (inl a, w') => k a w'
           | (inr e, w') => (inr e, w')
           end.
Definition raise {A} (e : exn) : M A := fun w => (inr e, w).

Notation "x <- m ;; k" := (bind m (fun x => k)) (at level 100, m at next level, right associativity).
Notation "m ;;; k" := (bind m (fun _ => k)) (at level 100, right associativity).

(** [try: body except Exception as e: handler e] *)
Definition try_except {A} (body : M A) (handler : exn -> M A) : M A :=
  fun w => match body w with
           | (inl a, w') => (inl a, w')
           | (inr e, w') => handler e w'
           end.

(** [try: body except ValueError as e: handler e] *)
Definition try_value_error {A} (body : M A) (handler : string -> M A) : M A :=
  fun w => match body w with
           | (inr (ValueError m), w') => handler m w'
           | r => r
           end.

Definition db {A} (f : DBM A) : M A :=
  fun w => let (r, d') := f (w_now w) (w_db w) in (r, set_db d' w).

Definition read_db {A} (f : DB -> A) : M A := fun w => (inl (f (w_db w)), w).
Definition get_ud : M Session := fun w => (inl (w_ud w), w).
Definition put_ud (u : Session) : M unit := fun w => (inl tt, set_ud u w).
Definition reply (m : msg) : M unit := fun w => (inl tt, set_out (w_out w ++ [m]) w).
Definition now_time : M Z := fun w => (inl (w_now w), w).

Fixpoint mapM {A B} (f : A -> M B) (l : list A) : M (list B) :=
  match l with
  | [] => ret []
  | x :: l' => y <- f x ;; ys <- mapM f l' ;; ret (y :: ys)
  end.

(* ------------------------------------------------------------------ *)
(** ** PricingEngine (src/telegram_bot.py:302-336) *)

(** [float(z)] where the code mixes an int into float arithmetic
    ([int * float] converts the int first). *)
Definition py_float_of_int (z : Z) : M F :=
  match float_of_int z with
  | Some x => ret x
  | None => raise (OverflowError "int too large to convert to float")
  end.

(** [float(rule[field]) if rule and rule[field] is not None else
    db.get_setting_float(key)] *)
Definition rule_rate (field : option F) (key : string) : M F :=
  match field with Some v => ret v | None => db (get_setting_float key) end.

(** [inbound_price] *)
Definition inbound_price (inbound_id days gb : Z) : M F :=
  rule <- read_db (inbound_rule inbound_id) ;;
  if match rule with Some r => negb (ru_enabled r) | None => false end
  then raise (ValueError "Selected inbound is disabled by admin") else
  ppgb <- rule_rate (match rule with Some r => ru_price_per_gb r | None => None end) "price_per_gb" ;;
  ppday <- rule_rate (match rule with Some r => ru_price_per_day r | None => None end) "price_per_day" ;;
  g <- py_float_of_int gb ;;
  dd <- py_float_of_int days ;;
  ret (py_round2 (fadd (fmul g ppgb) (fmul dd ppday))).

(** Dict reads of the wizard: [w[key]] raises [KeyError] when the key is
    absent. *)
Definition w_get (key : string) (w : gmap string PyVal) : M PyVal :=
  match w !! key with Some v => ret v | None => raise (KeyError key) end.

Definition w_int (key : string) (w : gmap string PyVal) : M Z :=
  v <- w_get key w ;;
  match v with VInt z => ret z | _ => raise (TypeError key) end.

Definition w_str (key : string) (w : gmap string PyVal) : M string :=
  v <- w_get key w ;;
  match v with VStr s => ret s | _ => raise (TypeError key) end.

Definition w_bool (key : string) (w : gmap string PyVal) : M bool :=
  v <- w_get key w ;;
  match v with VBool b => ret b | _ => raise (TypeError key) end.

(** [w.get("inbound_ids") or []] *)
Definition w_inbound_ids (w : gmap string PyVal) : list Z :=
  match w !! "inbound_ids" with Some (VList l) => l | _ => [] end.

(** [order_count] *)
Definition order_count (w : gmap string PyVal) : M Z :=
  kind <- w_str "kind" w ;;
  if String.eqb kind "bulk" then w_int "count" w
  else if String.eqb kind "multi" then ret (Z.of_nat (List.length (w_inbound_ids w)))
  else ret 1.

(** [order_total_price] *)
Definition order_total_price (w : gmap string PyVal) : M F :=
  count <- order_count w ;;
  kind <- w_str "kind" w ;;
  if String.eqb kind "multi" then
    prices <- mapM (fun i => days <- w_int "days" w ;; gb <- w_int "gb" w ;; inbound_price i days gb)
                   (w_inbound_ids w) ;;
    ret (py_round2 (py_sum prices))
  else
    iid <- w_int "inbound_id" w ;;
    days <- w_int "days" w ;;
    gb <- w_int "gb" w ;;
    unit <- inbound_price iid days gb ;;
    c <- py_float_of_int count ;;
    ret (py_round2 (fmul unit c)).

(* ------------------------------------------------------------------ *)
(** ** Configuration read from the environment *)

Record Config := mkConfig {
  MAX_DAYS : Z;
  MAX_GB : Z;
  MAX_BULK_COUNT : Z;
  ADMIN_TELEGRAM_ID : Z;
  LOW_BALANCE_THRESHOLD : F;
  SERVER_HOST : string;
  SUBSCRIPTION_PORT : Z
}.

(** [is_admin] *)
Definition is_admin (cfg : Config) (user_id : Z) : bool := user_id =? ADMIN_TELEGRAM_ID cfg.

Fixpoint pos_digits (fuel : nat) (n : Z) (acc : string) : string :=
  match fuel with
  | O => acc
  | S f =>
      let acc' := String (ascii_of_nat (Z.to_nat (n mod 10) + 48)) acc in
      if n <? 10 then acc' else pos_digits f (n / 10) acc'
  end.

(** [str(z)] for an integer. *)
Definition z_to_string (z : Z) : string :=
  match z with
  | Z0 => "0"
  | Zpos p => pos_digits (Pos.size_nat p) (Zpos p) ""
  | Zneg p => String "-" (pos_digits (Pos.size_nat p) (Zpos p) "")
  end.

Definition dq : string := String (ascii_of_nat 34) EmptyString.

(* ------------------------------------------------------------------ *)
(** ** The panel client (src/xui_api.py) *)

(** One HTTP request to the panel: the oracle says whether the n-th
    request raises (refused login, unsuccessful answer, timeout or
    connection error, all with a message). *)
Definition http_request : M unit :=
  fun w =>
    let n := w_calls w in
    let w' := set_calls (S n) w in
    match w_fail w n with
    | Some m => (inr (RuntimeError m), w')
    | None => (inl tt, w')
    end.

Definition api_login : M unit := http_request.

Definition api_get_inbound (inbound_id : Z) : M InboundInfo :=
  http_request ;;;
  fun w => match w_inbounds w inbound_id with
           | Some ib => (inl ib, w)
           | None => (inr (RuntimeError "Failed to fetch inbound"), w)
           end.

Definition api_add_clients (inbound_id : Z) (clients : list Client) : M unit :=
  http_request ;;;
  fun w => (inl tt, set_panel (w_panel w ++ [(inbound_id, clients)]) w).

(** [vless_link]: the reality branch indexes [r["settings"]["publicKey"]],
    [r["serverNames"][0]] and [r["shortIds"][0]]. *)
Definition vless_link (cfg : Config) (uid : string) (ib : InboundInfo) (remark : string) : M string :=
  if String.eqb (ib_security ib) "reality" then
    match ib_reality ib with
    | Some r =>
        ret ("vless://" ++ uid ++ "@" ++ SERVER_HOST cfg ++ ":" ++ z_to_string (ib_port ib)
             ++ "?type=tcp&security=reality&encryption=none"
             ++ "&pbk=" ++ pbk r ++ "&fp=" ++ fp r ++ "&sni=" ++ sni r ++ "&sid=" ++ sid r
             ++ "#" ++ remark)%string
    | None => raise (KeyError "publicKey")
    end
  else
    ret ("vless://" ++ uid ++ "@" ++ SERVER_HOST cfg ++ ":" ++ z_to_string (ib_port ib)
         ++ "?type=" ++ ib_network ib ++ "&security=" ++ ib_security ib
         ++ "&encryption=none#" ++ remark)%string.

Definition subscription_link (cfg : Config) (sub_id : string) : string :=
  ("https://" ++ SERVER_HOST cfg ++ ":" ++ z_to_string (SUBSCRIPTION_PORT cfg) ++ "/sub/" ++ sub_id)%string.

(** [str(uuid.uuid4())] and [generate_sub_id()] *)
Definition uuid4 : M string := fun w => (inl (w_uuid w (w_rand w)), set_rand (S (w_rand w)) w).
Definition generate_sub_id : M string := fun w => (inl (w_subid w (w_rand w)), set_rand (S (w_rand w)) w).

(* ------------------------------------------------------------------ *)
(** ** Session helpers (src/telegram_bot.py) *)

(** [reset_flow] *)
Definition reset_flow : M unit :=
  u <- get_ud ;; put_ud (mkSession None (Some ∅) (ud_promo u)).

(** [float(context.user_data.pop("promo_discount", 0.0))] *)
Definition pop_promo_discount : M F :=
  u <- get_ud ;; put_ud (mkSession (ud_flow u) (ud_wizard u) None) ;;;
  ret (default (Fin 0) (ud_promo u)).

Definition set_flow (f : option string) : M unit :=
  u <- get_ud ;; put_ud (mkSession f (ud_wizard u) (ud_promo u)).

(** [context.user_data["wizard"] = w] *)
Definition put_wizard (w : gmap string PyVal) : M unit :=
  u <- get_ud ;; put_ud (mkSession (ud_flow u) (Some w) (ud_promo u)).

(** [w[key] = v] on [w = context.user_data.get("wizard", {})]: the stored
    dict changes when [w] is that dict; a fresh [{}] is dropped. *)
Definition w_set (key : string) (v : PyVal) (w : gmap string PyVal) : M (gmap string PyVal) :=
  let w' := <[key := v]> w in
  u <- get_ud ;;
  match ud_wizard u with
  | Some _ => put_ud (mkSession (ud_flow u) (Some w') (ud_promo u)) ;;; ret w'
  | None => ret w'
  end.

(** [expiry_value] ([time.time()] in whole seconds) *)
Definition expiry_value (days : Z) (start_after_first_use : bool) (now : Z) : Z :=
  if start_after_first_use then - (days * 86400 * 1000) else (now + days * 86400) * 1000.

Definition py_truthy (v : PyVal) : bool :=
  match v with
  | VInt z => negb (z =? 0)
  | VStr s => negb (String.eqb s "")
  | VBool b => b
  | VList l => match l with [] => false | _ => true end
  end.

(** [json.dumps({"kind": w["kind"], "inbound": w["inbound_id"]})] *)
Definition json_val (v : PyVal) : string :=
  match v with
  | VInt z => z_to_string z
  | VStr s => (dq ++ s ++ dq)%string
  | VBool b => if b then "true" else "false"
  | VList l => ("[" ++ String.concat ", " (map z_to_string l) ++ "]")%string
  end.

Definition order_meta (kind : string) (inbound : PyVal) : string :=
  ("{" ++ dq ++ "kind" ++ dq ++ ": " ++ dq ++ kind ++ dq ++ ", "
       ++ dq ++ "inbound" ++ dq ++ ": " ++ json_val inbound ++ "}")%string.

(* ------------------------------------------------------------------ *)
(** ** OrderSaga: [finalize_order] (src/telegram_bot.py:991-1189) *)

(** The values [finalize_order] computes before touching the wallet. *)
Record Prep := mkPrep {
  pr_count : Z;
  pr_gross : F;
  pr_disc : F;
  pr_net : F;
  pr_auto_renew : bool;
  pr_reset_days : Z;
  pr_inbound_ids : list Z
}.

(** [round(gross * (1 - disc / 100), 2)] *)
Definition net_price (gross disc : F) : F :=
  py_round2 (fmul gross (fsub (Fin 1) (fdiv disc (Fin 100)))).

(** Lines 994-1000. The promo discount is popped from the session here. *)
Definition prepare (w : gmap string PyVal) : M Prep :=
  count <- order_count w ;;
  gross <- order_total_price w ;;
  disc <- pop_promo_discount ;;
  let net := net_price gross disc in
  let auto_renew := match w !! "auto_renew" with Some v => py_truthy v | None => false end in
  reset_days <- (if auto_renew then d <- w_int "days" w ;; ret (Z.max (d - 1) 0) else ret 0) ;;
  inbound_ids <- match w_inbound_ids w with
                 | [] => i <- w_int "inbound_id" w ;; ret [i]
                 | l => ret l
                 end ;;
  ret (mkPrep count gross disc net auto_renew reset_days inbound_ids).

(** Lines 1011-1020: the reserve step. [true] when the wallet was
    charged; on [ValueError] the session is reset and the saga stops. *)
Definition reserve (uid : Z) (w : gmap string PyVal) (p : Prep) : M bool :=
  try_value_error
    (kind <- w_str "kind" w ;;
     ib <- w_get "inbound_id" w ;;
     db (deduct_balance uid (pr_net p) "order.charge" (order_meta kind ib)) ;;;
     ret true)
    (fun _ => reset_flow ;;;
              reply (Fmt "Insufficient balance. Required: {}" [AF (pr_net p)]) ;;;
              ret false).

(** A call [db.save_created_client(uid, inbound_id, email, uidc, link,
    sub_id, sub_link, w["days"], w["gb"], w["start_after_first_use"],
    auto_renew)] of [finalize_order]: the arguments are evaluated (the
    wizard keys [keys] are read, raising [KeyError] when one is absent),
    then the call raises [TypeError], since [save_created_client] takes
    nine parameters. *)
Definition save_created_client_call (keys : list string) (w : gmap string PyVal) : M unit :=
  mapM (fun k => w_get k w) keys ;;;
  raise (TypeError "save_created_client() takes 9 positional arguments but 11 were given").

Definition save_keys : list string := ["inbound_id"; "days"; "gb"; "start_after_first_use"].
Definition save_keys_multi : list string := ["days"; "gb"; "start_after_first_use"].

Definition mk_client (uid : Z) (uidc email sub_id : string) (expiry gb reset_days : Z) : Client :=
  mkClient uidc email true expiry (gb * 1024 ^ 3) "" 0 (z_to_string uid) sub_id "tg" reset_days.

(** One unit of the [bulk] loop (lines 1071-1103): the
    [save_created_client] call comes before [add_clients] is called for
    the batch. *)
Definition bulk_unit (cfg : Config) (uid : Z) (w : gmap string PyVal) (p : Prep) (expiry : Z)
    (inbound : InboundInfo) (i : nat) : M (Client * string * string) :=
  uidc <- uuid4 ;;
  base <- w_str "base_remark" w ;;
  let email := (base ++ "_" ++ z_to_string (Z.of_nat i + 1))%string in
  sub_id <- generate_sub_id ;;
  let sub_link := subscription_link cfg sub_id in
  gb <- w_int "gb" w ;;
  let client := mk_client uid uidc email sub_id expiry gb (pr_reset_days p) in
  link <- vless_link cfg uidc inbound email ;;
  save_created_client_call save_keys w ;;;
  ret (client, link, sub_link).

(** One inbound of the [multi] loop (lines 1109-1141): [add_clients]
    first, then the [save_created_client] call. *)
Definition multi_unit (cfg : Config) (uid : Z) (w : gmap string PyVal) (p : Prep) (expiry : Z)
    (sub_id sub_link : string) (inbound_id : Z) : M string :=
  inbound <- api_get_inbound inbound_id ;;
  uidc <- uuid4 ;;
  email <- w_str "remark" w ;;
  gb <- w_int "gb" w ;;
  let client := mk_client uid uidc email sub_id expiry gb (pr_reset_days p) in
  api_add_clients inbound_id [client] ;;;
  link <- vless_link cfg uidc inbound email ;;
  save_created_client_call save_keys_multi w ;;;
  ret link.

(** Lines 1028-1141: the provisioning part of the [try] block; it returns
    the config links and the subscription links. *)
Definition provision (cfg : Config) (uid : Z) (w : gmap string PyVal) (p : Prep) (expiry : Z)
    : M (list string * list string) :=
  api_login ;;;
  kind <- w_str "kind" w ;;
  if String.eqb kind "single" then
    iid <- w_int "inbound_id" w ;;
    inbound <- api_get_inbound iid ;;
    uidc <- uuid4 ;;
    email <- w_str "remark" w ;;
    sub_id <- generate_sub_id ;;
    let sub_link := subscription_link cfg sub_id in
    gb <- w_int "gb" w ;;
    let client := mk_client uid uidc email sub_id expiry gb (pr_reset_days p) in
    link <- vless_link cfg uidc inbound email ;;
    save_created_client_call save_keys w ;;;
    api_add_clients iid [client] ;;;
    ret ([link], [sub_link])
  else if String.eqb kind "bulk" then
    iid <- w_int "inbound_id" w ;;
    inbound <- api_get_inbound iid ;;
    n <- w_int "count" w ;;
    units <- mapM (bulk_unit cfg uid w p expiry inbound) (seq 0 (Z.to_nat n)) ;;
    api_add_clients iid (map (fun u => fst (fst u)) units) ;;;
    ret (map (fun u => snd (fst u)) units, map snd units)
  else
    sub_id <- generate_sub_id ;;
    let sub_link := subscription_link cfg sub_id in
    links <- mapM (multi_unit cfg uid w p expiry sub_id sub_link) (pr_inbound_ids p) ;;
    ret (links, [sub_link]).

Definition head_or_0 (l : list Z) : Z := match l with i :: _ => i | [] => 0 end.

(** The whole [try] block (lines 1027-1144). *)
Definition order_body (cfg : Config) (uid : Z) (w : gmap string PyVal) (p : Prep) (expiry : Z)
    : M (list string * list string) :=
  links <- provision cfg uid w p expiry ;;
  kind <- w_str "kind" w ;;
  days <- w_int "days" w ;;
  gb <- w_int "gb" w ;;
  db (create_order uid (head_or_0 (pr_inbound_ids p)) kind days gb (pr_count p)
        (pr_gross p) (pr_disc p) (pr_net p) "success") ;;;
  ret links.

(** The [except Exception] handler (lines 1145-1154): refund, failed
    order, reset. *)
Definition compensate (uid : Z) (w : gmap string PyVal) (p : Prep) (e : exn) : M unit :=
  db (add_balance uid (pr_net p) "order.refund" (str_exn e)) ;;;
  kind <- w_str "kind" w ;;
  days <- w_int "days" w ;;
  gb <- w_int "gb" w ;;
  db (create_order uid (head_or_0 (pr_inbound_ids p)) kind days gb (pr_count p)
        (pr_gross p) (pr_disc p) (pr_net p) "failed") ;;;
  reset_flow ;;;
  reply (Txt "⚠️ We couldn't create the client(s) right now. Your balance was refunded. Please try again later.").

(** Lines 1156-1189: the success report. *)
Definition report_success (cfg : Config) (uid : Z) (p : Prep) (links : list string * list string) : M unit :=
  ag <- read_db (get_agent uid) ;;
  bal <- match ag with
         | Some a => ret (balance a)
         | None => raise (TypeError "'NoneType' object is not subscriptable")
         end ;;
  reply (Fmt "Client(s) created | Gross: {} | Discount: {}% | Charged: {} | Balance: {}"
             [AF (pr_gross p); AF (pr_disc p); AF (pr_net p); AF bal]) ;;;
  mapM (fun l => reply (Txt l)) (fst links ++ snd links) ;;;
  (if flt bal (LOW_BALANCE_THRESHOLD cfg)
   then reply (Txt "⚠️ موجودی شما کم است. برای جلوگیری از خطا، کیف پول را شارژ کنید.")
   else ret tt) ;;;
  reset_flow.

(** After a successful charge (lines 1022-1189): [expiry_value] is
    evaluated outside the [try]. *)
Definition fulfil (cfg : Config) (uid : Z) (w : gmap string PyVal) (p : Prep) : M unit :=
  days <- w_int "days" w ;;
  safu <- w_bool "start_after_first_use" w ;;
  now <- now_time ;;
  let expiry := expiry_value days safu now in
  res <- try_except (links <- order_body cfg uid w p expiry ;; ret (Some links))
                    (fun e => compensate uid w p e ;;; ret None) ;;
  match res with
  | Some links => report_success cfg uid p links
  | None => ret tt
  end.

(** From the reserve step on. *)
Definition saga (cfg : Config) (uid : Z) (w : gmap string PyVal) (p : Prep) : M unit :=
  charged <- reserve uid w p ;;
  if charged then fulfil cfg uid w p else ret tt.

Definition agent_enabled (a : option Agent) : bool :=
  match a with Some ag => is_active ag | None => false end.

(** [finalize_order] *)
Definition finalize_order (cfg : Config) (uid : Z) (w : gmap string PyVal) : M unit :=
  p <- prepare w ;;
  ag <- read_db (get_agent uid) ;;
  if agent_enabled ag then saga cfg uid w p
  else reset_flow ;;; reply (Txt "Your reseller account is disabled. Contact admin.").

(** [callback_router] (src/telegram_bot.py:391-396, 561-584) on the
    callback data [wizard:confirm], from the user [uid] with the Telegram
    username [uname] and full name [fname] ([""] when absent). *)
Definition wizard_confirm_callback (cfg : Config) (uid : Z) (uname fname : string) : M unit :=
  db (ensure_agent uid uname fname (if is_admin cfg uid then "admin" else "reseller")) ;;;
  u <- get_ud ;;
  finalize_order cfg uid (default ∅ (ud_wizard u)).

(* ------------------------------------------------------------------ *)
(** ** OrderWizard: [text_flow] (src/telegram_bot.py:688-988) *)

Definition CANCEL_OPTIONS : list string := ["cancel"; "لغو"].

Definition is_cancel (text : string) : bool :=
  existsb (String.eqb (py_lower (py_strip text))) CANCEL_OPTIONS.


(** [as_int] *)
Definition as_int (v : string) : option Z := py_int v.

(** [parse_positive_int]. [int(text)] can still raise [ValueError]
    after [text.isdigit()] holds, on digits that are not decimal (such as
    superscripts): the [inr] case. *)
Definition parse_positive_int (text : string) : option Z + exn :=
  if negb (py_isdigit text) then inl None
  else match py_int text with
       | Some value => inl (if value <=? 0 then None else Some value)
       | None => inr (ValueError "invalid literal for int() with base 10")
       end.

Fixpoint split_on (sep : ascii) (cur : list ascii) (l : list ascii) : list (list ascii) :=
  match l with
  | [] => [rev cur]
  | c :: l' => if Ascii.eqb c sep then rev cur :: split_on sep [] l' else split_on sep (c :: cur) l'
  end.

(** [str.split(",")], on the UTF-8 bytes (a comma byte is never part of
    a longer sequence). *)
Definition py_split_comma (s : string) : list string :=
  map string_of_list_ascii (split_on ","%char [] (list_ascii_of_string s)).

Fixpoint parse_ids (parts : list string) (ids : list Z) : option (list Z) + exn :=
  match parts with
  | [] => inl (Some ids)
  | part :: rest =>
      match parse_positive_int part with
      | inl (Some value) => parse_ids rest (if existsb (Z.eqb value) ids then ids else ids ++ [value])
      | inl None => inl None
      | inr e => inr e
      end
  end.

(** [parse_inbound_ids] *)
Definition parse_inbound_ids (text : string) : option (list Z) + exn :=
  let parts := List.filter (fun p => negb (String.eqb p "")) (map py_strip (py_split_comma text)) in
  match parts with
  | [] => inl None
  | _ => match parse_ids parts [] with
              | inl (Some ids) => inl (match ids with [] => None | _ => Some ids end)
              | inl None => inl None
              | inr e => inr e
              end
  end.

(** The class [[A-Za-z0-9_-]], on code points. *)
Definition remark_char (c : Z) : bool :=
  in_range 48 57 c || in_range 65 90 c || in_range 97 122 c || (c =? 95) || (c =? 45).

(** [REMARK_PATTERN.match]: [^[A-Za-z0-9_-]+$], where [$] also matches
    before a final newline. *)
Definition remark_match (cs : list Z) : bool :=
  let body := match rev cs with 10 :: r => rev r | _ => cs end in
  match body with [] => false | _ => forallb remark_char body end.

(** [normalize_remark]: 2..64 code points matching [REMARK_PATTERN]. *)
Definition normalize_remark (text : string) : option string :=
  let remark := py_strip text in
  let n := py_len remark in
  if (n <? 2)%nat || (64 <? n)%nat then None
  else if remark_match (py_chars remark) then Some remark else None.

Definition cancelled_msg : msg := Txt "عملیات لغو شد. به منوی اصلی بازگشتید.".

(** [wizard_summary]: the keys it reads, and the figures it shows. *)
Definition wizard_summary (w : gmap string PyVal) (gross discount net : F) : M msg :=
  days <- w_int "days" w ;;
  gb <- w_int "gb" w ;;
  (match w_inbound_ids w with [] => w_int "inbound_id" w ;;; ret tt | _ => ret tt end) ;;;
  safu <- w_bool "start_after_first_use" w ;;
  ar <- w_bool "auto_renew" w ;;
  ret (Fmt "Order preview | days {} | GB {} | total {} | discount {}% | gross {}"
           [AZ days; AZ gb; AF net; AF discount; AF gross]).

Definition yes_no (v : string) : bool :=
  existsb (String.eqb v) ["y"; "n"; "yes"; "no"].
Definition is_yes (v : string) : bool := existsb (String.eqb v) ["y"; "yes"].

(** A result of [parse_positive_int] or [parse_inbound_ids] in [M]:
    the [inr] case raises. *)
Definition of_sum {A} (r : A + exn) : M A :=
  match r with inl a => ret a | inr e => raise e end.

(** The numeric wizard steps share their shape: parse, bound, store,
    advance. *)
Definition wizard_number (key : string) (bound : Z) (next : string) (err : msg)
    (ok : gmap string PyVal -> M msg) (txt : string) (w : gmap string PyVal) : M unit :=
  pc <- of_sum (parse_positive_int txt) ;;
  match pc with
  | Some c => if bound <? c then reply err
              else w' <- w_set key (VInt c) w ;; set_flow (Some next) ;;; m <- ok w' ;; reply m
  | None => reply err
  end.

(** [step = "Step 4/7" if w["kind"] in {"single", "multi"} else "Step 5/8"] *)
Definition step_label (short long : string) (w : gmap string PyVal) : M string :=
  kind <- w_str "kind" w ;;
  ret (if String.eqb kind "single" || String.eqb kind "multi" then short else long).

Definition text_flow (cfg : Config) (uid : Z) (raw : string) : M unit :=
  let txt := py_strip raw in
  agent <- read_db (get_agent uid) ;;
  u <- get_ud ;;
  let flow := default "" (ud_flow u) in
  let w := default ∅ (ud_wizard u) in
  if is_cancel txt then
    reset_flow ;;; pop_promo_discount ;;; reply cancelled_msg ;;; reply (Txt "Main menu")
  else if String.eqb flow "set_default_inbound" then
    match as_int txt with
    | Some iid => if iid <=? 0 then reply (Txt "Invalid inbound ID")
                  else db (set_preferred_inbound uid iid) ;;; reset_flow ;;;
                       reply (Fmt "Default inbound set to {}" [AZ iid])
    | None => reply (Txt "Invalid inbound ID")
    end
  else if String.eqb flow "promo_apply" then
    r <- try_value_error (disc <- db (apply_promo txt uid) ;; ret (inl disc))
                         (fun m => reply (Txt m) ;;; ret (inr tt)) ;;
    match r with
    | inl disc =>
        u1 <- get_ud ;; put_ud (mkSession (ud_flow u1) (ud_wizard u1) (Some disc)) ;;;
        reset_flow ;;; reply (Fmt "Promo applied: {}% on your next order" [AF disc])
    | inr _ => ret tt
    end
  else if String.eqb flow "admin_create_inbound" then
    if negb (is_admin cfg uid) then reply (Txt "Not allowed") else
    match py_split txt with
    | p0 :: p1 :: _ =>
        match as_int p0 with
        | Some port =>
            if port =? 0 then reply (Txt "Invalid port") else
            r <- try_except (api_login ;;; http_request ;;; ret (inl tt))
                            (fun e => reply (Fmt "Failed: {}" [AS (str_exn e)]) ;;; ret (inr tt)) ;;
            match r with
            | inl _ => reset_flow ;;; reply (Txt "Inbound created")
            | inr _ => ret tt
            end
        | None => reply (Txt "Invalid port")
        end
    | _ => reply (Txt "Usage: <port> <remark> [protocol] [network]")
    end
  else if String.eqb flow "admin_set_global_price" then
    if negb (is_admin cfg uid) then reply (Txt "Not allowed") else
    match py_split txt with
    | [p0; p1] =>
        match py_float p0, py_float p1 with
        | Some pgb, Some pday =>
            db (set_setting "price_per_gb" (SFloat pgb)) ;;; db (set_setting "price_per_day" (SFloat pday)) ;;;
            reset_flow ;;; reply (Txt "Global pricing updated.")
        | _, _ => reply (Txt "Prices must be numeric")
        end
    | _ => reply (Txt "Usage: <price_per_gb> <price_per_day>")
    end
  else if String.eqb flow "admin_set_inbound_rule" then
    if negb (is_admin cfg uid) then reply (Txt "Not allowed") else
    match py_split txt with
    | [p0; p1; p2; p3] =>
        let iid := as_int p0 in
        let en := as_int p1 in
        if match iid with Some i => i =? 0 | None => true end
           || negb (match en with Some 0 | Some 1 => true | _ => false end)
        then reply (Txt "Invalid inbound_id/enabled")
        else
          pgb <- (if String.eqb p2 "-" then ret None
                  else match py_float p2 with Some v => ret (Some v)
                       | None => raise (ValueError "could not convert string to float") end) ;;
          pday <- (if String.eqb p3 "-" then ret None
                   else match py_float p3 with Some v => ret (Some v)
                        | None => raise (ValueError "could not convert string to float") end) ;;
          db (set_inbound_rule (default 0 iid) (bool_decide (en = Some 1)) pgb pday) ;;;
          reset_flow ;;; reply (Txt "Inbound pricing/enable rule saved.")
    | _ => reply (Txt "Usage: <inbound_id> <enabled 1/0> <price_per_gb or -> <price_per_day or ->")
    end
  else if String.eqb flow "admin_charge_wallet" then
    if negb (is_admin cfg uid) then reply (Txt "Not allowed") else
    match py_split txt with
    | [p0; p1] =>
        let tid := as_int p0 in
        match py_float p1 with
        | None => reply (Txt "Amount must be numeric")
        | Some amount =>
            match tid with
            | Some t =>
                if t =? 0 then reply (Txt "Invalid tg_id") else
                db (ensure_agent t "" "" "reseller") ;;;
                bal <- db (add_balance t amount "topup.admin" ("by:" ++ z_to_string uid)%string) ;;
                reset_flow ;;; reply (Fmt "Wallet updated. New balance: {}" [AF bal])
            | None => reply (Txt "Invalid tg_id")
            end
        end
    | _ => reply (Txt "Usage: <tg_id> <amount>")
    end
  else if String.eqb flow "wizard_inbounds" then
    pids <- of_sum (parse_inbound_ids txt) ;;
    match pids with
    | Some ids =>
        w' <- w_set "inbound_ids" (VList ids) w ;;
        put_wizard w' ;;; set_flow (Some "wizard_remark") ;;;
        reply (Txt "Step 2/7: send client remark/email. Hint: user123")
    | None => reply (Txt "Invalid inbound list. Send comma-separated inbound IDs like: 1,2,3")
    end
  else if String.eqb flow "wizard_inbound" then
    r <- (if String.eqb (py_lower txt) "default" then
            match agent with
            | Some a => match preferred_inbound a with
                        | Some pi => if pi =? 0 then ret None else w1 <- w_set "inbound_id" (VInt pi) w ;; ret (Some w1)
                        | None => ret None
                        end
            | None => ret None
            end
          else
            piid <- of_sum (parse_positive_int txt) ;;
            match piid with
            | Some iid => w1 <- w_set "inbound_id" (VInt iid) w ;; ret (Some w1)
            | None => ret None
            end) ;;
    match r with
    | None =>
        if String.eqb (py_lower txt) "default"
        then reply (Txt "No default inbound set. Send numeric inbound ID.")
        else reply (Txt "Invalid inbound ID. Send digits only.")
    | Some w1 =>
        put_wizard w1 ;;;
        kind <- w_str "kind" w1 ;;
        if String.eqb kind "single" then
          set_flow (Some "wizard_remark") ;;; reply (Txt "Step 2/7: send client remark/email. Hint: user123")
        else
          set_flow (Some "wizard_base") ;;; reply (Txt "Step 2/8: send base remark for bulk. Hint: teamA")
    end
  else if String.eqb flow "wizard_remark" then
    match normalize_remark txt with
    | Some remark => w_set "remark" (VStr remark) w ;;; set_flow (Some "wizard_days") ;;;
                     reply (Txt "Step 3/7: send total days. Hint: 30")
    | None => reply (Txt "Remark must be 2-64 chars using letters, numbers, underscore, or dash only.")
    end
  else if String.eqb flow "wizard_base" then
    match normalize_remark txt with
    | Some base => w_set "base_remark" (VStr base) w ;;; set_flow (Some "wizard_count") ;;;
                   reply (Txt "Step 3/8: send number of clients. Hint: 5")
    | None => reply (Txt "Base remark must be 2-64 chars using letters, numbers, underscore, or dash only.")
    end
  else if String.eqb flow "wizard_count" then
    wizard_number "count" (MAX_BULK_COUNT cfg) "wizard_days"
      (Fmt "Invalid count. Enter a number between 1 and {}." [AZ (MAX_BULK_COUNT cfg)])
      (fun _ => ret (Txt "Step 4/8: send total days. Hint: 30")) txt w
  else if String.eqb flow "wizard_days" then
    wizard_number "days" (MAX_DAYS cfg) "wizard_gb"
      (Fmt "Invalid days. Enter a number between 1 and {}." [AZ (MAX_DAYS cfg)])
      (fun w' => st <- step_label "Step 4/7" "Step 5/8" w' ;;
                ret (Txt (st ++ ": send total GB. Hint: 50")%string)) txt w
  else if String.eqb flow "wizard_gb" then
    wizard_number "gb" (MAX_GB cfg) "wizard_start_after_first_use"
      (Fmt "Invalid GB. Enter a number between 1 and {}." [AZ (MAX_GB cfg)])
      (fun w' => st <- step_label "Step 5/7" "Step 6/8" w' ;;
                ret (Txt (st ++ ": start after first use? (y/n)")%string)) txt w
  else if String.eqb flow "wizard_start_after_first_use" then
    let v := py_lower txt in
    if negb (yes_no v) then reply (Txt "Please answer y or n") else
    w1 <- w_set "start_after_first_use" (VBool (is_yes v)) w ;; set_flow (Some "wizard_auto_renew") ;;;
    st <- step_label "Step 6/7" "Step 7/8" w1 ;;
    reply (Txt (st ++ ": Enable auto-renew? (y/n)")%string)
  else if String.eqb flow "wizard_auto_renew" then
    let v := py_lower txt in
    if negb (yes_no v) then reply (Txt "Please answer y or n") else
    w1 <- w_set "auto_renew" (VBool (is_yes v)) w ;;
    g <- try_value_error (gross <- order_total_price w1 ;; ret (inl gross))
                         (fun m => reset_flow ;;; reply (Txt m) ;;; ret (inr tt)) ;;
    match g with
    | inl gross =>
        order_count w1 ;;;
        u1 <- get_ud ;;
        let discount := default (Fin 0) (ud_promo u1) in
        let net := net_price gross discount in
        set_flow (Some "wizard_preview") ;;;
        m <- wizard_summary w1 gross discount net ;;
        reply m
    | inr _ => ret tt
    end
  else if String.eqb flow "wizard_preview" then
    let v := py_lower txt in
    if existsb (String.eqb v) ["n"; "no"] then
      reset_flow ;;; pop_promo_discount ;;; reply cancelled_msg ;;; reply (Txt "Main menu")
    else if negb (is_yes v) then reply (Txt "Please answer yes or no")
    else finalize_order cfg uid w
  else reply (Txt "Use /start and choose from menu buttons.").

(* ------------------------------------------------------------------ *)
(** ** Sequences of wallet operations *)

Inductive ledger_op :=
  | Credit (tg_id : Z) (amount : F) (reason meta : string) (ts : Z)
  | Debit (tg_id : Z) (amount : F) (reason meta : string) (ts : Z).

Definition run_ledger_op (d : DB) (op : ledger_op) : DB :=
  match op with
  | Credit tg a r m ts => snd (add_balance tg a r m ts d)
  | Debit tg a r m ts => snd (deduct_balance tg a r m ts d)
  end.

Definition run_ledger_ops (ops : list ledger_op) (d : DB) : DB := fold_left run_ledger_op ops d.

(* ------------------------------------------------------------------ *)
(** ** More of src/db.py *)

(** [set_agent_active] (src/db.py:178) *)
Definition set_agent_active (tg_id : Z) (active : bool) : DBM unit :=
  fun ts d =>
    (inl tt, update_agent tg_id
       (fun a => mkAgent (username a) (full_name a) (role a) active (balance a)
                   (lifetime_topup a) (preferred_inbound a) (agent_created_at a) ts) d).

(** SQLite's [LIMIT n]; a negative [n] sets no limit. *)
Definition sql_limit {A} (limit : Z) (l : list A) : list A :=
  if limit <? 0 then l else firstn (Z.to_nat limit) l.

(** [list_transactions] (src/db.py:217). The [AUTOINCREMENT] ids follow
    the insertion order, so [ORDER BY id DESC] is the table reversed. *)
Definition list_transactions (tg_id limit : Z) (d : DB) : list LedgerRow :=
  sql_limit limit (rev (List.filter (fun r => bool_decide (l_tg_id r = tg_id)) (wallet_ledger d))).

(** [list_clients] (src/db.py:269) *)
Definition list_clients (tg_id limit : Z) (d : DB) : list ClientRow :=
  sql_limit limit (rev (List.filter (fun r => bool_decide (c_tg_id r = tg_id)) (created_clients d))).

(** The dict [agent_stats] returns. *)
Record Stats := mkStats {
  st_orders : Z;
  st_clients : Z;
  st_spent : F;
  st_today_sales : F;
  st_balance : F;
  st_lifetime_topup : F
}.

(** [agent_stats] (src/db.py:274), [now_ts()] being [ts]:
    [COALESCE(SUM(net_price), 0)] is [0] when [SUM] is [NULL]. *)
Definition agent_stats (tg_id : Z) (ts : Z) (d : DB) : Stats :=
  let succ := List.filter (fun o => bool_decide (o_tg_id o = tg_id) && String.eqb (o_status o) "success")
                (orders d) in
  let today := List.filter (fun o => ts - 86400 <=? o_created_at o) succ in
  mkStats (Z.of_nat (List.length succ)) (fold_right Z.add 0 (map o_count succ))
    (default (Fin 0) (sql_sum (map o_net_price succ))) (default (Fin 0) (sql_sum (map o_net_price today)))
    (balance_or_0 tg_id d)
    (match get_agent tg_id d with Some a => lifetime_topup a | None => Fin 0 end).

(* ------------------------------------------------------------------ *)
(** ** More of src/telegram_bot.py *)

(** [page_bounds] (src/telegram_bot.py:295). [Z.div] floors like
    Python's [//]; a [per_page] of [0] raises [ZeroDivisionError]
    ([None]). *)
Definition page_bounds (total_items page per_page : Z) : option (Z * Z * Z) :=
  if per_page =? 0 then None else
  let total_pages := Z.max ((total_items - 1) / per_page + 1) 1 in
  let page' := Z.max 1 (Z.min page total_pages) in
  let offset := (page' - 1) * per_page in
  Some (page', offset, total_pages).

Record Button := mkButton { b_label : string; b_callback_data : string }.

(** [InlineKeyboardButton(label, callback_data=f"{callback_prefix}:{p}")] *)
Definition page_button (callback_prefix label : string) (p : Z) : Button :=
  mkButton label (callback_prefix ++ ":" ++ z_to_string p).

(** [range(start, stop + 1)] *)
Definition py_range_incl (start stop : Z) : list Z :=
  map (fun k => start + Z.of_nat k) (seq 0 (Z.to_nat (stop - start + 1))).

(** [build_pagination] (src/telegram_bot.py:267): the one row of its
    [InlineKeyboardMarkup]. *)
Definition build_pagination (total_items current_page items_per_page : Z) (callback_prefix : string)
    : option (list Button) :=
  if items_per_page =? 0 then None else
  let total_pages := Z.max ((total_items - 1) / items_per_page + 1) 1 in
  let page := Z.max 1 (Z.min current_page total_pages) in
  let first := if 1 <? page
               then [page_button callback_prefix "«" 1; page_button callback_prefix "‹" (page - 1)]
               else [page_button callback_prefix "«" 1; page_button callback_prefix "‹" 1] in
  let start := Z.max 1 (page - 1) in
  let end_ := Z.min total_pages (page + 1) in
  let mid := map (fun p => page_button callback_prefix
                             (if p =? page then "- " ++ z_to_string p ++ " -" else z_to_string p) p)
                 (py_range_incl start end_) in
  let last := if page <? total_pages
              then [page_button callback_prefix "›" (page + 1); page_button callback_prefix "»" total_pages]
              else [page_button callback_prefix "›" total_pages; page_button callback_prefix "»" total_pages] in
  Some (first ++ mid ++ last).

Definition WIZARD_RATE_LIMIT : Z := 5.
Definition WIZARD_RATE_WINDOW : Q := 600 # 1.

(** [can_start_wizard] (src/telegram_bot.py:126), with the global dict
    [WIZARD_STARTS] and the clock [time.time()] passed in. *)
Definition can_start_wizard (user_id : Z) (now : Q) (starts : gmap Z (list Q))
    : bool * gmap Z (list Q) :=
  let timestamps := List.filter (fun ts => Qlt_bool (now - ts) WIZARD_RATE_WINDOW)
                      (default [] (starts !! user_id)) in
  if WIZARD_RATE_LIMIT <=? Z.of_nat (List.length timestamps) then (false, <[user_id := timestamps]> starts)
  else (true, <[user_id := timestamps ++ [now]]> starts).

(** Successive calls [(user_id, time.time())], and their answers. *)
Fixpoint run_wizard_starts (calls : list (Z * Q)) (starts : gmap Z (list Q))
    : list bool * gmap Z (list Q) :=
  match calls with
  | [] => ([], starts)
  | (u, t) :: rest =>
      let (b, s1) := can_start_wizard u t starts in
      let (bs, s2) := run_wizard_starts rest s1 in (b :: bs, s2)
  end.

(** The [/topup <amount>] command (src/telegram_bot.py:1200), with
    [context.args]. *)
Definition topup (uid : Z) (args : list string) : M unit :=
  match args with
  | [a] =>
      match py_float a with
      | None => reply (Txt "Amount must be numeric")
      | Some amt =>
          if fle amt (Fin 0) then reply (Txt "Amount must be > 0")
          else bal <- db (add_balance uid amt "topup.manual" "") ;;
               reply (Fmt "Top-up ok. Balance: {}" [AF bal])
      end
  | _ => reply (Txt "Usage: /topup <amount>")
  end.

(** In [callback_router] (src/telegram_bot.py:625-631), a [page:...]
    callback: [parts = data.split(":")], the page type [parts[1]] and
    [as_int(parts[2]) or 1]; [None] is the "Invalid page request." reply
    to fewer than three parts. *)
Definition page_request (data : string) : option (string * Z) :=
  match map string_of_list_ascii (split_on ":"%char [] (list_ascii_of_string data)) with
  | _ :: page_type :: p2 :: _ =>
      Some (page_type, match as_int p2 with Some z => if z =? 0 then 1 else z | None => 1 end)
  | _ => None
  end.

(** Every promo code's [used_count] is within its [max_uses]. *)
Definition within_limits (d : DB) : Prop :=
  map_Forall (fun _ p => match p_max_uses p with Some m => p_used_count p <= m | None => True end)
    (promo_codes d).

(* ------------------------------------------------------------------ *)
(** ** Readings of the spec used to compare with the code *)

(** Spec 3: a promo code also carries [expires_at]; the [promo_codes]
    table has no such column, so the expiry moments are given
    alongside. *)
Definition promo_missing_inactive_or_expired (expires_at : string -> option Z) (now : Z)
    (code : string) (d : DB) : Prop :=
  match promo_codes d !! py_upper code with
  | None => True
  | Some p => p_active p = false \/ exists e, expires_at (py_upper code) = Some e /\ e < now
  end.



(* ------------------------------------------------------------------ *)
(** ** Concrete inputs *)

Definition cfg0 : Config := mkConfig 365 2000 100 1 (Fin 5) "vpn.example.com" 2096.

Definition agent0 (bal : F) : Agent := mkAgent "alice" "Alice" "reseller" true bal (Fin 0) None 0 0.

(** The default settings of [init_db]. *)
Definition settings0 : gmap string SettingVal :=
  <["price_per_gb" := SText "0.15"]> (<["price_per_day" := SText "0.10"]> ∅).

Definition db0 (bal : F) : DB :=
  mkDB (<[42 := agent0 bal]> ∅) settings0 ∅ [] [] [] [] ∅.

Definition inbound7 : InboundInfo := mkInbound 443 "tcp" "none" None "main".

Definition wiz_single : gmap string PyVal :=
  <["kind" := VStr "single"]> (<["inbound_id" := VInt 7]> (<["remark" := VStr "user1"]>
  (<["days" := VInt 30]> (<["gb" := VInt 50]> (<["start_after_first_use" := VBool false]>
  (<["auto_renew" := VBool false]> ∅)))))).

Definition world0 (d : DB) (u : Session) (fail : nat -> option string) : World :=
  mkWorld d u 1000 0 fail (fun i => if i =? 7 then Some inbound7 else None) [] 0
          (fun n => ("uuid-" ++ z_to_string (Z.of_nat n))%string)
          (fun n => ("sub-" ++ z_to_string (Z.of_nat n))%string) [].

Definition no_fail : nat -> option string := fun _ => None.
Definition preview_session (w : gmap string PyVal) (promo : option F) : Session :=
  mkSession (Some "wizard_preview") (Some w) promo.

(** Ledger conservation for one agent: the cached balance equals the sum
    of the agent's signed ledger amounts. *)
Definition balance_matches_ledger (tg : Z) (d : DB) : Prop :=
  exists a q q', agents d !! tg = Some a /\ fval (balance a) = Some q /\
    ledger_sum tg (wallet_ledger d) = Some q' /\ (q == q')%Q.

Definition dpromo (max_uses : option Z) : DB :=
  set_promo_codes (<["SALE" := mkPromoRow (Fin 10) max_uses 0 true 0]> ∅) (db0 (Fin 20)).

Definition idle : Session := mkSession None None None.



Definition prep_single : Prep := mkPrep 1 (Fin (21 # 2)) (Fin 0) (Fin (21 # 2)) false 0 [7].

(** A single order of 1 GB for 30 days: at the default rates its price
    is [round(1 * 0.15 + 30 * 0.10, 2) = 3.15]. *)
Definition wiz_1gb : gmap string PyVal := <["gb" := VInt 1]> wiz_single.

(** The wizard of a new order at its start-after-first-use step. *)
Definition wiz_stale : gmap string PyVal := delete "auto_renew" (delete "start_after_first_use" wiz_1gb).

(** Agent 42 with the balance [7.7], about to confirm [wiz_1gb]. *)
Definition world_77 : World :=
  world0 (db0 (f64 (77 # 10))) (preview_session wiz_1gb None) no_fail.

(** Agent 42 with the balance [7.7], in the middle of [wiz_stale], taps
    the confirm button of an earlier order preview. *)
Definition world_stale : World :=
  world0 (db0 (f64 (77 # 10))) (mkSession (Some "wizard_start_after_first_use") (Some wiz_stale) None) no_fail.

(** Three top-ups of [16.57], [21.05] and [14.09] (the doubles nearest
    to them, which is what [float] reads). *)
Definition topups3 : list ledger_op :=
  [Credit 7 (f64 (1657 # 100)) "topup.manual" "" 5; Credit 7 (f64 (2105 # 100)) "topup.manual" "" 6;
   Credit 7 (f64 (1409 # 100)) "topup.manual" "" 7].

(** A step that only reads the world. *)
Definition pure {A} (m : M A) : Prop := forall s, snd (m s) = s.

Definition world_poor : World :=
  world0 (db0 (Fin 1)) (preview_session wiz_single (Some (Fin 25))) no_fail.

Definition prep_poor : Prep :=
  match fst (prepare wiz_single world_poor) with inl p => p | inr _ => prep_single end.

Definition world_admin : World :=
  world0 (db0 (Fin 20)) (mkSession (Some "admin_charge_wallet") (Some ∅) None) no_fail.

(** A user in the middle of the text flow [flow]. *)
Definition world_flow (d : DB) (flow : string) (w : gmap string PyVal) : World :=
  world0 d (mkSession (Some flow) (Some w) None) no_fail.

(** The world after agent 42 was disabled. *)
Definition world_disabled : World :=
  world0 (snd (set_agent_active 42 false 0 (db0 (Fin 20)))) (preview_session wiz_single None) no_fail.


(* ------------------------------------------------------------------ *)
(** ** Predicates used in the proofs *)

(** A Unicode scalar value: a code point that is not a surrogate. *)
Definition valid_cp (c : Z) : Prop := 0 <= c < 55296 \/ 57344 <= c <= 1114111.

(** The code points [int(s)] accepts: white space, decimal digits, the
    signs and the underscore. *)
Definition int_char (c : Z) : bool :=
  is_py_space c || bool_decide (is_Some (decimal_value c)) || (c =? 43) || (c =? 45) || (c =? 95).

(** What [long_from_ascii] accepts. *)
Definition ascii_int_char (c : Z) : bool :=
  is_c_space c || is_c_digit c || (c =? 43) || (c =? 45) || (c =? 95).

(** A step that leaves the [created_clients] table as it is. *)
Definition keeps_clients {A} (m : M A) : Prop :=
  forall s, created_clients (w_db (snd (m s))) = created_clients (w_db s).

(** Every code point [int(s)] accepts, listed. *)
Definition int_chars : list Z :=
  [43; 45; 95] ++ List.concat (map (fun r => py_range_incl r.1 r.2) space_ranges) ++
  List.concat (map (fun z => py_range_incl z (z + 9)) decimal_zeros).

(* ================================================================== *)
(** * Properties *)

(** ** Small runs *)

Example price_default_50gb_30d :
  fst (inbound_price 7 30 50 (world0 (db0 (Fin 0)) (mkSession None None None) no_fail)) = inl (Fin (21 # 2)).
Proof. vm_compute. reflexivity. Qed.

Example round_ties_to_even : py_round2 (Fin (1 # 8)) = f64 (12 # 100).
Proof. vm_compute. reflexivity. Qed.

Example round_binary_value : py_round2 (f64 (2675 # 1000)) = f64 (267 # 100).
Proof. vm_compute. reflexivity. Qed.

Example strip_lower : py_lower (py_strip "  CANCEL ") = "cancel".
Proof. vm_compute. reflexivity. Qed.

Example inbound_ids_dedup : parse_inbound_ids "1, 2,2,3" = inl (Some [1; 2; 3]).
Proof. vm_compute. reflexivity. Qed.

(** ** Wallet ledger *)

(** C2. Ledger conservation fails with doubles: after [ensure_agent] and
    the three top-ups [16.57], [21.05] and [14.09], the cached balance is
    [51.71000000000001], which is not the exact sum of the agent's ledger
    amounts; SQLite's [SUM] over those amounts gives [51.71]. *)
Theorem ledger_conservation_fails :
  let d := run_ledger_ops topups3 (snd (ensure_agent 7 "bob" "Bob" "reseller" 1 (db0 (Fin 0)))) in
  ~ balance_matches_ledger 7 d /\
  Some (balance_or_0 7 d) = py_float "51.71000000000001" /\
  sql_sum (map l_amount (wallet_ledger d)) = py_float "51.71".
Proof.
  cbv zeta. split; [|split; vm_compute; reflexivity].
  intros (a & q & q' & Ha & Hq & Hq' & Heq).
  vm_compute in Ha. injection Ha as <-. vm_compute in Hq. injection Hq as <-.
  vm_compute in Hq'. injection Hq' as <-. vm_compute in Heq. discriminate Heq.
Qed.

(** C3. A debit larger than the balance raises [ValueError("Insufficient
    balance")] and returns the database unchanged: same balance, no
    ledger row. *)
Theorem debit_insufficient (d : DB) (tg : Z) (a : Agent) (amount : F) (reason meta : string) (ts : Z) :
  agents d !! tg = Some a -> flt (balance a) amount = true ->
  deduct_balance tg amount reason meta ts d = (inr (ValueError "Insufficient balance"), d).
Proof.
  intros Ha Hlt. unfold deduct_balance, balance_or_0, get_agent. rewrite Ha, Hlt. reflexivity.
Qed.

Lemma debit_insufficient_witness :
  agents (db0 (Fin 10)) !! 42 = Some (agent0 (Fin 10)) /\ flt (balance (agent0 (Fin 10))) (Fin 15) = true /\
  deduct_balance 42 (Fin 15) "order.charge" "" 1000 (db0 (Fin 10)) = (inr (ValueError "Insufficient balance"), db0 (Fin 10)).
Proof.
  split; [reflexivity|]. split; [vm_compute; reflexivity|].
  apply (debit_insufficient (db0 (Fin 10)) 42 (agent0 (Fin 10))); [reflexivity | vm_compute; reflexivity].
Defined.

(** C1. The refund does not always restore the balance, and not every
    exception after the charge is compensated. (a) With the balance
    [7.7], a single order priced [3.15] is charged and, when the
    [save_created_client] call raises, refunded and recorded as failed,
    yet the balance ends at [7.700000000000001]. (b) [wizard:confirm]
    tapped while the wizard has no [start_after_first_use] charges the
    wallet and then raises [KeyError] at [expiry_value], outside the
    [try]: no refund, no failed order. *)
Theorem saga_refund_gaps :
  let s := snd (finalize_order cfg0 42 wiz_1gb world_77) in
  let r := wizard_confirm_callback cfg0 42 "alice" "Alice" world_stale in
  Some (balance_or_0 42 (w_db world_77)) = py_float "7.7" /\
  map l_reason (wallet_ledger (w_db s)) = ["order.charge"; "order.refund"] /\
  map o_status (orders (w_db s)) = ["failed"] /\
  Some (balance_or_0 42 (w_db s)) = py_float "7.700000000000001" /\
  balance_or_0 42 (w_db s) <> balance_or_0 42 (w_db world_77) /\
  fst r = inr (KeyError "start_after_first_use") /\
  map l_reason (wallet_ledger (w_db (snd r))) = ["order.charge"] /\
  orders (w_db (snd r)) = [] /\
  Some (balance_or_0 42 (w_db (snd r))) = py_float "4.550000000000001".
Proof.
  cbv zeta. repeat split; try (vm_compute; reflexivity).
  vm_compute. intros H. injection H as H. discriminate H.
Qed.

(** ** Promo codes *)

Lemma redeemed_app_self (c : string) (tg ts : Z) (rs : list Redemption) :
  redeemed c tg (rs ++ [mkRedemption c tg ts]) = true.
Proof.
  unfold redeemed. rewrite existsb_app. apply orb_true_iff. right. simpl.
  rewrite !bool_decide_true by done. reflexivity.
Qed.

(** C7 (as the code does it). After a successful [apply_promo code tg], a
    second [apply_promo] of the same code by the same agent raises a
    [ValueError] and returns the database unchanged (same [used_count],
    same redemption rows). The error is "Promo code already used", except
    when the first redemption brought [used_count] up to [max_uses]: the
    usage-limit check runs first and reports "Promo code usage limit
    reached". *)
Theorem promo_second_redeem (d d1 : DB) (code : string) (tg ts ts' : Z) (disc : F) :
  apply_promo code tg ts d = (inl disc, d1) ->
  exists p, promo_codes d !! py_upper code = Some p /\
    apply_promo code tg ts' d1 =
      (inr (ValueError (if match p_max_uses p with Some m => m <=? p_used_count p + 1 | None => false end
                        then "Promo code usage limit reached" else "Promo code already used")), d1).
Proof.
  unfold apply_promo at 1.
  destruct (promo_codes d !! py_upper code) as [p|] eqn:Hp; [|discriminate].
  destruct (p_active p) eqn:Ha; simpl; [|discriminate].
  destruct (match p_max_uses p with Some m => m <=? p_used_count p | None => false end) eqn:Hm;
    [discriminate|].
  destruct (redeemed (py_upper code) tg (promo_redemptions d)) eqn:Hr; [discriminate|].
  intros H. injection H as <- <-. exists p. split; [reflexivity|].
  unfold apply_promo. simpl. rewrite lookup_insert_eq. unfold bump_used; simpl. rewrite Ha; simpl.
  destruct (p_max_uses p) as [m|]; simpl.
  - destruct (m <=? p_used_count p + 1); [reflexivity|].
    rewrite redeemed_app_self. reflexivity.
  - rewrite redeemed_app_self. reflexivity.
Qed.

Lemma promo_second_redeem_witness :
  exists p, promo_codes (dpromo None) !! py_upper "sale" = Some p /\
    apply_promo "sale" 42 2 (snd (apply_promo "sale" 42 1 (dpromo None))) =
      (inr (ValueError (if match p_max_uses p with Some m => m <=? p_used_count p + 1 | None => false end
                        then "Promo code usage limit reached" else "Promo code already used")),
       snd (apply_promo "sale" 42 1 (dpromo None))).
Proof.
  apply (promo_second_redeem (dpromo None) (snd (apply_promo "sale" 42 1 (dpromo None))) "sale" 42 1 2 (Fin 10)).
  vm_compute. reflexivity.
Defined.

(** C7 as stated fails: with [max_uses = 1] the second redemption by the
    same agent reports the usage limit, not "already used". *)
Lemma promo_second_redeem_limit_first :
  fst (apply_promo "sale" 42 1 (dpromo (Some 1))) = inl (Fin 10) /\
  fst (apply_promo "sale" 42 2 (snd (apply_promo "sale" 42 1 (dpromo (Some 1))))) =
    inr (ValueError "Promo code usage limit reached") /\
  fst (apply_promo "sale" 42 2 (snd (apply_promo "sale" 42 1 (dpromo (Some 1))))) <>
    inr (ValueError "Promo code already used").
Proof. vm_compute. split; [reflexivity|]. split; [reflexivity|discriminate]. Qed.

(** C8 (as the code does it). [apply_promo] raises [ValueError("Promo code
    not found or inactive")] and changes nothing when the upper-cased code
    has no row or its row is inactive. *)
Theorem promo_not_found (d : DB) (code : string) (tg ts : Z) :
  (promo_codes d !! py_upper code = None \/
   exists p, promo_codes d !! py_upper code = Some p /\ p_active p = false) ->
  apply_promo code tg ts d = (inr (ValueError "Promo code not found or inactive"), d).
Proof.
  intros [H | [p [H Ha]]]; unfold apply_promo; rewrite H; [reflexivity|].
  rewrite Ha. reflexivity.
Qed.

Lemma promo_not_found_witness :
  (promo_codes (dpromo None) !! py_upper "nope" = None \/
   exists p, promo_codes (dpromo None) !! py_upper "nope" = Some p /\ p_active p = false) /\
  apply_promo "nope" 42 5 (dpromo None) = (inr (ValueError "Promo code not found or inactive"), dpromo None).
Proof.
  assert (H : promo_codes (dpromo None) !! py_upper "nope" = None \/
              exists p, promo_codes (dpromo None) !! py_upper "nope" = Some p /\ p_active p = false)
    by (left; vm_compute; reflexivity).
  split; [exact H | apply (promo_not_found (dpromo None) "nope" 42 5 H)].
Defined.

(** C8 as stated fails: the code has no expiry, so an active code whose
    (spec-level) [expires_at] lies in the past is still redeemed. *)
Lemma promo_expired_still_redeemed :
  ~ (forall (expires_at : string -> option Z) (now : Z) (code : string) (tg : Z) (d : DB),
       promo_missing_inactive_or_expired expires_at now code d ->
       apply_promo code tg now d = (inr (ValueError "Promo code not found or inactive"), d)).
Proof.
  intros H.
  assert (Hexp : promo_missing_inactive_or_expired (fun _ => Some 0) 100 "sale" (dpromo None)).
  { unfold promo_missing_inactive_or_expired. vm_compute. right. exists 0. split; reflexivity. }
  specialize (H _ _ _ 42 _ Hexp). vm_compute in H. discriminate H.
Qed.


(** ** Pricing *)

Lemma set_db_same (w : World) : set_db (w_db w) w = w.
Proof. destruct w; reflexivity. Qed.

Lemma bind_inl {A B} (m : M A) (k : A -> M B) (s s' : World) (a : A) :
  m s = (inl a, s') -> bind m k s = k a s'.
Proof. intros H. unfold bind. rewrite H. reflexivity. Qed.

Lemma bind_inr {A B} (m : M A) (k : A -> M B) (s s' : World) (e : exn) :
  m s = (inr e, s') -> bind m k s = (inr e, s').
Proof. intros H. unfold bind. rewrite H. reflexivity. Qed.

Lemma get_setting_float_db (key : string) (s : World) :
  exists r, db (get_setting_float key) s = (r, s).
Proof.
  unfold db, get_setting_float. destruct (settings (w_db s) !! key) as [v|];
    [destruct (setting_value_float v)|]; rewrite set_db_same; eexists; reflexivity.
Qed.


Lemma rule_rate_pure (fld : option F) (key : string) (s : World) :
  exists r, rule_rate fld key s = (r, s).
Proof.
  unfold rule_rate. destruct fld; [eexists; reflexivity | apply get_setting_float_db].
Qed.

Lemma py_float_of_int_pure (z : Z) (s : World) : exists r, py_float_of_int z s = (r, s).
Proof. unfold py_float_of_int. destruct (float_of_int z); eexists; reflexivity. Qed.

Lemma bind_pure {A B} (m : M A) (k : A -> M B) (s : World) :
  (exists r, m s = (r, s)) -> (forall a, exists r, k a s = (r, s)) -> exists r, bind m k s = (r, s).
Proof.
  intros [[a|e] Hm] Hk; unfold bind; rewrite Hm; [apply Hk | eexists; reflexivity].
Qed.

(** [inbound_price] only reads the world. *)
Lemma inbound_price_pure (i days gb : Z) (s : World) : exists r, inbound_price i days gb s = (r, s).
Proof.
  unfold inbound_price. apply bind_pure; [eexists; reflexivity|]. intros rule.
  destruct (match rule with Some r => negb (ru_enabled r) | None => false end);
    [eexists; reflexivity|].
  apply bind_pure; [apply rule_rate_pure|]. intros ppgb.
  apply bind_pure; [apply rule_rate_pure|]. intros ppday.
  apply bind_pure; [apply py_float_of_int_pure|]. intros g.
  apply bind_pure; [apply py_float_of_int_pure|]. intros dd.
  eexists; reflexivity.
Qed.







(** ** UTF-8 *)


Lemma in_range_true (lo hi c : Z) : lo <= c <= hi -> in_range lo hi c = true.
Proof. intros H. unfold in_range. apply andb_true_iff. split; apply Z.leb_le; lia. Qed.

Lemma in_range_false (lo hi c : Z) : c < lo \/ hi < c -> in_range lo hi c = false.
Proof. intros H. unfold in_range. apply andb_false_iff. destruct H; [left|right]; apply Z.leb_gt; lia. Qed.

Lemma in_range_iff (lo hi c : Z) : in_range lo hi c = true <-> lo <= c <= hi.
Proof. unfold in_range. rewrite andb_true_iff, !Z.leb_le. tauto. Qed.

Lemma byte_of_byte (z : Z) : 0 <= z < 256 -> byte (of_byte z) = z.
Proof.
  intros H. unfold byte, of_byte. rewrite nat_ascii_embedding by lia. lia.
Qed.

Lemma byte_bound (a : ascii) : 0 <= byte a < 256.
Proof. unfold byte. pose proof (nat_ascii_bounded a). lia. Qed.

Ltac dlia := Z.div_mod_to_equations; lia.

Ltac zeqs := repeat match goal with
  | H : (_ =? _) = true |- _ => apply Z.eqb_eq in H
  | H : (_ =? _) = false |- _ => apply Z.eqb_neq in H
  end.

Ltac second_cases b0 :=
  unfold second_lo, second_hi in *;
  destruct (b0 =? 224) eqn:?; destruct (b0 =? 240) eqn:?;
  destruct (b0 =? 237) eqn:?; destruct (b0 =? 244) eqn:?; zeqs.

Lemma decode_cons (a0 : ascii) (r1 : list ascii) :
  utf8_decode (a0 :: r1) =
    let b0 := byte a0 in
    if b0 <? 128 then b0 :: utf8_decode r1 else
    match r1 with
    | [] => [65533]
    | a1 :: r2 =>
        let b1 := byte a1 in
        if seq2 b0 b1 then (64 * (b0 - 192) + (b1 - 128)) :: utf8_decode r2 else
        match r2 with
        | [] => 65533 :: utf8_decode r1
        | a2 :: r3 =>
            let b2 := byte a2 in
            if seq3 b0 b1 b2
            then (4096 * (b0 - 224) + 64 * (b1 - 128) + (b2 - 128)) :: utf8_decode r3 else
            match r3 with
            | [] => 65533 :: utf8_decode r1
            | a3 :: r4 =>
                let b3 := byte a3 in
                if seq4 b0 b1 b2 b3
                then (262144 * (b0 - 240) + 4096 * (b1 - 128) + 64 * (b2 - 128) + (b3 - 128))
                       :: utf8_decode r4
                else 65533 :: utf8_decode r1
            end
        end
    end.
Proof. reflexivity. Qed.

Lemma decode_encode_cp (c : Z) (rest : list ascii) :
  valid_cp c -> utf8_decode (utf8_encode_cp c ++ rest) = c :: utf8_decode rest.
Proof.
  intros Hc. unfold valid_cp in Hc. unfold utf8_encode_cp.
  destruct (c <? 128) eqn:E1; [|destruct (c <? 2048) eqn:E2; [|destruct (c <? 65536) eqn:E3]];
    rewrite ?Z.ltb_lt, ?Z.ltb_ge in *; cbn [map app]; rewrite decode_cons; cbv zeta.
  - rewrite byte_of_byte by lia.
    replace (c <? 128) with true by (symmetry; apply Z.ltb_lt; lia). reflexivity.
  - rewrite !byte_of_byte by dlia.
    replace (192 + c / 64 <? 128) with false by (symmetry; apply Z.ltb_ge; dlia).
    unfold seq2, cont. rewrite !in_range_true by dlia. cbn [andb].
    f_equal. dlia.
  - rewrite !byte_of_byte by dlia.
    replace (224 + c / 4096 <? 128) with false by (symmetry; apply Z.ltb_ge; dlia).
    unfold seq2, seq3, cont. rewrite (in_range_false 194 223) by dlia. cbn [andb].
    rewrite (in_range_true 224 239) by dlia.
    rewrite (in_range_true 128 191 (128 + c mod 64)) by dlia.
    rewrite (in_range_true (second_lo (224 + c / 4096)) (second_hi (224 + c / 4096))).
    + cbn [andb]. f_equal. dlia.
    + second_cases (224 + c / 4096); dlia.
  - rewrite !byte_of_byte by dlia.
    replace (240 + c / 262144 <? 128) with false by (symmetry; apply Z.ltb_ge; dlia).
    unfold seq2, seq3, seq4, cont.
    rewrite (in_range_false 194 223) by dlia. cbn [andb].
    rewrite (in_range_false 224 239) by dlia. cbn [andb].
    rewrite (in_range_true 240 244) by dlia.
    rewrite (in_range_true 128 191 (128 + c mod 64)) by dlia.
    rewrite (in_range_true 128 191 (128 + c mod 4096 / 64)) by dlia.
    rewrite (in_range_true (second_lo (240 + c / 262144)) (second_hi (240 + c / 262144))).
    + cbn [andb]. f_equal. dlia.
    + second_cases (240 + c / 262144); dlia.
Qed.

(** Decoding undoes encoding on scalar values. *)
Lemma py_chars_utf8_encode (cs : list Z) : Forall valid_cp cs -> py_chars (utf8_encode cs) = cs.
Proof.
  unfold py_chars, utf8_encode. rewrite list_ascii_of_string_of_list_ascii.
  induction 1 as [|c cs Hc _ IH]; [reflexivity|].
  cbn [map List.concat]. rewrite decode_encode_cp by exact Hc. f_equal. exact IH.
Qed.

Lemma decode_valid_n (n : nat) (l : list ascii) : (List.length l <= n)%nat -> Forall valid_cp (utf8_decode l).
Proof.
  revert l. induction n as [|n IH]; intros l Hl.
  { destruct l; [constructor | simpl in Hl; lia]. }
  destruct l as [|a0 r1]; [constructor|]. simpl in Hl.
  assert (Hfffd : valid_cp 65533) by (unfold valid_cp; lia).
  pose proof (byte_bound a0) as B0.
  cbn [utf8_decode].
  destruct (byte a0 <? 128) eqn:E0.
  { constructor; [unfold valid_cp; apply Z.ltb_lt in E0; lia | apply IH; lia]. }
  destruct r1 as [|a1 r2]; [constructor; [exact Hfffd | constructor]|].
  pose proof (byte_bound a1) as B1.
  destruct (seq2 (byte a0) (byte a1)) eqn:E2.
  { unfold seq2, cont in E2. apply andb_true_iff in E2 as [E2a E2b].
    apply in_range_iff in E2a, E2b.
    constructor; [unfold valid_cp; lia | apply IH; simpl in Hl; lia]. }
  destruct r2 as [|a2 r3]; [constructor; [exact Hfffd | apply IH; simpl in *; lia]|].
  pose proof (byte_bound a2) as B2.
  destruct (seq3 (byte a0) (byte a1) (byte a2)) eqn:E3.
  { unfold seq3, cont in E3. apply andb_true_iff in E3 as [E3 E3c]. apply andb_true_iff in E3 as [E3a E3b].
    apply in_range_iff in E3a, E3b, E3c.
    constructor; [|apply IH; simpl in Hl; lia].
    unfold valid_cp in *. second_cases (byte a0); lia. }
  destruct r3 as [|a3 r4]; [constructor; [exact Hfffd | apply IH; simpl in *; lia]|].
  pose proof (byte_bound a3) as B3.
  destruct (seq4 (byte a0) (byte a1) (byte a2) (byte a3)) eqn:E4.
  { unfold seq4, cont in E4. apply andb_true_iff in E4 as [E4 E4d]. apply andb_true_iff in E4 as [E4 E4c].
    apply andb_true_iff in E4 as [E4a E4b].
    apply in_range_iff in E4a, E4b, E4c, E4d.
    constructor; [|apply IH; simpl in Hl; lia].
    unfold valid_cp in *. second_cases (byte a0); lia. }
  constructor; [exact Hfffd | apply IH; simpl in *; lia].
Qed.

(** Every decoded code point is a scalar value. *)
Lemma py_chars_valid (s : string) : Forall valid_cp (py_chars s).
Proof. apply (decode_valid_n (List.length (list_ascii_of_string s))). lia. Qed.

Lemma py_chars_encode_decode (s : string) : py_chars (utf8_encode (py_chars s)) = py_chars s.
Proof. apply py_chars_utf8_encode, py_chars_valid. Qed.

(** An ASCII string decodes to its bytes. *)
Lemma py_chars_ascii (l : list ascii) :
  Forall (fun a => byte a < 128) l -> py_chars (string_of_list_ascii l) = map byte l.
Proof.
  unfold py_chars. rewrite list_ascii_of_string_of_list_ascii.
  induction 1 as [|a l Ha _ IH]; [reflexivity|].
  cbn [utf8_decode map]. replace (byte a <? 128) with true by (symmetry; apply Z.ltb_lt; exact Ha).
  f_equal. exact IH.
Qed.

Lemma drop_spaces_suffix (l : list Z) : exists p, l = p ++ drop_spaces l.
Proof.
  induction l as [|c l [p IH]]; [exists []; reflexivity|]. cbn [drop_spaces].
  destruct (is_py_space c); [exists (c :: p); simpl; f_equal; exact IH | exists []; reflexivity].
Qed.

Lemma Forall_drop_spaces (P : Z -> Prop) (l : list Z) : Forall P l -> Forall P (drop_spaces l).
Proof.
  destruct (drop_spaces_suffix l) as [p Hp]. intros H. rewrite Hp in H.
  apply Forall_app in H. exact (proj2 H).
Qed.

Lemma py_chars_strip (s : string) :
  py_chars (py_strip s) = rev (drop_spaces (rev (drop_spaces (py_chars s)))).
Proof.
  unfold py_strip. apply py_chars_utf8_encode.
  apply Forall_rev, Forall_drop_spaces, Forall_rev, Forall_drop_spaces, py_chars_valid.
Qed.

(** Whatever [str.strip()] keeps was in the string. *)
Lemma Forall_strip (P : Z -> Prop) (s : string) : Forall P (py_chars s) -> Forall P (py_chars (py_strip s)).
Proof.
  intros H. rewrite py_chars_strip.
  apply Forall_rev, Forall_drop_spaces, Forall_rev, Forall_drop_spaces, H.
Qed.

(** ** Wizard validation *)

Lemma scan_digits_split (acc : Z) (seen pu : bool) (l : list Z) (v : Z) (b : bool) (rest : list Z) :
  scan_digits acc seen pu l = Some (v, b, rest) ->
  exists p, l = p ++ rest /\ Forall (fun c => is_c_digit c || (c =? 95) = true) p.
Proof.
  revert acc seen pu. induction l as [|c l IH]; intros acc seen pu H; cbn [scan_digits] in H.
  - destruct pu; [discriminate|]. injection H as _ _ <-. exists []. split; [reflexivity | constructor].
  - destruct (is_c_digit c) eqn:Ed.
    + destruct (IH _ _ _ H) as [p [-> Hp]]. exists (c :: p). split; [reflexivity|].
      constructor; [rewrite Ed; reflexivity | exact Hp].
    + destruct (c =? 95) eqn:Eu.
      * destruct pu; [discriminate|]. destruct (IH _ _ _ H) as [p [-> Hp]].
        exists (c :: p). split; [reflexivity|]. constructor; [rewrite Eu, orb_true_r; reflexivity | exact Hp].
      * destruct pu; [discriminate|]. injection H as _ _ <-. exists []. split; [reflexivity | constructor].
Qed.

Lemma drop_c_spaces_split (l : list Z) :
  exists p, l = p ++ drop_c_spaces l /\ Forall (fun c => is_c_space c = true) p.
Proof.
  induction l as [|c l [p [Hp Hs]]]; [exists []; split; [reflexivity | constructor]|].
  cbn [drop_c_spaces]. destruct (is_c_space c) eqn:E.
  - exists (c :: p). split; [simpl; f_equal; exact Hp | constructor; assumption].
  - exists []. split; [reflexivity | constructor].
Qed.

Lemma sign_default (c : Z) (l : list Z) : c <> 43 -> c <> 45 ->
  match c :: l with 43 :: l' => (1, l') | 45 :: l' => (-1, l') | _ => (1, c :: l) end = (1, c :: l).
Proof.
  intros H1 H2. destruct c as [|p|p]; try reflexivity.
  repeat (destruct p as [p|p|]; try reflexivity);
    try (exfalso; apply H1; reflexivity); exfalso; apply H2; reflexivity.
Qed.

Lemma sign_split (l : list Z) : exists s l2 p,
  match l with 43 :: l' => (1, l') | 45 :: l' => (-1, l') | _ => (1, l) end = (s, l2) /\
  l = p ++ l2 /\ Forall (fun c => (c =? 43) || (c =? 45) = true) p.
Proof.
  destruct l as [|c l]; [exists 1, [], []; repeat split; constructor|].
  destruct (Z.eqb_spec c 43) as [->|H1]; [exists 1, l, [43]; repeat split; repeat constructor|].
  destruct (Z.eqb_spec c 45) as [->|H2]; [exists (-1), l, [45]; repeat split; repeat constructor|].
  exists 1, (c :: l), []. split; [apply sign_default; assumption | split; [reflexivity | constructor]].
Qed.

Lemma underscore_guard (l : list Z) (Y : option Z) (n : Z) :
  match l with 95 :: _ => None | _ => Y end = Some n -> Y = Some n.
Proof.
  intros H. destruct l as [|c l]; [exact H|]. destruct c as [|p|p]; try exact H.
  repeat (destruct p as [p|p|]; try exact H); discriminate H.
Qed.

Lemma long_from_ascii_chars (l : list Z) (n : Z) :
  long_from_ascii l = Some n -> Forall (fun c => ascii_int_char c = true) l.
Proof.
  intros H. unfold long_from_ascii in H. cbv zeta in H.
  destruct (drop_c_spaces_split l) as [p0 [Hl0 Hp0]].
  destruct (sign_split (drop_c_spaces l)) as (s & l2 & p1 & Heq & Hl1 & Hp1).
  rewrite Heq in H. apply underscore_guard in H.
  destruct (scan_digits 0 false false l2) as [[[v [|]] rest]|] eqn:Es; try discriminate.
  destruct (forallb is_c_space rest) eqn:Er; try discriminate.
  destruct (scan_digits_split _ _ _ _ _ _ _ Es) as [p2 [Hl2 Hp2]].
  rewrite Hl0, Hl1, Hl2.
  repeat (apply Forall_app; split).
  - eapply Forall_impl; [exact Hp0|]. intros c Hc. unfold ascii_int_char. rewrite Hc. reflexivity.
  - eapply Forall_impl; [exact Hp1|]. intros c Hc. unfold ascii_int_char.
    apply orb_true_iff in Hc as [Hc|Hc]; rewrite Hc; rewrite ?orb_true_r; reflexivity.
  - eapply Forall_impl; [exact Hp2|]. intros c Hc. unfold ascii_int_char.
    apply orb_true_iff in Hc as [Hc|Hc]; rewrite Hc; rewrite ?orb_true_r; reflexivity.
  - apply List.Forall_forall. intros c Hc. pose proof (proj1 (List.forallb_forall _ _) Er c Hc) as Ec.
    unfold ascii_int_char. rewrite Ec. reflexivity.
Qed.

Lemma in_range_enum (lo hi c : Z) : in_range lo hi c = true -> In c (py_range_incl lo hi).
Proof.
  intros H. apply in_range_iff in H. unfold py_range_incl. apply in_map_iff.
  exists (Z.to_nat (c - lo)). split; [lia|]. apply in_seq. lia.
Qed.

Lemma in_ranges_enum (rs : list (Z * Z)) (c : Z) :
  in_ranges rs c = true -> In c (List.concat (map (fun r => py_range_incl r.1 r.2) rs)).
Proof.
  unfold in_ranges. intros H. apply existsb_exists in H as [r [Hr Hc]].
  apply in_concat. exists (py_range_incl r.1 r.2). split; [apply (in_map (fun r => py_range_incl r.1 r.2)); exact Hr | apply in_range_enum, Hc].
Qed.

Lemma decimal_value_enum (c : Z) :
  is_Some (decimal_value c) -> In c (List.concat (map (fun z => py_range_incl z (z + 9)) decimal_zeros)).
Proof.
  unfold decimal_value. destruct (List.find _ decimal_zeros) as [z|] eqn:E; [|intros [? H]; discriminate].
  intros _. apply find_some in E as [Hz Hc]. apply in_concat. exists (py_range_incl z (z + 9)).
  split; [apply (in_map (fun z => py_range_incl z (z + 9))); exact Hz | apply in_range_enum, Hc].
Qed.

Lemma int_char_enum (c : Z) : int_char c = true -> In c int_chars.
Proof.
  unfold int_char, int_chars. intros H. apply in_or_app.
  apply orb_true_iff in H as [H|H]; [apply orb_true_iff in H as [H|H];
    [apply orb_true_iff in H as [H|H]; [apply orb_true_iff in H as [H|H]|]|]|].
  - right. apply in_or_app. left. apply in_ranges_enum, H.
  - right. apply in_or_app. right. apply decimal_value_enum. exact (bool_decide_eq_true_1 _ H).
  - left. apply Z.eqb_eq in H. subst. simpl. auto.
  - left. apply Z.eqb_eq in H. subst. simpl. auto.
  - left. apply Z.eqb_eq in H. subst. simpl. auto.
Qed.

Lemma int_char_lower (c : Z) :
  int_char c = true -> c <> 931 /\ case_map lower_runs lower_multi c = [c].
Proof.
  intros H. apply int_char_enum in H.
  assert (Hall : forallb (fun c => negb (c =? 931) && bool_decide (case_map lower_runs lower_multi c = [c]))
                   int_chars = true) by (vm_compute; reflexivity).
  pose proof (proj1 (List.forallb_forall _ _) Hall c H) as Hc.
  apply andb_true_iff in Hc as [H1 H2]. split.
  - apply negb_true_iff, Z.eqb_neq in H1. exact H1.
  - exact (bool_decide_eq_true_1 _ H2).
Qed.

Lemma lower_cps_int (before l : list Z) :
  Forall (fun c => int_char c = true) l -> lower_cps before l = l.
Proof.
  revert before. induction l as [|c l IH]; intros before H; [reflexivity|].
  inversion H as [|? ? Hc Hl]; subst. destruct (int_char_lower c Hc) as [Hn Hm].
  cbn [lower_cps]. replace (c =? 931) with false by (symmetry; apply Z.eqb_neq; exact Hn).
  rewrite Hm, IH by exact Hl. reflexivity.
Qed.

Lemma to_ascii_cp_int (c c' : Z) :
  to_ascii_cp c = Some c' -> ascii_int_char c' = true -> int_char c = true.
Proof.
  unfold to_ascii_cp. destruct (c <? 127) eqn:E1.
  - intros [= <-] H.
    assert (Hl : In c (py_range_incl 9 13 ++ [32] ++ py_range_incl 48 57 ++ [43; 45; 95])).
    { unfold ascii_int_char, is_c_space, is_c_digit in H.
      apply orb_true_iff in H as [H|H]; [apply orb_true_iff in H as [H|H];
        [apply orb_true_iff in H as [H|H]; [apply orb_true_iff in H as [H|H];
          [apply orb_true_iff in H as [H|H]|]|]|]|];
        first [ apply in_or_app; left; apply in_range_enum; exact H
              | apply in_or_app; right; apply in_or_app; right; apply in_or_app; left;
                apply in_range_enum; exact H
              | apply Z.eqb_eq in H; subst; rewrite !in_app_iff; simpl; tauto ]. }
    assert (Hall : forallb int_char (py_range_incl 9 13 ++ [32] ++ py_range_incl 48 57 ++ [43; 45; 95]) = true)
      by (vm_compute; reflexivity).
    exact (proj1 (List.forallb_forall _ _) Hall c Hl).
  - destruct (is_py_space c) eqn:E2.
    + intros _ _. unfold int_char. rewrite E2. reflexivity.
    + destruct (decimal_value c) as [d|] eqn:E3; [|discriminate]. intros _ _.
      unfold int_char. rewrite E3, bool_decide_eq_true_2 by (eexists; reflexivity). rewrite orb_true_r. reflexivity.
Qed.

Lemma to_ascii_int (cs a : list Z) :
  to_ascii cs = Some a -> Forall (fun c => ascii_int_char c = true) a -> Forall (fun c => int_char c = true) cs.
Proof.
  revert a. induction cs as [|c cs IH]; intros a H Ha; [constructor|].
  cbn [to_ascii] in H. destruct (to_ascii_cp c) as [c'|] eqn:E1; [|discriminate].
  destruct (to_ascii cs) as [r|] eqn:E2; [|discriminate]. injection H as <-.
  inversion Ha as [|? ? Hc Hr]; subst. constructor; [exact (to_ascii_cp_int c c' E1 Hc) | exact (IH r eq_refl Hr)].
Qed.

Lemma py_int_chars (s : string) (n : Z) : py_int s = Some n -> Forall (fun c => int_char c = true) (py_chars s).
Proof.
  unfold py_int. destruct (to_ascii (py_chars s)) as [a|] eqn:E; [|discriminate].
  intros H. exact (to_ascii_int _ _ E (long_from_ascii_chars _ _ H)).
Qed.

(** A text [int()] reads is never a cancel word. *)
Lemma int_not_cancel (s : string) (n : Z) : py_int s = Some n -> is_cancel s = false.
Proof.
  intros H. pose proof (Forall_strip _ _ (py_int_chars s n H)) as Hs.
  unfold is_cancel, py_lower. rewrite (lower_cps_int [] _ Hs).
  assert (Hnot : forall lit, existsb (fun c => negb (int_char c)) (py_chars lit) = true ->
                   String.eqb (utf8_encode (py_chars (py_strip s))) lit = false).
  { intros lit Hlit. apply String.eqb_neq. intros Heq.
    apply existsb_exists in Hlit as [c [Hc Hb]].
    rewrite <- Heq, py_chars_encode_decode in Hc.
    rewrite List.Forall_forall in Hs. rewrite (Hs c Hc) in Hb. discriminate. }
  cbn [existsb CANCEL_OPTIONS].
  rewrite !Hnot by (vm_compute; reflexivity). reflexivity.
Qed.

Lemma wizard_number_reject (key : string) (bound : Z) (next : string) (err : msg)
    (ok : gmap string PyVal -> M msg) (txt : string) (w : gmap string PyVal) (n : Z) (s : World) :
  py_int txt = Some n -> n < 1 \/ bound < n ->
  wizard_number key bound next err ok txt w s = (inl tt, set_out (w_out s ++ [err]) s).
Proof.
  intros H Hn. unfold wizard_number, parse_positive_int.
  destruct (negb (py_isdigit txt)); [reflexivity|]. rewrite H.
  destruct (n <=? 0) eqn:E; [reflexivity|].
  rewrite (bind_inl _ _ s s (Some n)) by reflexivity.
  replace (bound <? n) with true by (symmetry; apply Z.ltb_lt; lia). reflexivity.
Qed.

Ltac reach_flow Hf Hd s uid :=
  unfold text_flow;
  rewrite (bind_inl _ _ s s (get_agent uid (w_db s))) by reflexivity;
  rewrite (bind_inl _ _ s s (w_ud s)) by reflexivity;
  cbv beta zeta; rewrite Hf, (int_not_cancel _ _ Hd); cbn [default from_option id];
  cbn [String.eqb Ascii.eqb Bool.eqb andb negb].

(** C10. In the wizard steps for count, days and GB, a text that [int()]
    reads (after [strip()]) as a number outside [1, MAX_BULK_COUNT],
    [1, MAX_DAYS] or [1, MAX_GB] only sends the step's "Invalid ..."
    message: the flow stays at the same step, the wizard dict, the promo,
    the database and the panel are untouched ([set_out] changes the outbox
    alone). *)
Theorem wizard_rejects_out_of_range (cfg : Config) (uid : Z) (raw : string) (n : Z) (s : World) :
  py_int (py_strip raw) = Some n ->
  (ud_flow (w_ud s) = Some "wizard_count" -> n < 1 \/ MAX_BULK_COUNT cfg < n ->
     text_flow cfg uid raw s =
       (inl tt, set_out (w_out s ++ [Fmt "Invalid count. Enter a number between 1 and {}."
                                         [AZ (MAX_BULK_COUNT cfg)]]) s)) /\
  (ud_flow (w_ud s) = Some "wizard_days" -> n < 1 \/ MAX_DAYS cfg < n ->
     text_flow cfg uid raw s =
       (inl tt, set_out (w_out s ++ [Fmt "Invalid days. Enter a number between 1 and {}."
                                         [AZ (MAX_DAYS cfg)]]) s)) /\
  (ud_flow (w_ud s) = Some "wizard_gb" -> n < 1 \/ MAX_GB cfg < n ->
     text_flow cfg uid raw s =
       (inl tt, set_out (w_out s ++ [Fmt "Invalid GB. Enter a number between 1 and {}."
                                         [AZ (MAX_GB cfg)]]) s)).
Proof.
  intros Hd. split; [|split]; intros Hf Hn; reach_flow Hf Hd s uid;
    exact (wizard_number_reject _ _ _ _ _ _ _ n s Hd Hn).
Qed.

Lemma wizard_rejects_out_of_range_witness :
  text_flow cfg0 42 " 0 " (world0 (db0 (Fin 20)) (mkSession (Some "wizard_days") (Some wiz_single) None) no_fail) =
    (inl tt, set_out ([] ++ [Fmt "Invalid days. Enter a number between 1 and {}." [AZ (MAX_DAYS cfg0)]])
               (world0 (db0 (Fin 20)) (mkSession (Some "wizard_days") (Some wiz_single) None) no_fail)) /\
  text_flow cfg0 42 "-5" (world0 (db0 (Fin 20)) (mkSession (Some "wizard_gb") (Some wiz_single) None) no_fail) =
    (inl tt, set_out ([] ++ [Fmt "Invalid GB. Enter a number between 1 and {}." [AZ (MAX_GB cfg0)]])
               (world0 (db0 (Fin 20)) (mkSession (Some "wizard_gb") (Some wiz_single) None) no_fail)).
Proof.
  split.
  - assert (Hd : py_int (py_strip " 0 ") = Some 0) by (vm_compute; reflexivity).
    apply (proj1 (proj2 (wizard_rejects_out_of_range cfg0 42 " 0 " 0
             (world0 (db0 (Fin 20)) (mkSession (Some "wizard_days") (Some wiz_single) None) no_fail) Hd))); [reflexivity | lia].
  - assert (Hd : py_int (py_strip "-5") = Some (-5)) by (vm_compute; reflexivity).
    apply (proj2 (proj2 (wizard_rejects_out_of_range cfg0 42 "-5" (-5)
             (world0 (db0 (Fin 20)) (mkSession (Some "wizard_gb") (Some wiz_single) None) no_fail) Hd))); [reflexivity | lia].
Defined.

(** ** The reserve step *)

Lemma pure_ret {A} (a : A) : pure (ret a).
Proof. intros s. reflexivity. Qed.

Lemma pure_raise {A} (e : exn) : pure (@raise A e).
Proof. intros s. reflexivity. Qed.

Lemma pure_bind {A B} (m : M A) (k : A -> M B) : pure m -> (forall a, pure (k a)) -> pure (bind m k).
Proof.
  intros Hm Hk s. unfold bind. specialize (Hm s).
  destruct (m s) as [[a|e] s1]; simpl in *; [rewrite Hk|]; exact Hm.
Qed.

Lemma pure_w_get (k : string) (w : gmap string PyVal) : pure (w_get k w).
Proof. unfold w_get. destruct (w !! k); [apply pure_ret | apply pure_raise]. Qed.

Lemma pure_inbound_price (i days gb : Z) : pure (inbound_price i days gb).
Proof. intros s. destruct (inbound_price_pure i days gb s) as [r ->]. reflexivity. Qed.

Lemma pure_py_float_of_int (z : Z) : pure (py_float_of_int z).
Proof. intros s. destruct (py_float_of_int_pure z s) as [r ->]. reflexivity. Qed.

Lemma pure_mapM {A B} (f : A -> M B) (l : list A) : (forall x, pure (f x)) -> pure (mapM f l).
Proof.
  intros Hf. induction l as [|x l IH]; simpl; [apply pure_ret|].
  apply pure_bind; [apply Hf|]. intros y. apply pure_bind; [exact IH|]. intros ys. apply pure_ret.
Qed.

Ltac pure_tac :=
  repeat (cbv beta zeta;
    match goal with
    | |- pure (bind _ _) => apply pure_bind; [|intros ?]
    | |- pure (ret _) => apply pure_ret
    | |- pure (raise _) => apply pure_raise
    | |- pure (w_get _ _) => apply pure_w_get
    | |- pure (w_int _ _) => unfold w_int
    | |- pure (w_str _ _) => unfold w_str
    | |- pure (inbound_price _ _ _) => apply pure_inbound_price
    | |- pure (py_float_of_int _) => apply pure_py_float_of_int
    | |- pure (order_count _) => unfold order_count
    | |- pure (mapM _ _) => apply pure_mapM; intros ?
    | |- pure (if ?b then _ else _) => destruct b
    | |- pure (match ?x with _ => _ end) => destruct x
    end).

Lemma pure_order_count (w : gmap string PyVal) : pure (order_count w).
Proof. unfold order_count. pure_tac. Qed.

Lemma pure_order_total_price (w : gmap string PyVal) : pure (order_total_price w).
Proof. unfold order_total_price. pure_tac. Qed.

Lemma pure_bind_inl {A B} (m : M A) (k : A -> M B) (s s' : World) (b : B) :
  pure m -> bind m k s = (inl b, s') ->
  exists a, m s = (inl a, s) /\ k a s = (inl b, s').
Proof.
  intros Hm H. unfold bind in H. specialize (Hm s).
  destruct (m s) as [[a|e] s1]; simpl in Hm; subst s1; [|discriminate]. eauto.
Qed.

(** [prepare] only pops the promo discount from the session. *)
Lemma prepare_pops_promo (w : gmap string PyVal) (s s1 : World) (p : Prep) :
  prepare w s = (inl p, s1) ->
  s1 = set_ud (mkSession (ud_flow (w_ud s)) (ud_wizard (w_ud s)) None) s.
Proof.
  unfold prepare. intros H.
  destruct (pure_bind_inl _ _ _ _ _ (pure_order_count w) H) as (c & _ & H1).
  destruct (pure_bind_inl _ _ _ _ _ (pure_order_total_price w) H1) as (g & _ & H2).
  set (s2 := set_ud (mkSession (ud_flow (w_ud s)) (ud_wizard (w_ud s)) None) s).
  rewrite (bind_inl _ _ s s2 (default (Fin 0) (ud_promo (w_ud s)))) in H2 by reflexivity.
  cbv beta zeta in H2.
  match type of H2 with
  | bind ?m ?k s2 = _ =>
      assert (Hm : pure m) by pure_tac;
      destruct (pure_bind_inl _ _ _ _ _ Hm H2) as (rd & _ & H3)
  end.
  match type of H3 with
  | bind ?m ?k s2 = _ =>
      assert (Hm' : pure m) by pure_tac;
      destruct (pure_bind_inl _ _ _ _ _ Hm' H3) as (ids & _ & H4)
  end.
  injection H4 as _ <-. reflexivity.
Qed.

(** C4 (as the code does it). When the agent is active but its balance is
    below the net price, [finalize_order] stops at the reserve step: the
    database is unchanged (no order row, no ledger row, no client row), no
    panel request is made, the flow is reset and "Insufficient balance" is
    sent. The promo discount has already been popped by then, so it is
    consumed: [ud_promo] ends as [None]. *)
Theorem reserve_failure_aborts (cfg : Config) (uid : Z) (w : gmap string PyVal) (s s1 : World)
    (p : Prep) (a : Agent) (kind : string) (ib : PyVal) :
  prepare w s = (inl p, s1) ->
  agents (w_db s) !! uid = Some a -> is_active a = true ->
  w !! "kind" = Some (VStr kind) -> w !! "inbound_id" = Some ib ->
  flt (balance a) (pr_net p) = true ->
  exists s', finalize_order cfg uid w s = (inl tt, s') /\
    w_db s' = w_db s /\ w_calls s' = w_calls s /\ w_panel s' = w_panel s /\
    ud_promo (w_ud s') = None /\ ud_flow (w_ud s') = None /\
    w_out s' = w_out s ++ [Fmt "Insufficient balance. Required: {}" [AF (pr_net p)]].
Proof.
  intros Hp Ha Hact Hk Hib Hq.
  pose proof (prepare_pops_promo _ _ _ _ Hp) as ->.
  unfold finalize_order. rewrite (bind_inl _ _ s _ p Hp).
  rewrite (bind_inl _ _ _ _ (Some a)) by (unfold read_db; cbn; unfold get_agent; rewrite Ha; reflexivity).
  cbn [agent_enabled]. rewrite Hact. unfold saga.
  set (s2 := set_ud (mkSession (ud_flow (w_ud s)) (ud_wizard (w_ud s)) None) s).
  assert (Hr : reserve uid w p s2 =
    (inl false, set_out (w_out s2 ++ [Fmt "Insufficient balance. Required: {}" [AF (pr_net p)]])
                  (set_ud (mkSession None (Some ∅) (ud_promo (w_ud s2))) s2))).
  { unfold reserve, try_value_error, w_str, w_get, bind, ret, db, deduct_balance.
    rewrite Hk, Hib. cbn -[flt balance_or_0].
    unfold balance_or_0, get_agent. cbn -[flt]. rewrite Ha, Hq. reflexivity. }
  rewrite (bind_inl _ _ _ _ _ Hr). eexists. split; [reflexivity|]. cbn. repeat split.
Qed.

Lemma reserve_failure_aborts_witness :
  exists s', finalize_order cfg0 42 wiz_single world_poor = (inl tt, s') /\
    w_db s' = w_db world_poor /\ w_calls s' = w_calls world_poor /\ w_panel s' = w_panel world_poor /\
    ud_promo (w_ud s') = None /\ ud_flow (w_ud s') = None /\
    w_out s' = w_out world_poor ++ [Fmt "Insufficient balance. Required: {}" [AF (pr_net prep_poor)]].
Proof.
  apply (reserve_failure_aborts cfg0 42 wiz_single world_poor (snd (prepare wiz_single world_poor))
           prep_poor (agent0 (Fin 1)) "single" (VInt 7)); vm_compute; reflexivity.
Defined.

(** C4 as stated fails: after a failed reserve the pending 25% promo is
    gone from the session, although no order was created. *)
Lemma reserve_failure_consumes_promo :
  ud_promo (w_ud world_poor) = Some (Fin 25) /\
  fst (finalize_order cfg0 42 wiz_single world_poor) = inl tt /\
  orders (w_db (snd (finalize_order cfg0 42 wiz_single world_poor))) = [] /\
  ud_promo (w_ud (snd (finalize_order cfg0 42 wiz_single world_poor))) = None.
Proof. vm_compute. repeat split. Qed.

(** ** Client rows *)

Lemma kc_pure {A} (m : M A) : pure m -> keeps_clients m.
Proof. intros H s. rewrite H. reflexivity. Qed.

Lemma kc_ret {A} (a : A) : keeps_clients (ret a).
Proof. intros s. reflexivity. Qed.

Lemma kc_raise {A} (e : exn) : keeps_clients (@raise A e).
Proof. intros s. reflexivity. Qed.

Lemma kc_bind {A B} (m : M A) (k : A -> M B) :
  keeps_clients m -> (forall a, keeps_clients (k a)) -> keeps_clients (bind m k).
Proof.
  intros Hm Hk s. unfold bind. specialize (Hm s).
  destruct (m s) as [[a|e] s1]; simpl in *; [rewrite Hk|]; exact Hm.
Qed.

Lemma kc_try_except {A} (body : M A) (h : exn -> M A) :
  keeps_clients body -> (forall e, keeps_clients (h e)) -> keeps_clients (try_except body h).
Proof.
  intros Hb Hh s. unfold try_except. specialize (Hb s).
  destruct (body s) as [[a|e] s1]; simpl in *; [|rewrite Hh]; exact Hb.
Qed.

Lemma kc_try_value_error {A} (body : M A) (h : string -> M A) :
  keeps_clients body -> (forall m, keeps_clients (h m)) -> keeps_clients (try_value_error body h).
Proof.
  intros Hb Hh s. unfold try_value_error. specialize (Hb s).
  destruct (body s) as [[a|[] ] s1]; simpl in *; try rewrite Hh; exact Hb.
Qed.

Lemma kc_mapM {A B} (f : A -> M B) (l : list A) :
  (forall x, keeps_clients (f x)) -> keeps_clients (mapM f l).
Proof.
  intros Hf. induction l as [|x l IH]; simpl; [apply kc_ret|].
  apply kc_bind; [apply Hf|]. intros y. apply kc_bind; [exact IH|]. intros ys. apply kc_ret.
Qed.

(** A step that does not write the database. *)
Lemma kc_nodb {A} (m : M A) : (forall s, w_db (snd (m s)) = w_db s) -> keeps_clients m.
Proof. intros H s. rewrite H. reflexivity. Qed.

Lemma kc_db {A} (f : DBM A) :
  (forall ts d, created_clients (snd (f ts d)) = created_clients d) -> keeps_clients (db f).
Proof. intros H s. unfold db. specialize (H (w_now s) (w_db s)). destruct (f _ _). exact H. Qed.

Lemma kc_add_balance (tg : Z) (amount : F) (reason meta : string) :
  keeps_clients (db (add_balance tg amount reason meta)).
Proof. apply kc_db. intros ts d. unfold add_balance. repeat case_match; simplify_eq/=; reflexivity. Qed.

Lemma kc_deduct_balance (tg : Z) (amount : F) (reason meta : string) :
  keeps_clients (db (deduct_balance tg amount reason meta)).
Proof. apply kc_db. intros ts d. unfold deduct_balance. repeat case_match; simplify_eq/=; reflexivity. Qed.

Lemma kc_create_order (tg i : Z) (kind : string) (days gb count : Z) (g di n : F) (st : string) :
  keeps_clients (db (create_order tg i kind days gb count g di n st)).
Proof. apply kc_db. intros ts d. unfold create_order. repeat case_match; simplify_eq/=; reflexivity. Qed.

Lemma kc_http : keeps_clients http_request.
Proof. apply kc_nodb. intros s. unfold http_request. destruct (w_fail s (w_calls s)); reflexivity. Qed.

Ltac kc_tac :=
  repeat (cbv beta zeta;
    match goal with
    | |- keeps_clients (bind _ _) => apply kc_bind; [|intros ?]
    | |- keeps_clients (ret _) => apply kc_ret
    | |- keeps_clients (raise _) => apply kc_raise
    | |- keeps_clients (try_except _ _) => apply kc_try_except; [|intros ?]
    | |- keeps_clients (try_value_error _ _) => apply kc_try_value_error; [|intros ?]
    | |- keeps_clients (mapM _ _) => apply kc_mapM; intros ?
    | |- keeps_clients (db (add_balance _ _ _ _)) => apply kc_add_balance
    | |- keeps_clients (db (deduct_balance _ _ _ _)) => apply kc_deduct_balance
    | |- keeps_clients (db (create_order _ _ _ _ _ _ _ _ _ _)) => apply kc_create_order
    | |- keeps_clients (order_count _) => apply kc_pure, pure_order_count
    | |- keeps_clients (order_total_price _) => apply kc_pure, pure_order_total_price
    | |- keeps_clients (w_get _ _) => apply kc_pure, pure_w_get
    | |- keeps_clients (w_int _ _) => unfold w_int
    | |- keeps_clients (w_str _ _) => unfold w_str
    | |- keeps_clients (w_bool _ _) => unfold w_bool
    | |- keeps_clients (if ?b then _ else _) => destruct b
    | |- keeps_clients (match ?x with _ => _ end) => destruct x
    | |- keeps_clients (prepare _) => unfold prepare
    | |- keeps_clients (saga _ _ _ _) => unfold saga
    | |- keeps_clients (reserve _ _ _) => unfold reserve
    | |- keeps_clients (fulfil _ _ _ _) => unfold fulfil
    | |- keeps_clients (order_body _ _ _ _ _) => unfold order_body
    | |- keeps_clients (compensate _ _ _ _) => unfold compensate
    | |- keeps_clients (report_success _ _ _ _) => unfold report_success
    | |- keeps_clients (provision _ _ _ _ _) => unfold provision
    | |- keeps_clients (bulk_unit _ _ _ _ _ _ _) => unfold bulk_unit
    | |- keeps_clients (multi_unit _ _ _ _ _ _ _ _) => unfold multi_unit
    | |- keeps_clients (save_created_client_call _ _) => unfold save_created_client_call
    | |- keeps_clients (vless_link _ _ _ _) => unfold vless_link
    | |- keeps_clients (reset_flow) => unfold reset_flow
    | |- keeps_clients (pop_promo_discount) => unfold pop_promo_discount
    | |- keeps_clients http_request => apply kc_http
    | |- keeps_clients api_login => apply kc_http
    | |- keeps_clients (api_get_inbound _) => unfold api_get_inbound
    | |- keeps_clients (api_add_clients _ _) => unfold api_add_clients
    | |- keeps_clients _ => apply kc_nodb; intros ?; reflexivity
    | |- keeps_clients (fun w => _) => apply kc_nodb; intros ?; cbn; repeat case_match; reflexivity
    end).

(** C5. [finalize_order] never records a [created_clients] row. Its
    [save_created_client] calls pass eleven arguments to a function of
    nine parameters: each raises [TypeError] before any [INSERT]. So a row
    never exists for a unit, provisioned or not. *)
Theorem finalize_order_no_client_rows (cfg : Config) (uid : Z) (w : gmap string PyVal) (s : World) :
  created_clients (w_db (snd (finalize_order cfg uid w s))) = created_clients (w_db s).
Proof.
  revert s. change (keeps_clients (finalize_order cfg uid w)).
  unfold finalize_order. kc_tac.
Qed.

(** ** Wallet sign *)

(** C6 (as the code does it). The admin wallet charge passes the parsed
    amount to [add_balance] without a sign check: "42 -30" takes agent 42
    from 20 to -10 and records a -30 "topup.admin" ledger row. *)
Theorem admin_charge_negative_balance :
  balance_or_0 42 (w_db world_admin) = Fin 20 /\
  fst (text_flow cfg0 1 "42 -30" world_admin) = inl tt /\
  balance_or_0 42 (w_db (snd (text_flow cfg0 1 "42 -30" world_admin))) = Fin (-10) /\
  flt (balance_or_0 42 (w_db (snd (text_flow cfg0 1 "42 -30" world_admin)))) (Fin 0) = true /\
  map l_amount (wallet_ledger (w_db (snd (text_flow cfg0 1 "42 -30" world_admin)))) = [Fin (-30)].
Proof. vm_compute. repeat split. Qed.

(* ================================================================== *)
(** * More of the code *)

(* ------------------------------------------------------------------ *)
(** ** Pagination (src/telegram_bot.py:267-299, 625-631) *)

(** X1. For a positive page size and a non-negative item count,
    [page_bounds] clamps the page into [1, total_pages], where
    [total_pages] is the least page count that holds every item, and one
    page when there are no items; the offset is [(page - 1) * per_page]
    and falls inside the items when there are any; a page already in
    range is kept. *)
Theorem page_bounds_in_range (total_items page per_page : Z) :
  0 < per_page -> 0 <= total_items ->
  exists p off tp, page_bounds total_items page per_page = Some (p, off, tp) /\
    1 <= p <= tp /\ off = (p - 1) * per_page /\ total_items <= tp * per_page /\
    (0 < total_items -> off < total_items /\ (tp - 1) * per_page < total_items) /\
    (total_items = 0 -> tp = 1) /\
    (1 <= page <= tp -> p = page).
Proof.
  intros Hp Ht. unfold page_bounds.
  destruct (Z.eqb_spec per_page 0); [lia|].
  do 3 eexists; split; [reflexivity|].
  pose proof (Z.div_mod (total_items - 1) per_page ltac:(lia)) as Hd.
  pose proof (Z.mod_pos_bound (total_items - 1) per_page Hp) as Hm.
  set (q := (total_items - 1) / per_page) in *.
  set (r := (total_items - 1) mod per_page) in *.
  assert (-1 <= q) by nia.
  repeat split; try lia; nia.
Qed.

Lemma page_bounds_in_range_witness :
  exists p off tp, page_bounds 25 7 10 = Some (p, off, tp) /\
    1 <= p <= tp /\ off = (p - 1) * 10 /\ 25 <= tp * 10 /\
    (0 < 25 -> off < 25 /\ (tp - 1) * 10 < 25) /\ (25 = 0 -> tp = 1) /\ (1 <= 7 <= tp -> p = 7).
Proof. apply page_bounds_in_range; lia. Defined.

Lemma py_range_incl_spec (start stop q : Z) :
  In q (py_range_incl start stop) <-> start <= q <= stop.
Proof.
  unfold py_range_incl. rewrite in_map_iff. split.
  - intros (k & <- & Hk). apply in_seq in Hk. lia.
  - intros Hq. exists (Z.to_nat (q - start)). split; [lia|]. apply in_seq. lia.
Qed.

Lemma py_range_incl_length (start stop : Z) :
  List.length (py_range_incl start stop) = Z.to_nat (stop - start + 1).
Proof. unfold py_range_incl. rewrite length_map, length_seq. reflexivity. Qed.

Lemma build_pagination_row (total_items current_page per_page : Z) (prefix : string) :
  0 < per_page -> 0 <= total_items ->
  exists bs p off tp,
    build_pagination total_items current_page per_page prefix = Some bs /\
    page_bounds total_items current_page per_page = Some (p, off, tp) /\
    Forall (fun b => exists q, 1 <= q <= tp /\
                       b_callback_data b = (prefix ++ ":" ++ z_to_string q)%string) bs /\
    In (page_button prefix ("- " ++ z_to_string p ++ " -") p) bs /\
    (5 <= List.length bs <= 7)%nat.
Proof.
  intros Hp Ht. unfold build_pagination, page_bounds.
  destruct (Z.eqb_spec per_page 0); [lia|].
  set (tp := Z.max ((total_items - 1) / per_page + 1) 1).
  set (p := Z.max 1 (Z.min current_page tp)).
  assert (Htp : 1 <= tp) by lia.
  assert (Hpr : 1 <= p <= tp) by lia.
  do 4 eexists. split; [reflexivity|]. split; [reflexivity|].
  assert (Hmid : forall b, In b (map (fun q => page_button prefix
                             (if q =? p then "- " ++ z_to_string q ++ " -" else z_to_string q) q)
                 (py_range_incl (Z.max 1 (p - 1)) (Z.min tp (p + 1)))) ->
                 exists q, 1 <= q <= tp /\ b_callback_data b = (prefix ++ ":" ++ z_to_string q)%string).
  { intros b Hb. apply in_map_iff in Hb as (q & <- & Hq). apply py_range_incl_spec in Hq.
    exists q. split; [lia | reflexivity]. }
  split; [|split].
  - rewrite !Forall_app. split; [|split].
    + destruct (1 <? p) eqn:E; repeat constructor;
        [exists 1 | exists (p - 1) | exists 1 | exists 1];
        (split; [apply Z.ltb_lt in E || apply Z.ltb_ge in E; lia | reflexivity]).
    + apply List.Forall_forall. exact Hmid.
    + destruct (p <? tp) eqn:E; repeat constructor;
        [exists (p + 1) | exists tp | exists tp | exists tp];
        (split; [apply Z.ltb_lt in E || apply Z.ltb_ge in E; lia | reflexivity]).
  - apply in_or_app. right. apply in_or_app. left. apply in_map_iff. exists p.
    rewrite Z.eqb_refl. split; [reflexivity|]. apply py_range_incl_spec. lia.
  - rewrite !length_app, length_map, py_range_incl_length.
    destruct (1 <? p), (p <? tp); simpl; lia.
Qed.

(** X2. For a positive page size and a non-negative item count,
    [build_pagination] builds one row of five to seven buttons; every
    button's callback data is [prefix:q] for a page [q] in
    [1, total_pages] (the [total_pages] of [page_bounds]), and the row
    holds the current page's button, labelled [- p -], where [p] is
    the page [page_bounds] picks. *)
Theorem build_pagination_targets (total_items current_page per_page : Z) (prefix : string) :
  0 < per_page -> 0 <= total_items ->
  exists bs p off tp,
    build_pagination total_items current_page per_page prefix = Some bs /\
    page_bounds total_items current_page per_page = Some (p, off, tp) /\
    Forall (fun b => exists q, 1 <= q <= tp /\
                       b_callback_data b = (prefix ++ ":" ++ z_to_string q)%string) bs /\
    In (page_button prefix ("- " ++ z_to_string p ++ " -") p) bs /\
    (5 <= List.length bs <= 7)%nat.
Proof. exact (build_pagination_row total_items current_page per_page prefix). Qed.

Lemma build_pagination_targets_witness :
  exists bs p off tp,
    build_pagination 45 3 10 "page:tx" = Some bs /\
    page_bounds 45 3 10 = Some (p, off, tp) /\
    Forall (fun b => exists q, 1 <= q <= tp /\
                       b_callback_data b = ("page:tx" ++ ":" ++ z_to_string q)%string) bs /\
    In (page_button "page:tx" ("- " ++ z_to_string p ++ " -") p) bs /\
    (5 <= List.length bs <= 7)%nat.
Proof. apply build_pagination_targets; lia. Defined.

(* ------------------------------------------------------------------ *)
(** ** Integers printed and read back (src/telegram_bot.py:52-56) *)

Lemma byte_digit (n : Z) : 0 <= n < 10 -> byte (ascii_of_nat (Z.to_nat n + 48)) = n + 48.
Proof. intros Hn. unfold byte. rewrite nat_ascii_embedding by lia. lia. Qed.

Lemma pos_digits_chars (f : nat) (n : Z) (acc : string) :
  0 <= n -> Forall (fun a => 48 <= byte a <= 57) (list_ascii_of_string acc) ->
  Forall (fun a => 48 <= byte a <= 57) (list_ascii_of_string (pos_digits f n acc)).
Proof.
  revert n acc. induction f as [|f IH]; intros n acc Hn Hacc; [exact Hacc|].
  pose proof (Z.mod_pos_bound n 10 ltac:(lia)) as Hm.
  assert (Hd : 48 <= byte (ascii_of_nat (Z.to_nat (n mod 10) + 48)) <= 57) by (rewrite byte_digit; lia).
  simpl. destruct (n <? 10).
  - simpl. constructor; assumption.
  - apply IH; [apply Z.div_pos; lia|]. simpl. constructor; assumption.
Qed.

Lemma pos_digits_nonempty (f : nat) (n : Z) (acc : string) :
  list_ascii_of_string acc <> [] -> list_ascii_of_string (pos_digits f n acc) <> [].
Proof.
  revert n acc. induction f as [|f IH]; intros n acc H; [exact H|].
  simpl. destruct (n <? 10); [simpl; discriminate|]. apply IH. simpl. discriminate.
Qed.

Lemma pos_digits_scan (f : nat) (n : Z) (acc : string) (seen : bool) :
  0 < n < 10 ^ Z.of_nat f ->
  scan_digits 0 seen false (map byte (list_ascii_of_string (pos_digits f n acc))) =
  scan_digits n true false (map byte (list_ascii_of_string acc)).
Proof.
  revert n acc. induction f as [|f IH]; intros n acc Hn.
  - simpl in Hn. lia.
  - rewrite Nat2Z.inj_succ, Z.pow_succ_r in Hn by lia.
    pose proof (Z.mod_pos_bound n 10 ltac:(lia)) as Hm.
    cbn [pos_digits]. destruct (n <? 10) eqn:E.
    + apply Z.ltb_lt in E. cbn [list_ascii_of_string map scan_digits].
      rewrite byte_digit by lia. unfold is_c_digit. rewrite in_range_true by lia.
      rewrite Z.mod_small by lia. f_equal. lia.
    + apply Z.ltb_ge in E.
      rewrite IH by (split; [apply Z.div_str_pos | apply Z.div_lt_upper_bound]; lia).
      cbn [list_ascii_of_string map scan_digits].
      rewrite byte_digit by lia. unfold is_c_digit. rewrite in_range_true by lia.
      f_equal. pose proof (Z.div_mod n 10 ltac:(lia)). lia.
Qed.

Lemma pos_lt_pow2 (p : positive) : Zpos p < 2 ^ Z.of_nat (Pos.size_nat p).
Proof.
  induction p as [p IH|p IH|]; simpl Pos.size_nat; try (rewrite Nat2Z.inj_succ, Z.pow_succ_r by lia);
    [rewrite Pos2Z.inj_xI | rewrite Pos2Z.inj_xO | ]; simpl; lia.
Qed.

Lemma pos_lt_pow10 (p : positive) : 0 < Zpos p < 10 ^ Z.of_nat (Pos.size_nat p).
Proof.
  split; [lia|]. eapply Z.lt_le_trans; [apply pos_lt_pow2|]. apply Z.pow_le_mono_l; lia.
Qed.

Lemma to_ascii_small (l : list Z) : Forall (fun c => c < 127) l -> to_ascii l = Some l.
Proof.
  induction 1 as [|c l Hc _ IH]; [reflexivity|]. cbn [to_ascii]. unfold to_ascii_cp.
  replace (c <? 127) with true by (symmetry; apply Z.ltb_lt; exact Hc). rewrite IH. reflexivity.
Qed.

Lemma underscore_guard_other (c : Z) (l : list Z) (Y : option Z) :
  c <> 95 -> match c :: l with 95 :: _ => None | _ => Y end = Y.
Proof.
  intros H. destruct c as [|p|p]; try reflexivity.
  repeat (destruct p as [p|p|]; try reflexivity); exfalso; apply H; reflexivity.
Qed.

Lemma z_not_95 {A} (c : Z) (N Y : A) : c <> 95 -> match c with 95 => N | _ => Y end = Y.
Proof.
  intros H. destruct c as [|p|p]; try reflexivity.
  repeat (destruct p as [p|p|]; try reflexivity); exfalso; apply H; reflexivity.
Qed.

(** The digits of [str(p)] for a positive [p], as code points. *)
Lemma pos_digits_read (p : positive) :
  exists c rest, map byte (list_ascii_of_string (pos_digits (Pos.size_nat p) (Zpos p) "")) = c :: rest /\
    48 <= c <= 57 /\ Forall (fun c => 48 <= c <= 57) rest /\
    scan_digits 0 false false (c :: rest) = Some (Zpos p, true, []).
Proof.
  pose proof (pos_digits_chars (Pos.size_nat p) (Zpos p) "" ltac:(lia) (Forall_nil_2 _)) as Hc.
  pose proof (pos_digits_scan (Pos.size_nat p) (Zpos p) "" false (pos_lt_pow10 p)) as Hs.
  assert (Hne : list_ascii_of_string (pos_digits (Pos.size_nat p) (Zpos p) "") <> []).
  { assert (Hsz : exists f, Pos.size_nat p = S f) by (destruct p; eexists; reflexivity).
    destruct Hsz as [f ->]. simpl pos_digits. destruct (Zpos p <? 10); [simpl; discriminate|].
    apply pos_digits_nonempty. simpl. discriminate. }
  destruct (list_ascii_of_string (pos_digits (Pos.size_nat p) (Zpos p) "")) as [|a l]; [congruence|].
  inversion Hc as [|? ? Ha Hl]; subst.
  exists (byte a), (map byte l). split; [reflexivity|]. split; [exact Ha|]. split.
  - apply List.Forall_map. exact Hl.
  - exact Hs.
Qed.

Lemma z_to_string_ascii (z : Z) :
  Forall (fun a => byte a < 127) (list_ascii_of_string (z_to_string z)).
Proof.
  destruct z as [|p|p].
  - repeat constructor; vm_compute; reflexivity.
  - eapply List.Forall_impl; [|apply (pos_digits_chars (Pos.size_nat p) (Zpos p) "" ltac:(lia) (Forall_nil_2 _))]. intros a Ha; cbv beta in *; lia.
  - cbn [z_to_string list_ascii_of_string]. constructor; [vm_compute; reflexivity|].
    eapply List.Forall_impl; [|apply (pos_digits_chars (Pos.size_nat p) (Zpos p) "" ltac:(lia) (Forall_nil_2 _))]. intros a Ha; cbv beta in *; lia.
Qed.

Lemma py_chars_z_to_string (z : Z) :
  py_chars (z_to_string z) = map byte (list_ascii_of_string (z_to_string z)).
Proof.
  rewrite <- (string_of_list_ascii_of_string (z_to_string z)) at 1.
  apply py_chars_ascii. eapply List.Forall_impl; [|apply z_to_string_ascii]. intros a Ha; cbv beta in *; lia.
Qed.

Lemma z_to_string_as_int (z : Z) : as_int (z_to_string z) = Some z.
Proof.
  unfold as_int, py_int. rewrite py_chars_z_to_string.
  rewrite to_ascii_small
    by (apply List.Forall_map; eapply List.Forall_impl; [|apply z_to_string_ascii]; intros a Ha; cbv beta in *; lia).
  destruct z as [|p|p]; [reflexivity| |].
  - destruct (pos_digits_read p) as (c & rest & Hl & Hc & Hr & Hs).
    cbn [z_to_string]. rewrite Hl. unfold long_from_ascii. cbn [drop_c_spaces].
    replace (is_c_space c) with false
      by (symmetry; unfold is_c_space; apply orb_false_iff; split; [apply Z.eqb_neq; lia | apply in_range_false; lia]).
    rewrite sign_default by lia. rewrite z_not_95 by lia. rewrite Hs. reflexivity.
  - destruct (pos_digits_read p) as (c & rest & Hl & Hc & Hr & Hs).
    cbn [z_to_string list_ascii_of_string map]. rewrite Hl. unfold long_from_ascii.
    change (byte "-"%char) with 45.
    cbn [drop_c_spaces]. replace (is_c_space 45) with false by reflexivity. cbv beta iota. rewrite z_not_95 by lia. rewrite Hs. reflexivity.
Qed.

(** X3. [as_int] reads back every integer that [str] prints:
    [as_int(str(z)) == z] for every [z], negative ones included. *)
Theorem as_int_z_to_string (z : Z) : as_int (z_to_string z) = Some z.
Proof. exact (z_to_string_as_int z). Qed.

Lemma list_ascii_of_string_app' (a b : string) :
  list_ascii_of_string (a ++ b) = list_ascii_of_string a ++ list_ascii_of_string b.
Proof. induction a as [|c a IH]; simpl; [reflexivity|]. f_equal. exact IH. Qed.

Lemma split_on_app (sep : ascii) (cur l rest : list ascii) :
  Forall (fun c => c <> sep) l ->
  split_on sep cur (l ++ rest) = split_on sep (rev l ++ cur) rest.
Proof.
  revert cur. induction l as [|c l IH]; intros cur Hl; [reflexivity|].
  apply Forall_cons in Hl as [Hc Hl]. cbn.
  replace (Ascii.eqb c sep) with false by (symmetry; apply Ascii.eqb_neq; exact Hc).
  rewrite IH by exact Hl. rewrite <- app_assoc. reflexivity.
Qed.

Lemma split_on_none (sep : ascii) (cur l : list ascii) :
  Forall (fun c => c <> sep) l -> split_on sep cur l = [rev (rev l ++ cur)].
Proof.
  intros Hl. rewrite <- (app_nil_r l) at 1. rewrite split_on_app by exact Hl. reflexivity.
Qed.

Lemma z_to_string_pos_no_colon (q : Z) : 0 < q ->
  Forall (fun c => c <> ":"%char) (list_ascii_of_string (z_to_string q)).
Proof.
  intros Hq. destruct q as [|p|p]; try lia.
  eapply List.Forall_impl; [|apply (pos_digits_chars (Pos.size_nat p) (Zpos p) "" ltac:(lia) (Forall_nil_2 _))].
  intros a Ha ->. cbv beta in Ha. vm_compute in Ha. destruct Ha as [_ H]. apply H. reflexivity.
Qed.

(** X4. For a page type [t] without [:], every button that
    [build_pagination] makes with the prefix [page:t] leads
    [callback_router] to a page request of type [t] for a page [q]
    that [page_bounds] keeps as it is: a click opens the page the button
    names. *)
Theorem pagination_click_roundtrip (total_items current_page per_page : Z) (t : string) (bs : list Button) :
  0 < per_page -> 0 <= total_items -> Forall (fun c => c <> ":"%char) (list_ascii_of_string t) ->
  build_pagination total_items current_page per_page ("page:" ++ t)%string = Some bs ->
  Forall (fun b => exists q off tp, page_request (b_callback_data b) = Some (t, q) /\
                     page_bounds total_items q per_page = Some (q, off, tp)) bs.
Proof.
  intros Hp Ht Hcol Hb.
  destruct (build_pagination_row total_items current_page per_page ("page:" ++ t)%string Hp Ht)
    as (bs' & p & off & tp & Hb' & Hpb & Hall & _).
  rewrite Hb in Hb'. injection Hb' as <-.
  eapply List.Forall_impl; [|exact Hall]. intros b (q & Hq & Hd).
  pose proof (z_to_string_pos_no_colon q ltac:(lia)) as Hdig.
  unfold page_request. rewrite Hd.
  rewrite !list_ascii_of_string_app'. cbn [list_ascii_of_string app].
  cbn [split_on Ascii.eqb Bool.eqb rev app].
  rewrite split_on_app by exact Hcol. cbn [split_on Ascii.eqb Bool.eqb].
  rewrite split_on_none by exact Hdig. cbn [map].
  rewrite !app_nil_r, !rev_involutive, !string_of_list_ascii_of_string.
  rewrite z_to_string_as_int. replace (q =? 0) with false by (symmetry; apply Z.eqb_neq; lia).
  unfold page_bounds in *. destruct (Z.eqb_spec per_page 0); [lia|].
  injection Hpb as <- <- <-.
  exists q. do 2 eexists. split; [reflexivity|]. f_equal. f_equal. f_equal. lia.
Qed.

Lemma pagination_click_roundtrip_witness :
  Forall (fun b => exists q off tp, page_request (b_callback_data b) = Some ("tx", q) /\
                     page_bounds 45 q 10 = Some (q, off, tp))
    (default [] (build_pagination 45 3 10 "page:tx")).
Proof.
  apply (pagination_click_roundtrip 45 3 10 "tx"); [lia | lia | | vm_compute; reflexivity].
  repeat constructor; discriminate.
Defined.

(* ------------------------------------------------------------------ *)
(** ** Parsing user input (src/telegram_bot.py:81-123) *)

Lemma parse_positive_int_pos (t : string) (v : Z) : parse_positive_int t = inl (Some v) -> 0 < v.
Proof.
  unfold parse_positive_int. destruct (negb (py_isdigit t)); [discriminate|].
  destruct (py_int t) as [z|]; [|discriminate].
  destruct (Z.leb_spec z 0); [discriminate|]. intros [= <-]. lia.
Qed.

Lemma parse_ids_ok (parts : list string) (ids r : list Z) :
  parse_ids parts ids = inl (Some r) -> NoDup ids -> Forall (fun i => 0 < i) ids ->
  NoDup r /\ Forall (fun i => 0 < i) r /\ (List.length ids <= List.length r)%nat.
Proof.
  revert ids. induction parts as [|part rest IH]; intros ids H Hnd Hpos; simpl in H.
  - injection H as <-. auto.
  - destruct (parse_positive_int part) as [[v|]|e] eqn:Ev; [|discriminate|discriminate].
    pose proof (parse_positive_int_pos _ _ Ev) as Hv.
    destruct (existsb (Z.eqb v) ids) eqn:Eb.
    + exact (IH _ H Hnd Hpos).
    + destruct (IH _ H) as (H1 & H2 & H3).
      * apply NoDup_app. split; [exact Hnd|]. split; [|apply NoDup_singleton].
        intros x Hx Hx'. apply list_elem_of_singleton in Hx'. subst x.
        apply list_elem_of_In in Hx.
        assert (existsb (Z.eqb v) ids = true) by (apply existsb_exists; exists v; split; [exact Hx | apply Z.eqb_refl]).
        congruence.
      * apply Forall_app. split; [exact Hpos | constructor; [exact Hv | constructor]].
      * rewrite length_app in H3. split; [exact H1|]. split; [exact H2|]. simpl in H3. lia.
Qed.

(** X5. Whenever [parse_inbound_ids] accepts a text, the list it returns
    is non-empty, holds no duplicates and holds only positive ids. *)
Theorem parse_inbound_ids_ok (text : string) (ids : list Z) :
  parse_inbound_ids text = inl (Some ids) ->
  ids <> [] /\ NoDup ids /\ Forall (fun i => 0 < i) ids.
Proof.
  unfold parse_inbound_ids.
  destruct (List.filter _ _) as [|p ps]; [discriminate|].
  destruct (parse_ids (p :: ps) []) as [[r|]|e] eqn:E; [|discriminate|discriminate].
  destruct r as [|i r]; [discriminate|]. intros [= <-].
  destruct (parse_ids_ok _ _ _ E (NoDup_nil_2) (Forall_nil_2 _)) as (H1 & H2 & _).
  split; [discriminate|]. auto.
Qed.

Lemma parse_inbound_ids_ok_witness :
  [3; 1] <> [] /\ NoDup [3; 1] /\ Forall (fun i => 0 < i) [3; 1].
Proof. apply (parse_inbound_ids_ok " 3, 1,3"). vm_compute. reflexivity. Defined.

Lemma remark_char_not_space (c : Z) : remark_char c = true -> is_py_space c = false.
Proof.
  intros H. destruct (is_py_space c) eqn:E; [|reflexivity]. exfalso.
  apply in_ranges_enum in E. vm_compute in E.
  unfold remark_char in H. rewrite !orb_true_iff, !in_range_iff, !Z.eqb_eq in H.
  repeat destruct E as [E|E]; subst; lia.
Qed.

Lemma drop_spaces_head (l : list Z) :
  drop_spaces l = [] \/ exists c r, drop_spaces l = c :: r /\ is_py_space c = false.
Proof.
  induction l as [|c l IH]; [left; reflexivity|]. cbn [drop_spaces].
  destruct (is_py_space c) eqn:E; [exact IH | right; exists c, l; split; [reflexivity | exact E]].
Qed.

Lemma drop_spaces_id (l : list Z) : Forall (fun c => is_py_space c = false) l -> drop_spaces l = l.
Proof. induction 1 as [|c l Hc _ IH]; [reflexivity|]. cbn [drop_spaces]. rewrite Hc. reflexivity. Qed.

Lemma z_not_10 {A} (c : Z) (N Y : A) : c <> 10 -> match c with 10 => N | _ => Y end = Y.
Proof.
  intros H. destruct c as [|p|p]; try reflexivity.
  repeat (destruct p as [p|p|]; try reflexivity); exfalso; apply H; reflexivity.
Qed.

(** After [str.strip()], [$] has no final newline to skip. *)
Lemma remark_match_strip (s : string) :
  remark_match (py_chars (py_strip s)) = true ->
  Forall (fun c => remark_char c = true) (py_chars (py_strip s)).
Proof.
  rewrite py_chars_strip. unfold remark_match.
  destruct (drop_spaces_head (rev (drop_spaces (py_chars s)))) as [E | (c & r & E & Hc)];
    rewrite E; [cbn; discriminate|].
  assert (Hr : rev (rev (c :: r)) = c :: r) by apply rev_involutive. rewrite Hr.
  assert (Hc10 : c <> 10) by (intros ->; vm_compute in Hc; discriminate).
  rewrite (z_not_10 c _ (rev (c :: r))) by exact Hc10.
  cbn [rev]. destruct (rev r ++ [c]) as [|x l] eqn:El; [destruct r; discriminate|].
  intros H. apply List.Forall_forall. intros a Ha. exact (proj1 (List.forallb_forall _ _) H a Ha).
Qed.

Lemma strip_fixed (s : string) :
  Forall (fun c => is_py_space c = false) (py_chars (py_strip s)) -> py_strip (py_strip s) = py_strip s.
Proof.
  intros H.
  change (py_strip (py_strip s)) with (utf8_encode (rev (drop_spaces (rev (drop_spaces (py_chars (py_strip s))))))).
  rewrite (drop_spaces_id _ H), (drop_spaces_id _ (Forall_rev H)), rev_involutive.
  rewrite py_chars_strip. reflexivity.
Qed.

(** X6. Whenever [normalize_remark] accepts a text, the remark it returns
    is the stripped text, is 2 to 64 characters long, uses only letters,
    digits, [_] and [-], and is accepted as it is when normalized again. *)
Theorem normalize_remark_ok (text r : string) :
  normalize_remark text = Some r ->
  r = py_strip text /\ (2 <= py_len r <= 64)%nat /\
  Forall (fun c => remark_char c = true) (py_chars r) /\
  normalize_remark r = Some r.
Proof.
  unfold normalize_remark.
  destruct ((py_len (py_strip text) <? 2)%nat || (64 <? py_len (py_strip text))%nat) eqn:El;
    [discriminate|].
  destruct (remark_match (py_chars (py_strip text))) eqn:Em; [|discriminate].
  intros [= <-]. apply orb_false_iff in El as [E1 E2]. apply Nat.ltb_ge in E1, E2.
  pose proof (remark_match_strip text Em) as Hf.
  assert (Hs : py_strip (py_strip text) = py_strip text).
  { apply strip_fixed. eapply List.Forall_impl; [|exact Hf]. exact remark_char_not_space. }
  repeat split; try lia; [exact Hf|].
  rewrite Hs. replace ((py_len (py_strip text) <? 2)%nat || (64 <? py_len (py_strip text))%nat)
    with false by (symmetry; apply orb_false_iff; split; apply Nat.ltb_ge; lia).
  rewrite Em. reflexivity.
Qed.

Lemma normalize_remark_ok_witness :
  "user_1" = py_strip "  user_1 " /\ (2 <= py_len "user_1" <= 64)%nat /\
  Forall (fun c => remark_char c = true) (py_chars "user_1") /\
  normalize_remark "user_1" = Some "user_1".
Proof. apply (normalize_remark_ok "  user_1 "). vm_compute. reflexivity. Defined.


(* ------------------------------------------------------------------ *)
(** ** The wizard's rate limit (src/telegram_bot.py:126-134) *)

Lemma Qlt_bool_iff (a b : Q) : Qlt_bool a b = true <-> (a < b)%Q.
Proof.
  unfold Qlt_bool. rewrite negb_true_iff. split.
  - intros H. apply Qnot_le_lt. intros Hle. apply Qle_bool_iff in Hle. congruence.
  - intros H. destruct (Qle_bool b a) eqn:E; [|reflexivity]. apply Qle_bool_iff in E. lra.
Qed.

Lemma filter_length_sub {A} (p q : A -> bool) (l : list A) :
  (forall x, q x = true -> p x = true) ->
  List.length (List.filter q (List.filter p l)) = List.length (List.filter q l).
Proof.
  intros H. induction l as [|x l IH]; [reflexivity|]. simpl.
  destruct (q x) eqn:Eq; [rewrite (H x Eq); simpl; rewrite Eq; simpl; lia|].
  destruct (p x); simpl; [rewrite Eq|]; exact IH.
Qed.

Lemma filter_length_le {A} (q : A -> bool) (l : list A) :
  (List.length (List.filter q l) <= List.length l)%nat.
Proof. induction l as [|x l IH]; simpl; [lia|]. destruct (q x); simpl; lia. Qed.

Lemma run_wizard_starts_bound (u : Z) (t0 : Q) (calls : list (Z * Q)) (starts : gmap Z (list Q)) :
  Forall (fun c => fst c = u /\ (t0 <= snd c)%Q /\ (snd c < t0 + WIZARD_RATE_WINDOW)%Q) calls ->
  let cnt := List.length (List.filter (fun ts => Qle_bool t0 ts) (default [] (starts !! u))) in
  (List.length (List.filter (fun b : bool => b) (fst (run_wizard_starts calls starts))) + cnt
   <= Nat.max 5 cnt)%nat.
Proof.
  revert starts. induction calls as [|[u' t] rest IH]; intros starts Hc cnt; simpl; [lia|].
  apply Forall_cons in Hc as [[Hu [Ht1 Ht2]] Hr]; simpl in Hu, Ht1, Ht2. subst u'.
  unfold can_start_wizard.
  set (L := default [] (starts !! u)) in *.
  set (F := List.filter (fun ts => Qlt_bool (t - ts) WIZARD_RATE_WINDOW) L).
  assert (HF : List.length (List.filter (fun ts => Qle_bool t0 ts) F) = cnt).
  { apply filter_length_sub. intros x Hx. apply Qle_bool_iff in Hx. apply Qlt_bool_iff.
    unfold WIZARD_RATE_WINDOW in *. lra. }
  pose proof (filter_length_le (fun ts => Qle_bool t0 ts) F) as HFl.
  destruct (WIZARD_RATE_LIMIT <=? Z.of_nat (List.length F)) eqn:E.
  - destruct (run_wizard_starts rest (<[u:=F]> starts)) as [bs s2] eqn:Er. simpl.
    specialize (IH (<[u:=F]> starts) Hr). rewrite Er in IH. simpl in IH.
    rewrite lookup_insert_eq in IH. simpl in IH. rewrite HF in IH. exact IH.
  - apply Z.leb_gt in E. unfold WIZARD_RATE_LIMIT in E.
    destruct (run_wizard_starts rest (<[u:=F ++ [t]]> starts)) as [bs s2] eqn:Er. simpl.
    specialize (IH (<[u:=F ++ [t]]> starts) Hr). rewrite Er in IH. simpl in IH.
    rewrite lookup_insert_eq in IH. simpl in IH.
    rewrite List.filter_app, length_app, HF in IH. simpl in IH.
    assert (Qle_bool t0 t = true) as Et by (apply Qle_bool_iff; exact Ht1). rewrite Et in IH.
    simpl in IH. lia.
Qed.

(** X7. Within one rate window ([t0 <= now < t0 + 600] for every call),
    [can_start_wizard] lets one user start the wizard at most 5 times,
    whatever the earlier starts on record. *)
Theorem wizard_rate_limit (u : Z) (t0 : Q) (calls : list (Z * Q)) (starts : gmap Z (list Q)) :
  Forall (fun c => fst c = u /\ (t0 <= snd c)%Q /\ (snd c < t0 + WIZARD_RATE_WINDOW)%Q) calls ->
  (List.length (List.filter (fun b : bool => b) (fst (run_wizard_starts calls starts))) <= 5)%nat.
Proof. intros H. pose proof (run_wizard_starts_bound u t0 calls starts H). simpl in H0. lia. Qed.

Lemma wizard_rate_limit_witness :
  Forall (fun c => fst c = 42%Z /\ (0 <= snd c)%Q /\ (snd c < 0 + WIZARD_RATE_WINDOW)%Q)
    [(42%Z, 1#1); (42%Z, 2#1); (42%Z, 3#1); (42%Z, 4#1); (42%Z, 5#1); (42%Z, 6#1); (42%Z, 7#1)] /\
  (List.length (List.filter (fun b : bool => b)
     (fst (run_wizard_starts [(42%Z, 1#1); (42%Z, 2#1); (42%Z, 3#1); (42%Z, 4#1); (42%Z, 5#1); (42%Z, 6#1); (42%Z, 7#1)] ∅))) <= 5)%nat.
Proof.
  assert (H : Forall (fun c => fst c = 42%Z /\ (0 <= snd c)%Q /\ (snd c < 0 + WIZARD_RATE_WINDOW)%Q)
    [(42%Z, 1#1); (42%Z, 2#1); (42%Z, 3#1); (42%Z, 4#1); (42%Z, 5#1); (42%Z, 6#1); (42%Z, 7#1)])
    by (unfold WIZARD_RATE_WINDOW; repeat constructor; simpl; lra).
  split; [exact H | exact (wizard_rate_limit 42 0 _ ∅ H)].
Defined.

(* ------------------------------------------------------------------ *)
(** ** Promo codes and the wallet (src/db.py:178-214, 316-337) *)

(** X8. After [create_promo] has stored a code (upper-cased) with a
    positive or absent [max_uses], [apply_promo] of the same code in any
    letter case, by an agent who has not redeemed it, returns the
    discount as stored, sets [used_count] to 1 and appends one redemption
    row; a second [create_promo] of the code in any letter case fails
    with the UNIQUE [IntegrityError] and changes nothing. *)
Theorem create_then_apply_promo (code code' : string) (disc : F) (mu : option Z) (tg ts ts' : Z) (d d1 : DB) :
  py_upper code' = py_upper code ->
  match mu with Some m => 0 < m | None => True end ->
  redeemed (py_upper code) tg (promo_redemptions d) = false ->
  create_promo code disc mu ts d = (inl tt, d1) ->
  exists disc', sql_real disc = Some disc' /\
  (exists d2, apply_promo code' tg ts' d1 = (inl disc', d2) /\
     promo_codes d2 !! py_upper code = Some (mkPromoRow disc' mu 1 true ts) /\
     promo_redemptions d2 = promo_redemptions d ++ [mkRedemption (py_upper code) tg ts']) /\
  create_promo code' disc mu ts' d1 = (inr (IntegrityError "UNIQUE constraint failed: promo_codes.code"), d1).
Proof.
  intros Hc Hm Hr. unfold create_promo.
  destruct (sql_real disc) as [disc'|] eqn:Ed; [|discriminate].
  destruct (promo_codes d !! py_upper code) eqn:E; [discriminate|].
  intros [= <-]. exists disc'. split; [reflexivity|]. split.
  - unfold apply_promo. cbn [promo_codes set_promo_codes promo_redemptions]. rewrite Hc, lookup_insert_eq.
    cbn [negb p_active p_max_uses p_used_count].
    replace (match mu with Some m => m <=? 0 | None => false end) with false
      by (destruct mu; [symmetry; apply Z.leb_gt; exact Hm | reflexivity]).
    cbn [promo_redemptions set_promo_codes]. rewrite Hr.
    eexists. split; [reflexivity|]. cbn. rewrite lookup_insert_eq. split; reflexivity.
  - cbn [promo_codes set_promo_codes]. rewrite Hc, lookup_insert_eq. reflexivity.
Qed.

Lemma create_then_apply_promo_witness :
  create_promo "Sale" (Fin 10) (Some 5) 1 (snd (create_promo "sale" (Fin 10) (Some 5) 0 (db0 (Fin 20)))) =
    (inr (IntegrityError "UNIQUE constraint failed: promo_codes.code"),
     snd (create_promo "sale" (Fin 10) (Some 5) 0 (db0 (Fin 20)))).
Proof.
  destruct (create_then_apply_promo "sale" "Sale" (Fin 10) (Some 5) 42 0 1 (db0 (Fin 20))
    (snd (create_promo "sale" (Fin 10) (Some 5) 0 (db0 (Fin 20)))) ltac:(vm_compute; reflexivity)
    ltac:(simpl; lia) ltac:(vm_compute; reflexivity) ltac:(vm_compute; reflexivity)) as (disc' & _ & _ & H).
  exact H.
Defined.

(** X9. [apply_promo] keeps two invariants of the promo tables: every
    code's [used_count] stays within its [max_uses], and no (code, agent)
    pair is redeemed twice. *)
Theorem apply_promo_invariants (code : string) (tg ts : Z) (d : DB) :
  within_limits d ->
  NoDup (map (fun r => (r_code r, r_tg_id r)) (promo_redemptions d)) ->
  within_limits (snd (apply_promo code tg ts d)) /\
  NoDup (map (fun r => (r_code r, r_tg_id r)) (promo_redemptions (snd (apply_promo code tg ts d)))).
Proof.
  intros Hl Hn. unfold apply_promo.
  destruct (promo_codes d !! py_upper code) as [p|] eqn:Ep; [|auto].
  destruct (negb (p_active p)); [auto|].
  destruct (match p_max_uses p with Some m => m <=? p_used_count p | None => false end) eqn:Em; [auto|].
  destruct (redeemed (py_upper code) tg (promo_redemptions d)) eqn:Er; [auto|].
  cbn. split.
  - unfold within_limits. cbn. apply map_Forall_insert_2; [|exact Hl].
    unfold bump_used. cbn. destruct (p_max_uses p); [apply Z.leb_gt in Em; lia | exact I].
  - rewrite map_app. apply NoDup_app. split; [exact Hn|]. split; [|apply NoDup_singleton].
    intros x Hx Hx'. cbn in Hx'. apply list_elem_of_singleton in Hx'. subst x.
    apply list_elem_of_In, in_map_iff in Hx as (r & Hr & Hin).
    assert (redeemed (py_upper code) tg (promo_redemptions d) = true).
    { apply existsb_exists. exists r. split; [exact Hin|]. injection Hr as H1 H2.
      rewrite H1, H2. rewrite !bool_decide_eq_true_2 by reflexivity. reflexivity. }
    congruence.
Qed.

Lemma apply_promo_invariants_witness :
  within_limits (snd (apply_promo "sale" 42 5 (dpromo (Some 1)))) /\
  NoDup (map (fun r => (r_code r, r_tg_id r)) (promo_redemptions (snd (apply_promo "sale" 42 5 (dpromo (Some 1)))))).
Proof.
  apply apply_promo_invariants; [|simpl; constructor].
  unfold within_limits, dpromo. simpl. apply map_Forall_insert_2; [simpl; lia | apply map_Forall_empty].
Defined.

(** X10. For an unknown agent, [add_balance] still appends the ledger
    row (the amount as SQLite stores it; a NaN amount is refused by the
    [NOT NULL] column), changes no agent, and returns the balance 0. *)
Theorem add_balance_unknown_agent (tg : Z) (amount : F) (reason meta : string) (ts : Z) (d : DB) :
  get_agent tg d = None ->
  add_balance tg amount reason meta ts d =
    match sql_real amount with
    | Some amt => (inl (Fin 0), set_wallet_ledger (wallet_ledger d ++ [mkLedgerRow tg amt reason meta ts]) d)
    | None => (inr (not_null "wallet_ledger.amount"), d)
    end.
Proof.
  intros H. unfold add_balance. rewrite H.
  destruct (sql_real amount) as [amt|]; [|reflexivity].
  unfold balance_or_0, append_ledger, get_agent in *. cbn. rewrite H. reflexivity.
Qed.

Lemma add_balance_unknown_agent_witness :
  add_balance 7 (Fin 5) "topup.manual" "" 0 (db0 (Fin 20)) =
    match sql_real (Fin 5) with
    | Some amt => (inl (Fin 0), set_wallet_ledger (wallet_ledger (db0 (Fin 20)) ++ [mkLedgerRow 7 amt "topup.manual" "" 0]) (db0 (Fin 20)))
    | None => (inr (not_null "wallet_ledger.amount"), db0 (Fin 20))
    end.
Proof. apply add_balance_unknown_agent. vm_compute. reflexivity. Defined.

Lemma Qlt_bool_false (a b : Q) : Qlt_bool a b = false -> (b <= a)%Q.
Proof. unfold Qlt_bool. intros E. apply negb_false_iff, Qle_bool_iff in E. exact E. Qed.

Lemma pow2_pos (e : Z) : (0 < pow2 e)%Q.
Proof.
  unfold pow2. destruct (0 <=? e) eqn:E.
  - apply Z.leb_le in E. unfold Qlt. simpl. pose proof (Z.pow_pos_nonneg 2 e ltac:(lia) E). lia.
  - reflexivity.
Qed.

Lemma round_half_even_nonneg (y : Q) : (0 <= y)%Q -> 0 <= round_half_even y.
Proof.
  intros Hy. unfold round_half_even. unfold Qle in Hy. simpl in Hy.
  assert (0 <= Qnum y / Zpos (Qden y)) by (apply Z.div_pos; lia).
  destruct (Z.compare _ _); [destruct (Z.even _)|..]; lia.
Qed.

Lemma fle0_Fin (r : Q) : (0 <= r)%Q -> fle (Fin 0) (Fin r) = true.
Proof.
  intros H. unfold fle, flt, feq. cbn [fval].
  destruct (Qeq_bool 0 r) eqn:E; [apply orb_true_r|]. rewrite orb_false_r.
  unfold Qlt_bool. apply negb_true_iff. destruct (Qle_bool r 0) eqn:E2; [|reflexivity].
  apply Qle_bool_iff in E2. exfalso. assert (r == 0)%Q by lra.
  apply Qeq_bool_iff in H0. rewrite Qeq_bool_comm in H0. congruence.
Qed.

(** A rounded non-negative value is not negative. *)
Lemma f64_nonneg (q : Q) : (0 <= q)%Q -> fle (Fin 0) (f64 q) = true.
Proof.
  intros Hq. unfold f64. pose proof Hq as Hq'. unfold Qle in Hq'. simpl in Hq'.
  destruct (Qnum q) as [|p|p] eqn:En; [reflexivity| |lia].
  cbn [Z.ltb Z.compare]. 
  set (m := round_half_even _).
  assert (Hm : 0 <= m).
  { apply round_half_even_nonneg. apply Qmult_le_0_compat; [apply Qabs_nonneg | apply Qlt_le_weak, pow2_pos]. }
  destruct (Qle_bool _ _); [reflexivity|]. destruct (m =? 0); [reflexivity|].
  apply fle0_Fin. rewrite Qred_correct. apply Qmult_le_0_compat; [|apply Qlt_le_weak, pow2_pos].
  unfold Qle. simpl. lia.
Qed.

(** When [x < y] fails and [x - y] is stored, the stored value is not
    negative. *)
Lemma fsub_stored_nonneg (x y b : F) :
  flt x y = false -> sql_real (fsub x y) = Some b -> fle (Fin 0) b = true.
Proof.
  intros Hlt Hb. destruct x as [p| |[]|], y as [q| |[]|]; cbn in Hlt, Hb |- *;
    try discriminate; try (injection Hb as <-; reflexivity).
  - destruct (Qeq_bool q 0) eqn:Eq; cbn in Hb.
    + injection Hb as <-. apply Qeq_bool_iff in Eq. apply Qlt_bool_false in Hlt. apply fle0_Fin. lra.
    + apply Qlt_bool_false in Hlt.
      assert (Hf : fle (Fin 0) (f64 (p + - q)) = true) by (apply f64_nonneg; lra).
      destruct (f64 (p + - q)); cbn in Hb; try discriminate; injection Hb as <-; try exact Hf; reflexivity.
  - apply Qlt_bool_false in Hlt.
    assert (Hf : fle (Fin 0) (f64 (p + 0)) = true) by (apply f64_nonneg; lra).
    destruct (f64 (p + 0)); cbn in Hb; try discriminate; injection Hb as <-; try exact Hf; reflexivity.
  - destruct (Qeq_bool q 0) eqn:Eq; cbn in Hb; injection Hb as <-; [reflexivity|].
    apply Qlt_bool_false in Hlt. apply fle0_Fin.
    assert (~ q == 0)%Q by (intros H; apply Qeq_bool_iff in H; congruence). lra.
  - destruct (Qeq_bool q 0); cbn in Hb; injection Hb as <-; reflexivity.
Qed.

(** X11. A successful [deduct_balance] returns a non-negative balance,
    which is the agent's stored balance afterwards; for a known agent it
    is the old balance minus the amount, as a double and as SQLite
    stores it. *)
Theorem deduct_balance_nonneg (tg : Z) (amount : F) (reason meta : string) (ts : Z) (d d' : DB) (b : F) :
  deduct_balance tg amount reason meta ts d = (inl b, d') ->
  fle (Fin 0) b = true /\ b = balance_or_0 tg d' /\
  (forall a, get_agent tg d = Some a -> sql_real (fsub (balance a) amount) = Some b).
Proof.
  unfold deduct_balance. destruct (flt (balance_or_0 tg d) amount) eqn:E; [discriminate|].
  unfold balance_or_0 in E |- *. unfold get_agent in *.
  destruct (agents d !! tg) as [a|] eqn:Ea.
  - destruct (sql_real (fsub (balance a) amount)) as [b1|] eqn:Eb; [|discriminate].
    destruct (sql_real (fneg amount)) as [amt|]; [|discriminate].
    intros [= <- <-]. cbn. rewrite lookup_alter_eq, Ea. cbn.
    split; [exact (fsub_stored_nonneg _ _ _ E Eb)|]. split; [reflexivity|].
    intros a' [= <-]. exact Eb.
  - destruct (sql_real (fneg amount)) as [amt|]; [|discriminate].
    intros [= <- <-]. cbn. try rewrite (alter_id' _ _ _ Ea); rewrite ?Ea. split; [reflexivity|]. split; [reflexivity|].
    discriminate.
Qed.

Lemma deduct_balance_nonneg_witness :
  fle (Fin 0) (Fin 15) = true /\ Fin 15 = balance_or_0 42 (snd (deduct_balance 42 (Fin 5) "order" "" 0 (db0 (Fin 20)))) /\
  (forall a, get_agent 42 (db0 (Fin 20)) = Some a -> sql_real (fsub (balance a) (Fin 5)) = Some (Fin 15)).
Proof. apply (deduct_balance_nonneg 42 (Fin 5) "order" "" 0 (db0 (Fin 20))). vm_compute. reflexivity. Defined.

(* ------------------------------------------------------------------ *)
(** ** Ledger, listings and stats (src/db.py:188-292) *)

Lemma add_balance_ledger (tg : Z) (amount : F) (reason meta : string) (ts : Z) (d d' : DB) (b : F) :
  add_balance tg amount reason meta ts d = (inl b, d') ->
  exists amt, sql_real amount = Some amt /\
    wallet_ledger d' = wallet_ledger d ++ [mkLedgerRow tg amt reason meta ts].
Proof.
  unfold add_balance.
  destruct (match get_agent tg d with
            | Some a => match credit_cols amount reason a with
                        | inl (b, l) => inl (update_agent tg (credit_agent b l ts) d)
                        | inr e => inr e end
            | None => inl d end) as [d1|e] eqn:Eu; [|discriminate].
  assert (Hl : wallet_ledger d1 = wallet_ledger d).
  { destruct (get_agent tg d) as [a|]; [|injection Eu as <-; reflexivity].
    destruct (credit_cols amount reason a) as [[b1 l1]|]; [|discriminate]. injection Eu as <-. reflexivity. }
  destruct (sql_real amount) as [amt|]; [|discriminate]. intros [= _ <-].
  exists amt. split; [reflexivity|]. cbn. rewrite Hl. reflexivity.
Qed.

(** X12. After [add_balance], [list_transactions] of that agent with a
    positive limit returns the new row first, followed by the older rows
    up to the limit minus one; other agents' listings do not change. *)
Theorem list_transactions_after_add_balance (tg : Z) (amount : F) (reason meta : string) (ts limit : Z)
    (d d' : DB) (b : F) :
  add_balance tg amount reason meta ts d = (inl b, d') ->
  exists amt, sql_real amount = Some amt /\
  (0 < limit ->
   list_transactions tg limit d' = mkLedgerRow tg amt reason meta ts :: list_transactions tg (limit - 1) d) /\
  (forall tg', tg' <> tg -> list_transactions tg' limit d' = list_transactions tg' limit d).
Proof.
  intros H. destruct (add_balance_ledger _ _ _ _ _ _ _ _ H) as (amt & Ha & Hl).
  exists amt. split; [exact Ha|]. unfold list_transactions. rewrite Hl, List.filter_app. cbn. split.
  - intros Hlim. rewrite bool_decide_eq_true_2 by reflexivity. cbn. rewrite rev_app_distr. cbn.
    unfold sql_limit. replace (limit <? 0) with false by (symmetry; apply Z.ltb_ge; lia).
    replace (limit - 1 <? 0) with false by (symmetry; apply Z.ltb_ge; lia).
    replace (Z.to_nat limit) with (S (Z.to_nat (limit - 1))) by lia. reflexivity.
  - intros tg' Hne. rewrite List.filter_app. cbn. rewrite bool_decide_eq_false_2 by congruence. rewrite app_nil_r. reflexivity.
Qed.

Lemma list_transactions_after_add_balance_witness :
  exists amt, sql_real (Fin 10) = Some amt /\
  (0 < 3 ->
   list_transactions 42 3 (snd (add_balance 42 (Fin 10) "topup.manual" "" 5 (db0 (Fin 20)))) =
     mkLedgerRow 42 amt "topup.manual" "" 5 :: list_transactions 42 (3 - 1) (db0 (Fin 20))) /\
  (forall tg', tg' <> 42 ->
   list_transactions tg' 3 (snd (add_balance 42 (Fin 10) "topup.manual" "" 5 (db0 (Fin 20)))) =
     list_transactions tg' 3 (db0 (Fin 20))).
Proof.
  exact (list_transactions_after_add_balance 42 (Fin 10) "topup.manual" "" 5 3 (db0 (Fin 20))
    (snd (add_balance 42 (Fin 10) "topup.manual" "" 5 (db0 (Fin 20)))) (Fin 30) ltac:(vm_compute; reflexivity)).
Defined.

Lemma sql_limit_own {A} (f : A -> Z) (tg limit : Z) (l : list A) :
  Forall (fun r => f r = tg) (sql_limit limit (rev (List.filter (fun r => bool_decide (f r = tg)) l))) /\
  (0 <= limit ->
   (List.length (sql_limit limit (rev (List.filter (fun r => bool_decide (f r = tg)) l))) <= Z.to_nat limit)%nat).
Proof.
  unfold sql_limit. split.
  - assert (H : Forall (fun r => f r = tg) (rev (List.filter (fun r => bool_decide (f r = tg)) l))).
    { apply Forall_rev. apply List.Forall_forall. intros r Hr. apply filter_In in Hr as [_ Hr].
      apply bool_decide_eq_true_1 in Hr. exact Hr. }
    destruct (limit <? 0); [exact H|]. apply Forall_take. exact H.
  - intros Hl. replace (limit <? 0) with false by (symmetry; apply Z.ltb_ge; lia).
    rewrite length_firstn. lia.
Qed.

(** X13. [list_transactions] and [list_clients] return only rows of the
    agent asked for, and with a limit [>= 0] at most [limit] of them (a
    negative [LIMIT] means no limit in SQLite). *)
Theorem list_rows_own_agent (tg limit : Z) (d : DB) :
  Forall (fun r => l_tg_id r = tg) (list_transactions tg limit d) /\
  Forall (fun r => c_tg_id r = tg) (list_clients tg limit d) /\
  (0 <= limit ->
   (List.length (list_transactions tg limit d) <= Z.to_nat limit)%nat /\
   (List.length (list_clients tg limit d) <= Z.to_nat limit)%nat).
Proof.
  destruct (sql_limit_own l_tg_id tg limit (wallet_ledger d)) as [H1 H2].
  destruct (sql_limit_own c_tg_id tg limit (created_clients d)) as [H3 H4].
  split; [exact H1|]. split; [exact H3|]. intros Hl. split; [exact (H2 Hl) | exact (H4 Hl)].
Qed.

Lemma list_rows_own_agent_witness :
  le (List.length (list_transactions 42 1 (snd (add_balance 42 (Fin 10) "topup.manual" "" 5
     (snd (add_balance 42 (Fin 10) "topup.manual" "" 4 (db0 (Fin 20)))))))) (Z.to_nat 1) /\
  le (List.length (list_clients 42 1 (db0 (Fin 20)))) (Z.to_nat 1).
Proof.
  split.
  - exact (proj1 (proj2 (proj2 (list_rows_own_agent 42 1 _)) ltac:(lia))).
  - exact (proj2 (proj2 (proj2 (list_rows_own_agent 42 1 (db0 (Fin 20)))) ltac:(lia))).
Defined.

Lemma sum_counts_app (l : list OrderRow) (o : OrderRow) :
  fold_right Z.add 0 (map o_count (l ++ [o])) = fold_right Z.add 0 (map o_count l) + o_count o.
Proof. induction l as [|x l IH]; cbn; [lia|]. rewrite IH. lia. Qed.

(** X14. [create_order] with a status other than [success] changes no
    agent's stats. A [success] order raises the agent's order count by 1
    and the client count by the order's count; spent and today's sales
    (the order is at [ts]) become SQLite's [SUM] of the earlier values
    followed by the order's net price as stored; balance and lifetime
    top-up stay the same. Orders of one agent never change another
    agent's stats. *)
Theorem agent_stats_create_order (tg i : Z) (kind : string) (days gb count : Z) (g di n : F)
    (status : string) (ts : Z) (d d' : DB) :
  create_order tg i kind days gb count g di n status ts d = (inl tt, d') ->
  (status <> "success" -> forall tg' ts', agent_stats tg' ts' d' = agent_stats tg' ts' d) /\
  (status = "success" -> exists n', sql_real n = Some n' /\
     let succ := List.filter (fun o => bool_decide (o_tg_id o = tg) && String.eqb (o_status o) "success")
                   (orders d) in
     let s := agent_stats tg ts d in let s' := agent_stats tg ts d' in
     st_orders s' = st_orders s + 1 /\ st_clients s' = st_clients s + count /\
     st_spent s' = default (Fin 0) (sql_sum (map o_net_price succ ++ [n'])) /\
     st_today_sales s' =
       default (Fin 0) (sql_sum (map o_net_price (List.filter (fun o => ts - 86400 <=? o_created_at o) succ) ++ [n'])) /\
     st_balance s' = st_balance s /\ st_lifetime_topup s' = st_lifetime_topup s) /\
  (forall tg' ts', tg' <> tg -> agent_stats tg' ts' d' = agent_stats tg' ts' d).
Proof.
  unfold create_order.
  destruct (sql_real g) as [g'|]; [|discriminate].
  destruct (sql_real di) as [di'|]; [|discriminate].
  destruct (sql_real n) as [n'|] eqn:En; [|discriminate].
  intros [= <-]. split; [|split].
  - intros Hs tg' ts'. unfold agent_stats. cbn. rewrite !List.filter_app. cbn. replace (String.eqb status "success") with false
      by (symmetry; apply String.eqb_neq; exact Hs).
    rewrite andb_false_r. cbn. rewrite !app_nil_r. reflexivity.
  - intros ->. exists n'. split; [reflexivity|]. unfold agent_stats. cbn. rewrite !List.filter_app. cbn.
    rewrite bool_decide_eq_true_2 by reflexivity. cbn.
    rewrite ?List.filter_app. cbn. rewrite ?(proj2 (Z.leb_le (ts - 86400) ts) ltac:(lia)). cbn.
    rewrite length_app, sum_counts_app, !map_app. cbn [map].
    cbn [List.length]. repeat split; try reflexivity; lia.
  - intros tg' ts' Hne. unfold agent_stats. cbn. rewrite !List.filter_app. cbn.
    rewrite bool_decide_eq_false_2 by congruence. cbn. rewrite !app_nil_r. reflexivity.
Qed.

Lemma agent_stats_create_order_witness :
  st_orders (agent_stats 42 100 (snd (create_order 42 7 "single" 30 50 1 (Fin (21 # 2)) (Fin 0) (Fin (21 # 2))
                                        "success" 100 (db0 (Fin 20))))) =
  st_orders (agent_stats 42 100 (db0 (Fin 20))) + 1.
Proof.
  destruct (agent_stats_create_order 42 7 "single" 30 50 1 (Fin (21 # 2)) (Fin 0) (Fin (21 # 2)) "success" 100 (db0 (Fin 20))
    (snd (create_order 42 7 "single" 30 50 1 (Fin (21 # 2)) (Fin 0) (Fin (21 # 2)) "success" 100 (db0 (Fin 20))))
    ltac:(reflexivity)) as (_ & Hs & _).
  destruct (Hs eq_refl) as (n' & _ & H & _). exact H.
Defined.

(* ------------------------------------------------------------------ *)
(** ** Commands and the order flow (src/telegram_bot.py:991-1009, 1200-1213) *)

Lemma Qlt_bool_true (a b : Q) : Qlt_bool a b = true -> (a < b)%Q.
Proof.
  unfold Qlt_bool. intros E. apply negb_true_iff in E. apply Qnot_le_lt. intros H.
  apply Qle_bool_iff in H. congruence.
Qed.

(** [x < y] rules out [y <= x]. *)
Lemma flt_fle_false (x y : F) : flt x y = true -> fle y x = false.
Proof.
  intros H. unfold fle. apply orb_false_iff.
  destruct x as [p| |[]|], y as [q| |[]|]; cbn in H |- *; try discriminate; try (split; reflexivity);
    apply Qlt_bool_true in H; split;
    try (apply negb_false_iff, Qle_bool_iff; lra);
    (destruct (Qeq_bool _ _) eqn:E; [apply Qeq_bool_iff in E; lra | reflexivity]).
Qed.

Lemma flt0_stored (x : F) : flt (Fin 0) x = true -> sql_real x = Some x.
Proof.
  destruct x as [q| |[]|]; cbn; try reflexivity; try discriminate.
Qed.

(** X15. [/topup] with an amount [<= 0] only replies
    "Amount must be > 0". With a positive amount for a known agent whose
    new balance and lifetime top-up can be stored, it credits them,
    appends a [topup.manual] ledger row, and replies with the new
    balance. *)
Theorem topup_effect (uid : Z) (a : string) (amt : F) (s : World) :
  py_float a = Some amt ->
  (fle amt (Fin 0) = true -> topup uid [a] s = (inl tt, set_out (w_out s ++ [Txt "Amount must be > 0"]) s)) /\
  (flt (Fin 0) amt = true -> forall ag b l, get_agent uid (w_db s) = Some ag ->
     credit_cols amt "topup.manual" ag = inl (b, l) ->
     exists s', topup uid [a] s = (inl tt, s') /\
       get_agent uid (w_db s') = Some (credit_agent b l (w_now s) ag) /\
       wallet_ledger (w_db s') = wallet_ledger (w_db s) ++ [mkLedgerRow uid amt "topup.manual" "" (w_now s)] /\
       w_out s' = w_out s ++ [Fmt "Top-up ok. Balance: {}" [AF b]]).
Proof.
  intros Ha. unfold topup. rewrite Ha. split.
  - intros Hle. rewrite Hle. reflexivity.
  - intros Hlt ag b l Hag Hc. rewrite (flt_fle_false _ _ Hlt).
    unfold bind, db, add_balance, reply. rewrite Hag, Hc, (flt0_stored _ Hlt). cbn.
    unfold balance_or_0, append_ledger, update_agent, get_agent in *. cbn. rewrite lookup_alter_eq, Hag. cbn.
    eexists. split; [reflexivity|]. cbn. rewrite lookup_alter_eq, Hag. auto.
Qed.

Lemma topup_effect_witness :
  exists s', topup 42 ["5"] (world0 (db0 (Fin 20)) idle no_fail) = (inl tt, s') /\
    get_agent 42 (w_db s') = Some (credit_agent (Fin 25) (Fin 5) (w_now (world0 (db0 (Fin 20)) idle no_fail)) (agent0 (Fin 20))) /\
    wallet_ledger (w_db s') = wallet_ledger (w_db (world0 (db0 (Fin 20)) idle no_fail)) ++
      [mkLedgerRow 42 (Fin 5) "topup.manual" "" (w_now (world0 (db0 (Fin 20)) idle no_fail))] /\
    w_out s' = w_out (world0 (db0 (Fin 20)) idle no_fail) ++ [Fmt "Top-up ok. Balance: {}" [AF (Fin 25)]].
Proof.
  exact (proj2 (topup_effect 42 "5" (Fin 5) (world0 (db0 (Fin 20)) idle no_fail) ltac:(vm_compute; reflexivity))
    ltac:(vm_compute; reflexivity) (agent0 (Fin 20)) (Fin 25) (Fin 5) ltac:(vm_compute; reflexivity)
    ltac:(vm_compute; reflexivity)).
Defined.

(** X16. When the order can be prepared but the agent is unknown or
    was disabled by [set_agent_active], [finalize_order] resets the
    session, replies that the reseller account is disabled, and changes
    nothing else: the database is untouched and the panel is not called. *)
Theorem finalize_order_disabled (cfg : Config) (uid : Z) (w : gmap string PyVal) (s s1 : World) (p : Prep)
    (ts : Z) (d : DB) :
  prepare w s = (inl p, s1) ->
  (get_agent uid (w_db s) = None \/ w_db s = snd (set_agent_active uid false ts d)) ->
  finalize_order cfg uid w s =
    (inl tt, set_out (w_out s ++ [Txt "Your reseller account is disabled. Contact admin."])
               (set_ud (mkSession None (Some ∅) None) s)).
Proof.
  intros Hp Hd. pose proof (prepare_pops_promo w s s1 p Hp) as Hs1.
  unfold finalize_order. rewrite (bind_inl _ _ s s1 p Hp).
  rewrite (bind_inl _ _ s1 s1 (get_agent uid (w_db s1))) by reflexivity.
  assert (He : agent_enabled (get_agent uid (w_db s1)) = false).
  { subst s1. cbn. destruct Hd as [H | ->]; [rewrite H; reflexivity|].
    unfold set_agent_active, get_agent, update_agent. cbn.
    destruct (agents d !! uid) eqn:E; [rewrite lookup_alter_eq, E; reflexivity|].
    rewrite (alter_id' _ _ _ E), E. reflexivity. }
  rewrite He. subst s1. reflexivity.
Qed.

Lemma finalize_order_disabled_witness :
  finalize_order cfg0 42 wiz_single world_disabled =
    (inl tt, set_out (w_out world_disabled ++ [Txt "Your reseller account is disabled. Contact admin."])
               (set_ud (mkSession None (Some ∅) None) world_disabled)).
Proof.
  apply (finalize_order_disabled cfg0 42 wiz_single world_disabled (snd (prepare wiz_single world_disabled))
           prep_single 0 (db0 (Fin 20))).
  - vm_compute. reflexivity.
  - right. reflexivity.
Defined.

(* ------------------------------------------------------------------ *)
(** ** The text flows (src/telegram_bot.py:688-875, 970-985) and
    [inbound_price] after a rule change (src/telegram_bot.py:302-308) *)

Ltac enter_flow s uid Hc :=
  unfold text_flow;
  rewrite (bind_inl _ _ s s (get_agent uid (w_db s))) by reflexivity;
  rewrite (bind_inl _ _ s s (w_ud s)) by reflexivity;
  cbv beta zeta; rewrite Hc.

(** X17. In the four admin text flows, a message that is not a cancel
    word from a user who is not the admin only gets "Not allowed": the
    session, the database and the panel are untouched. *)
Theorem admin_flows_refuse_non_admin (cfg : Config) (uid : Z) (raw f : string) (s : World) :
  is_cancel (py_strip raw) = false -> is_admin cfg uid = false ->
  ud_flow (w_ud s) = Some f ->
  In f ["admin_create_inbound"; "admin_set_global_price"; "admin_set_inbound_rule"; "admin_charge_wallet"] ->
  text_flow cfg uid raw s = (inl tt, set_out (w_out s ++ [Txt "Not allowed"]) s).
Proof.
  intros Hc Ha Hf Hin. enter_flow s uid Hc. rewrite Hf, Ha. cbn [default from_option id].
  destruct Hin as [<- | [<- | [<- | [<- | []]]]]; reflexivity.
Qed.

Lemma admin_flows_refuse_non_admin_witness :
  text_flow cfg0 42 "5" world_admin = (inl tt, set_out (w_out world_admin ++ [Txt "Not allowed"]) world_admin).
Proof.
  apply (admin_flows_refuse_non_admin cfg0 42 "5" "admin_charge_wallet"); try reflexivity.
  simpl. tauto.
Defined.

(** X18. A cancel word in any flow, or "n"/"no" at the wizard preview,
    clears the flow and the wizard, drops the pending promo, and replies
    with the cancel message and the main menu; the database is not
    touched. *)
Theorem cancel_resets_session (cfg : Config) (uid : Z) (raw : string) (s : World) :
  is_cancel (py_strip raw) = true \/
  (ud_flow (w_ud s) = Some "wizard_preview" /\ In (py_lower (py_strip raw)) ["n"; "no"]) ->
  text_flow cfg uid raw s =
    (inl tt, set_out (w_out s ++ [cancelled_msg; Txt "Main menu"]) (set_ud (mkSession None (Some ∅) None) s)).
Proof.
  intros H. unfold text_flow.
  rewrite (bind_inl _ _ s s (get_agent uid (w_db s))) by reflexivity;
  rewrite (bind_inl _ _ s s (w_ud s)) by reflexivity. cbv beta zeta.
  destruct (is_cancel (py_strip raw)) eqn:Hc.
  - cbn. unfold reply. cbn. rewrite <- app_assoc. reflexivity.
  - destruct H as [H | [Hf Hn]]; [discriminate|]. rewrite Hf. cbn [default from_option id].
    replace (existsb (String.eqb (py_lower (py_strip raw))) ["n"; "no"]) with true
      by (symmetry; apply existsb_exists; exists (py_lower (py_strip raw)); split; [exact Hn | apply String.eqb_refl]).
    cbn. unfold reply. cbn. rewrite <- app_assoc. reflexivity.
Qed.

Lemma cancel_resets_session_witness :
  text_flow cfg0 42 " Cancel " (world_flow (db0 (Fin 20)) "wizard_days" ∅) =
    (inl tt, set_out (w_out (world_flow (db0 (Fin 20)) "wizard_days" ∅) ++ [cancelled_msg; Txt "Main menu"])
               (set_ud (mkSession None (Some ∅) None) (world_flow (db0 (Fin 20)) "wizard_days" ∅))).
Proof. apply cancel_resets_session. left. vm_compute. reflexivity. Defined.

Lemma apply_promo_error (code : string) (tg ts : Z) (d d' : DB) (e : exn) :
  apply_promo code tg ts d = (inr e, d') -> d' = d.
Proof.
  unfold apply_promo. destruct (promo_codes d !! py_upper code) as [p|]; [|congruence].
  destruct (negb (p_active p)); [congruence|].
  destruct (match p_max_uses p with Some m => m <=? p_used_count p | None => false end); [congruence|].
  destruct (redeemed _ _ _); congruence.
Qed.

(** X19. In the [promo_apply] flow, a code that [apply_promo] rejects
    with a [ValueError] is answered with its message and changes nothing;
    an accepted code clears the flow, keeps the discount as the pending
    promo of the session, stores the redemption, and confirms the
    discount. *)
Theorem promo_apply_flow (cfg : Config) (uid : Z) (raw : string) (s : World) :
  is_cancel (py_strip raw) = false -> ud_flow (w_ud s) = Some "promo_apply" ->
  (forall m d', apply_promo (py_strip raw) uid (w_now s) (w_db s) = (inr (ValueError m), d') ->
     text_flow cfg uid raw s = (inl tt, set_out (w_out s ++ [Txt m]) s)) /\
  (forall disc d', apply_promo (py_strip raw) uid (w_now s) (w_db s) = (inl disc, d') ->
     text_flow cfg uid raw s =
       (inl tt, set_out (w_out s ++ [Fmt "Promo applied: {}% on your next order" [AF disc]])
                  (set_ud (mkSession None (Some ∅) (Some disc)) (set_db d' s)))).
Proof.
  intros Hc Hf. split.
  - intros m d' Ha. pose proof (apply_promo_error _ _ _ _ _ _ Ha) as ->.
    enter_flow s uid Hc. rewrite Hf. cbn [default from_option id].
    cbn [String.eqb Ascii.eqb Bool.eqb andb negb].
    unfold try_value_error, bind at 1. unfold bind at 1, db. rewrite Ha. cbn.
    rewrite set_db_same. reflexivity.
  - intros disc d' Ha.
    enter_flow s uid Hc. rewrite Hf. cbn [default from_option id].
    cbn [String.eqb Ascii.eqb Bool.eqb andb negb].
    unfold try_value_error, bind at 1. unfold bind at 1, db. rewrite Ha. cbn. reflexivity.
Qed.

Lemma promo_apply_flow_witness :
  text_flow cfg0 42 "sale" (world_flow (dpromo None) "promo_apply" ∅) =
    (inl tt, set_out (w_out (world_flow (dpromo None) "promo_apply" ∅) ++
                      [Fmt "Promo applied: {}% on your next order" [AF (Fin 10)]])
               (set_ud (mkSession None (Some ∅) (Some (Fin 10)))
                  (set_db (snd (apply_promo "sale" 42 1000 (dpromo None))) (world_flow (dpromo None) "promo_apply" ∅)))).
Proof.
  exact (proj2 (promo_apply_flow cfg0 42 "sale" (world_flow (dpromo None) "promo_apply" ∅)
    ltac:(vm_compute; reflexivity) ltac:(reflexivity)) (Fin 10) (snd (apply_promo "sale" 42 1000 (dpromo None)))
    ltac:(vm_compute; reflexivity)).
Defined.





(** X22. In the wizard's remark step, a remark that [normalize_remark]
    accepts is stored in the wizard and the flow moves on to the days
    step; a rejected one only gets the remark rules as a reply. *)
Theorem wizard_remark_flow (cfg : Config) (uid : Z) (raw : string) (s : World) (w : gmap string PyVal) :
  is_cancel (py_strip raw) = false -> ud_flow (w_ud s) = Some "wizard_remark" ->
  ud_wizard (w_ud s) = Some w ->
  (forall r, normalize_remark (py_strip raw) = Some r ->
     text_flow cfg uid raw s =
       (inl tt, set_out (w_out s ++ [Txt "Step 3/7: send total days. Hint: 30"])
                  (set_ud (mkSession (Some "wizard_days") (Some (<["remark" := VStr r]> w)) (ud_promo (w_ud s))) s))) /\
  (normalize_remark (py_strip raw) = None ->
     text_flow cfg uid raw s =
       (inl tt, set_out (w_out s ++ [Txt "Remark must be 2-64 chars using letters, numbers, underscore, or dash only."]) s)).
Proof.
  intros Hc Hf Hw. split.
  - intros r Hr. enter_flow s uid Hc. rewrite Hf, Hw. cbn [default from_option id].
    cbn [String.eqb Ascii.eqb Bool.eqb andb negb]. rewrite Hr.
    unfold w_set, bind, get_ud, put_ud, ret, set_flow, reply. cbn. rewrite Hw. reflexivity.
  - intros Hr. enter_flow s uid Hc. rewrite Hf, Hw. cbn [default from_option id].
    cbn [String.eqb Ascii.eqb Bool.eqb andb negb]. rewrite Hr. reflexivity.
Qed.

Lemma wizard_remark_flow_witness :
  text_flow cfg0 42 "user1" (world_flow (db0 (Fin 20)) "wizard_remark" ∅) =
    (inl tt, set_out (w_out (world_flow (db0 (Fin 20)) "wizard_remark" ∅) ++ [Txt "Step 3/7: send total days. Hint: 30"])
               (set_ud (mkSession (Some "wizard_days") (Some (<["remark" := VStr "user1"]> ∅)) None)
                  (world_flow (db0 (Fin 20)) "wizard_remark" ∅))).
Proof.
  exact (proj1 (wizard_remark_flow cfg0 42 "user1" (world_flow (db0 (Fin 20)) "wizard_remark" ∅) ∅
    ltac:(vm_compute; reflexivity) ltac:(reflexivity) ltac:(reflexivity)) "user1" ltac:(vm_compute; reflexivity)).
Defined.


